(** * pipiGo: the runtime scheduling and dispatch engine of [main.go]

    A shallow embedding of the Go program: the two registry maps
    [tasks] and [cronIDs], the cron engine [c], the [*Task] objects the
    maps and the timer closures point to, the store [db] and the lines
    printed on standard output are the fields of one [State] that every
    function threads explicitly.  What the program asks of its
    libraries and of the outside world (cron parser, URL parser, JSON
    decoder, the network, the clock, the store's verdict on an insert)
    is an input of the function that asks. *)

From stdpp Require Import gmap strings list pretty.
From Stdlib Require Import ZArith Lia.

Local Open Scope Z_scope.

(** ** Go values *)

(** Go's [int] and [time.Duration] are 64-bit two's complement integers
    on the platforms the Dockerfile builds for; arithmetic on them wraps
    around silently. *)
Definition wrap64 (z : Z) : Z := (z + 2 ^ 63) mod 2 ^ 64 - 2 ^ 63.

Definition int64_range (z : Z) : Prop := - 2 ^ 63 <= z < 2 ^ 63.

(** [time.Second], in nanoseconds. *)
Definition Second : Z := 1000000000.

(** A Go call returning [(value, error)]. *)
Inductive result (A : Type) : Type :=
  | Ok (a : A)
  | Err (e : string).
Arguments Ok {A} a.
Arguments Err {A} e.

(** The line feed that ends every [fmt.Printf] format of the program. *)
Definition LF : string := String (Ascii.ascii_of_nat 10) EmptyString.

(** ** Data model (main.go, lines 18-41) *)

Record Log := mkLog {
  log_ID : Z;
  log_TaskID : Z;
  log_Time : Z;
  log_StatusText : string;
  log_ResponseBody : string
}.

Definition with_log_ID (id : Z) (l : Log) : Log :=
  mkLog id (log_TaskID l) (log_Time l) (log_StatusText l) (log_ResponseBody l).

Record Task := mkTask {
  ID : Z;
  Name : string;
  CronExpr : string;
  URL : string;
  Method : string;
  Headers : string;
  Body : string;
  Timeout : Z;
  Logs : list Log;
  NextRun : Z
}.

Definition with_ID (id : Z) (t : Task) : Task :=
  mkTask id (Name t) (CronExpr t) (URL t) (Method t) (Headers t) (Body t)
         (Timeout t) (Logs t) (NextRun t).

Definition with_Timeout (n : Z) (t : Task) : Task :=
  mkTask (ID t) (Name t) (CronExpr t) (URL t) (Method t) (Headers t) (Body t)
         n (Logs t) (NextRun t).

Definition with_NextRun (n : Z) (t : Task) : Task :=
  mkTask (ID t) (Name t) (CronExpr t) (URL t) (Method t) (Headers t) (Body t)
         (Timeout t) (Logs t) n.

(** ** net/http values *)

(** [http.Header] is a map from canonical header names to value lists. *)
Record Request := mkRequest {
  req_Method : string;
  req_URL : string;
  req_Body : option string;
  req_Header : gmap string (list string)
}.

(** [http.Client{Timeout: d}]: [d] in nanoseconds. *)
Record Client := mkClient { client_Timeout : Z }.

(** What [client.Do] hands back: the status code and a body stream, the
    latter represented by what [io.ReadAll] will make of it. *)
Record Response := mkResponse {
  StatusCode : Z;
  resp_ReadAll : result string
}.

(** ** Collaborators

    The pure library functions the program calls.  None of them is code
    of this repository, so the development is parametric in them. *)
Class Libraries := {
  (** the [cron.WithSeconds()] parser: [Some err] when the expression
      does not parse *)
  cron_Parse_err : string -> option string;
  (** [http.NewRequest method url _]: [Some err] when it fails *)
  http_NewRequest_err : string -> string -> option string;
  (** [json.Unmarshal] into a [map[string]string], given as the sequence
      of pairs a [range] over the map visits (Go leaves the order open) *)
  json_Unmarshal : string -> result (list (string * string));
  (** [textproto.CanonicalMIMEHeaderKey], applied by [Header.Set] *)
  CanonicalMIMEHeaderKey : string -> string
}.

(** What the outside world answers during one run of [runTask]: the
    network, the clock, and the store's verdict on the insert of the
    record ([Ok id]: inserted under primary key [id]). *)
Record World := mkWorld {
  client_Do : Client -> Request -> result Response;
  time_Now : Z;
  db_Create_Log : result Z
}.

(** ** The cron engine

    Modelled from the spec: the Clock/Trigger Engine of section 4.2
    (github.com/robfig/cron/v3, a dependency that is not part of the
    repository): a set of active timers keyed by an opaque handle,
    [addEntry(cronExpr, callback) -> handle | error] and
    [removeEntry(handle)].  Handles come from a counter, so a new handle
    differs from every handle given out before.  The callback of an
    entry is the closure [func() { runTask(t.ID) }] of [registerTask];
    it is represented by the pointer [t] it captured. *)
Record Entry := mkEntry {
  entry_ID : Z;
  entry_Spec : string;
  entry_Job : nat
}.

Record Cron := mkCron {
  entries : list Entry;
  nextID : Z;
  running : bool
}.

Definition cron_New : Cron := mkCron [] 0 false.

Definition AddFunc {libs : Libraries} (spec : string) (cmd : nat) (cr : Cron)
  : result Z * Cron :=
  match cron_Parse_err spec with
  | Some err => (Err err, cr)
  | None =>
      let id := nextID cr + 1 in
      (Ok id, mkCron (entries cr ++ [mkEntry id spec cmd]) id (running cr))
  end.

Definition Remove (id : Z) (cr : Cron) : Cron :=
  mkCron (filter (fun e => entry_ID e <> id) (entries cr)) (nextID cr) (running cr).

Definition Start (cr : Cron) : Cron :=
  mkCron (entries cr) (nextID cr) true.

(** ** The store

    Modelled from the spec: the storage collaborator of section 6 (gorm
    over SQLite, not part of the repository): a task table whose primary
    key is the identifier and an execution-record table.  The [Task]
    model declares [OnDelete:CASCADE] for its records (line 30), but
    [main] opens the store without foreign-key enforcement (line 53),
    so SQLite does not apply the constraint: [db.Delete(&task)] removes
    the task row and nothing else. *)
Record DB := mkDB {
  db_tasks : list Task;
  db_logs : list Log
}.

(** [db.First(&task, id)] *)
Definition db_First (id : Z) (d : DB) : option Task :=
  List.find (fun t => bool_decide (ID t = id)) (db_tasks d).

(** [db.Find(&list)] *)
Definition db_Find (d : DB) : list Task := db_tasks d.

(** [db.Create(&req)] once the store accepted the row *)
Definition db_insert_task (t : Task) (d : DB) : DB :=
  mkDB (db_tasks d ++ [t]) (db_logs d).

(** [db.Create(&log)] once the store accepted the row *)
Definition db_insert_log (l : Log) (d : DB) : DB :=
  mkDB (db_tasks d) (db_logs d ++ [l]).

(** [db.Delete(&task)] *)
Definition db_Delete (t : Task) (d : DB) : DB :=
  mkDB (filter (fun r => ID r <> ID t) (db_tasks d)) (db_logs d).

(** ** Program state (main.go, lines 43-49)

    [tasks] is a [map[int]*Task]: its values are pointers, here indices
    into [heap], the [Task] variables whose address the program took.
    The program never writes through such a pointer once it is stored,
    and cells are never reused. *)
Record State := mkState {
  db : DB;
  tasks : gmap Z nat;
  cronIDs : gmap Z Z;
  c : Cron;
  heap : list Task;
  stdout : list string
}.

Definition set_db (f : DB -> DB) (s : State) : State :=
  mkState (f (db s)) (tasks s) (cronIDs s) (c s) (heap s) (stdout s).
Definition set_tasks (f : gmap Z nat -> gmap Z nat) (s : State) : State :=
  mkState (db s) (f (tasks s)) (cronIDs s) (c s) (heap s) (stdout s).
Definition set_cronIDs (f : gmap Z Z -> gmap Z Z) (s : State) : State :=
  mkState (db s) (tasks s) (f (cronIDs s)) (c s) (heap s) (stdout s).
Definition set_c (f : Cron -> Cron) (s : State) : State :=
  mkState (db s) (tasks s) (cronIDs s) (f (c s)) (heap s) (stdout s).

(** [fmt.Printf]: one more line on standard output. *)
Definition Printf (line : string) (s : State) : State :=
  mkState (db s) (tasks s) (cronIDs s) (c s) (heap s) (stdout s ++ [line]).

(** Taking the address of a local [Task] variable: the variable escapes
    to the heap, in a cell of its own. *)
Definition new_Task (t : Task) (s : State) : nat * State :=
  (length (heap s),
   mkState (db s) (tasks s) (cronIDs s) (c s) (heap s ++ [t]) (stdout s)).

(** The state the package-level [var] block sets up, over the store that
    [gorm.Open] found. *)
Definition init (d : DB) : State :=
  mkState d ∅ ∅ cron_New [] [].

(** ** The lines the program prints

    The formats of its [fmt.Printf] calls, [%d] being the decimal
    notation of a Go [int]. *)

(** line 165 *)
Definition line_register_failed (t : Task) (err : string) : string :=
  "任务 #" +:+ pretty (ID t) +:+ " (" +:+ Name t +:+ ") 注册失败: " +:+ err +:+ LF.

(** line 172 *)
Definition line_registered (t : Task) : string :=
  "任务 #" +:+ pretty (ID t) +:+ " (" +:+ Name t +:+ ") 已成功注册, Cron: '"
  +:+ CronExpr t +:+ "'" +:+ LF.

(** line 181 *)
Definition line_task_missing (id : Z) : string :=
  "执行任务失败：找不到任务 #" +:+ pretty id +:+ LF.

(** line 185 *)
Definition line_task_started (t : Task) : string :=
  "开始执行任务 #" +:+ pretty (ID t) +:+ ": " +:+ Name t +:+ LF.

(** line 216 *)
Definition line_bad_headers (t : Task) (err : string) : string :=
  "任务 #" +:+ pretty (ID t) +:+ " 的请求头JSON格式错误: " +:+ err +:+ LF.

(** line 249 *)
Definition line_log_failed (taskID : Z) (err : string) : string :=
  "任务 #" +:+ pretty taskID +:+ " 写日志失败: " +:+ err +:+ LF.

(** line 257 *)
Definition line_loaded (n : nat) : string :=
  "从数据库加载了 " +:+ pretty (Z.of_nat n) +:+ " 个任务..." +:+ LF.

(** line 151 *)
Definition line_serving : string :=
  "服务已启动，请访问 http://localhost:8080" +:+ LF.

(** The status summary of a completed exchange, line 236. *)
Definition status_summary (code : Z) : string := "状态: " +:+ pretty code.

Section Program.
Context {libs : Libraries}.

(** ** registerTask (main.go, lines 156-173)

    Like every function below that follows a [*Task], it returns [None]
    where the Go program would panic on a pointer that is not the
    address of a [Task]; the properties show this never happens.

    The function takes [taskMutex] twice, once for each map, and calls
    [c.AddFunc] in between.  [registerTask] below is the call run from
    its first line to its last with no other goroutine in between, as
    in the bootstrap load; [step] further down gives its three parts
    one at a time, as they interleave with other goroutines once
    [main] serves. *)

Definition registerTask (t : nat) (s : State) : option State :=
  task ← heap s !! t;
  let s := set_tasks <[ID task := t]> s in
  match AddFunc (CronExpr task) t (c s) with
  | (Err err, cr) =>
      Some (Printf (line_register_failed task err) (set_c (fun _ => cr) s))
  | (Ok entryID, cr) =>
      let s := set_c (fun _ => cr) s in
      let s := set_cronIDs <[ID task := entryID]> s in
      Some (Printf (line_registered task) s)
  end.

(** The critical section of the DELETE handler (main.go, lines 126-132):
    the registry's side of a delete, which the spec calls [unregister]. *)
Definition unregisterTask (id : Z) (s : State) : State :=
  let s :=
    match cronIDs s !! id with
    | Some entryID => set_cronIDs (delete id) (set_c (Remove entryID) s)
    | None => s
    end in
  set_tasks (delete id) s.

(** ** appendLog (main.go, lines 241-251) *)

Definition appendLog (taskID : Z) (statusText responseBody : string)
    (w : World) (s : State) : State :=
  let log := mkLog 0 taskID (time_Now w) statusText responseBody in
  match db_Create_Log w with
  | Ok id => set_db (db_insert_log (with_log_ID id log)) s
  | Err err => Printf (line_log_failed taskID err) s
  end.

(** ** runTask (main.go, lines 176-238) *)

(** [req.Header.Set(key, value)] *)
Definition Header_Set (key value : string) (req : Request) : Request :=
  mkRequest (req_Method req) (req_URL req) (req_Body req)
            (<[CanonicalMIMEHeaderKey key := [value]]> (req_Header req)).

(** [http.NewRequest(method, url, body)]: a request with no header yet. *)
Definition http_NewRequest (method url : string) (body : option string)
  : result Request :=
  match http_NewRequest_err method url with
  | Some err => Err err
  | None => Ok (mkRequest method url body ∅)
  end.

(** line 187 *)
Definition newClient (t : Task) : Client :=
  mkClient (wrap64 (Timeout t * Second)).

(** lines 191-200 *)
Definition newRequest (t : Task) : result Request :=
  if String.eqb (Method t) "POST" then
    match http_NewRequest "POST" (URL t) (Some (Body t)) with
    | Ok req => Ok (Header_Set "Content-Type" "application/json" req)
    | Err err => Err err
    end
  else http_NewRequest "GET" (URL t) None.

(** lines 207-218 *)
Definition setHeaders (t : Task) (req : Request) (s : State) : Request * State :=
  if String.eqb (Headers t) "" then (req, s)
  else
    match json_Unmarshal (Headers t) with
    | Ok headers =>
        (foldl (fun r kv => Header_Set kv.1 kv.2 r) req headers, s)
    | Err err =>
        (req, Printf (line_bad_headers t err) s)
    end.

Definition runTask (id : Z) (w : World) (s : State) : option State :=
  match tasks s !! id with
  | None => Some (Printf (line_task_missing id) s)
  | Some p =>
      t ← heap s !! p;
      let s := Printf (line_task_started t) s in
      let client := newClient t in
      match newRequest t with
      | Err err => Some (appendLog (ID t) ("创建请求失败: " +:+ err) "" w s)
      | Ok req =>
          let '(req, s) := setHeaders t req s in
          match client_Do w client req with
          | Err err => Some (appendLog (ID t) ("请求失败: " +:+ err) "" w s)
          | Ok resp =>
              match resp_ReadAll resp with
              | Err err =>
                  Some (appendLog (ID t)
                          (status_summary (StatusCode resp)
                           +:+ ", 读取响应体失败: " +:+ err) "" w s)
              | Ok bodyBytes =>
                  let statusText := status_summary (StatusCode resp) in
                  Some (appendLog (ID t) statusText bodyBytes w s)
              end
          end
      end
  end.

(** ** loadTasksFromDB (main.go, lines 254-263) *)

(** The loop: [taskCopy] is declared in the loop body, so every
    iteration has a variable of its own, whose address [registerTask]
    receives. *)
Fixpoint register_each (list : list Task) (s : State) : option State :=
  match list with
  | [] => Some s
  | taskCopy :: rest =>
      let '(p, s) := new_Task taskCopy s in
      s ← registerTask p s;
      register_each rest s
  end.

Definition loadTasksFromDB (s : State) : option State :=
  let list := db_Find (db s) in
  let s := Printf (line_loaded (length list)) s in
  register_each list s.

(** ** The HTTP handlers of main (main.go, lines 91-148)

    The routing layer (gin) is not modelled: a handler receives what
    the layer extracted from the request (the result of
    [ShouldBindJSON], the [:id] path parameter as an identifier) and
    returns the reply it gives to [ctx.JSON].  Each handler function
    below is the handler run from its first line to its last with no
    other goroutine in between; [exec] further down serves the same
    handlers one critical section at a time. *)
Inductive JSON :=
  | JError (msg : string)
  | JMessage (msg : string)
  | JTask (t : Task).

Record Reply := mkReply { reply_code : Z; reply_body : JSON }.

(** [GET /api/tasks] (lines 72-89).  [found] is what the query of
    lines 75-77 put into [list], read from the store before the handler
    takes the lock; [Entry_Next cr entryID] stands for
    [c.Entry(entryID).Next], the engine's next activation time of an
    entry.  The result is the list given to [ctx.JSON]. *)
Definition GET_api_tasks (found : list Task) (Entry_Next : Cron -> Z -> Z) (s : State)
  : list Task :=
  (fun t => match cronIDs s !! ID t with
            | Some entryID => with_NextRun (Entry_Next (c s) entryID) t
            | None => t
            end) <$> found.

(** [POST /api/tasks] (lines 92-115).  [create] is the outcome of
    [db.Create(&req)]: [Ok id] when the row was inserted under the
    primary key [id], which gorm writes back into [req.ID].  A request
    may carry execution records in its [logs] field; gorm then inserts
    them along with the task.  That insert of associated records is
    the store's and is not modelled: what is said below about the
    record table on a create is said of requests without records. *)
Definition POST_api_tasks (bind : result Task) (create : result Z) (s : State)
  : option (Reply * State) :=
  match bind with
  | Err err => Some (mkReply 400 (JError err), s)
  | Ok req =>
      if String.eqb (Name req) "" || String.eqb (CronExpr req) ""
         || String.eqb (URL req) ""
      then Some (mkReply 400 (JError "任务名称、Cron表达式和URL是必填项"), s)
      else
        let req := if Timeout req <=? 0 then with_Timeout 10 req else req in
        match create with
        | Err err => Some (mkReply 500 (JError err), s)
        | Ok id =>
            let req := with_ID id req in
            let s := set_db (db_insert_task req) s in
            let '(p, s) := new_Task req s in
            s ← registerTask p s;
            Some (mkReply 200 (JTask req), s)
        end
  end.

(** [DELETE /api/tasks/:id] (lines 118-137) *)
Definition DELETE_api_tasks (id : Z) (s : State) : Reply * State :=
  match db_First id (db s) with
  | None => (mkReply 404 (JError "任务不存在"), s)
  | Some task =>
      let s := unregisterTask (ID task) s in
      let s := set_db (db_Delete task) s in
      (mkReply 200 (JMessage "任务已删除"), s)
  end.

(** [POST /api/tasks/:id/run] (lines 140-148).  The second component is
    the goroutine the handler starts, [go runTask(task.ID)], given by
    the identifier it will run on. *)
Definition POST_api_tasks_run (id : Z) (s : State) : Reply * option Z :=
  match db_First id (db s) with
  | None => (mkReply 404 (JError "任务不存在"), None)
  | Some task => (mkReply 200 (JMessage "任务已在后台立即执行"), Some (ID task))
  end.

(** The engine fires the entry [entryID]: its closure reads [t.ID]
    through the pointer it captured and calls [runTask]. *)
Definition fire (entryID : Z) (w : World) (s : State) : option State :=
  match List.find (fun e => bool_decide (entry_ID e = entryID)) (entries (c s)) with
  | None => Some s
  | Some e => t ← heap s !! entry_Job e; runTask (ID t) w s
  end.

(** ** main (main.go, lines 51-153) *)

(** Everything [main] does before [r.Run]: the bootstrap load (line 62),
    [c.Start()] (line 150) and the banner (line 151).  No request is
    served and no timer fires before [r.Run] and [c.Start]: the
    bootstrap load runs alone. *)
Definition startup (d : DB) : option State :=
  s ← loadTasksFromDB (init d);
  Some (Printf line_serving (set_c Start s)).

(** *** Goroutines

    Once [main] serves, gin runs every handler in a goroutine of its
    own, the engine runs every job it fires in another, and they
    interleave.  A goroutine touches the shared state (the two maps
    under [taskMutex], the engine, the store, standard output) in a few
    separate accesses; between two of them any other goroutine may run.
    A [Thread] is a goroutine at such a point: the next access it will
    make, with the local variables it still needs. *)
Inductive Thread :=
  (** [registerTask(&req)] called by the create handler (line 113),
      about to take the lock of line 157 *)
  | RegisterTask (t : nat)
  (** about to call [c.AddFunc] (line 161) *)
  | Register_AddFunc (t : nat)
  (** [c.AddFunc] returned [entryID]; about to take the lock of line 169 *)
  | Register_cronIDs (t : nat) (entryID : Z)
  (** the delete handler found the row [task] (line 120); about to take
      the lock of line 126 *)
  | Delete_unregister (task : Task)
  (** about to call [db.Delete(&task)] (line 135) *)
  | Delete_row (task : Task)
  (** [runTask(id)], about to take the lock of line 177; [w] is what
      the outside world will answer it *)
  | RunTask (id : Z) (w : World)
  (** the lookup found [t]; about to print line 185 *)
  | RunTask_found (t : nat) (w : World)
  (** the header text did not decode; about to print line 216, then
      to send [req] *)
  | RunTask_warn (t : nat) (err : string) (req : Request) (w : World)
  (** about to call [appendLog] (lines 203, 223, 231, 237) *)
  | AppendLog (taskID : Z) (statusText responseBody : string) (w : World)
  (** about to print its last line (lines 165, 172, 181) *)
  | Print (line : string).

(** Lines 221-237: [client.Do], [io.ReadAll] and the record they lead
    to.  Nothing shared is touched before [appendLog]. *)
Definition send (t : Task) (req : Request) (w : World) : Thread :=
  match client_Do w (newClient t) req with
  | Err err => AppendLog (ID t) ("请求失败: " +:+ err) "" w
  | Ok resp =>
      match resp_ReadAll resp with
      | Err err =>
          AppendLog (ID t)
            (status_summary (StatusCode resp) +:+ ", 读取响应体失败: " +:+ err) "" w
      | Ok bodyBytes => AppendLog (ID t) (status_summary (StatusCode resp)) bodyBytes w
      end
  end.

(** One access to the shared state by a goroutine: the new state, and
    the goroutine at its next access ([None] when it has returned). *)
Definition step (th : Thread) (s : State) : option (State * option Thread) :=
  match th with
  | RegisterTask t =>
      task ← heap s !! t;
      Some (set_tasks <[ID task := t]> s, Some (Register_AddFunc t))
  | Register_AddFunc t =>
      task ← heap s !! t;
      match AddFunc (CronExpr task) t (c s) with
      | (Err err, cr) =>
          Some (set_c (fun _ => cr) s, Some (Print (line_register_failed task err)))
      | (Ok entryID, cr) =>
          Some (set_c (fun _ => cr) s, Some (Register_cronIDs t entryID))
      end
  | Register_cronIDs t entryID =>
      task ← heap s !! t;
      Some (set_cronIDs <[ID task := entryID]> s, Some (Print (line_registered task)))
  | Delete_unregister task =>
      Some (unregisterTask (ID task) s, Some (Delete_row task))
  | Delete_row task =>
      Some (set_db (db_Delete task) s, None)
  | RunTask id w =>
      match tasks s !! id with
      | None => Some (s, Some (Print (line_task_missing id)))
      | Some t => Some (s, Some (RunTask_found t w))
      end
  | RunTask_found t w =>
      task ← heap s !! t;
      Some (Printf (line_task_started task) s,
            Some match newRequest task with
                 | Err err => AppendLog (ID task) ("创建请求失败: " +:+ err) "" w
                 | Ok req =>
                     if String.eqb (Headers task) "" then send task req w
                     else
                       match json_Unmarshal (Headers task) with
                       | Ok headers =>
                           send task (foldl (fun r kv => Header_Set kv.1 kv.2 r) req headers) w
                       | Err err => RunTask_warn t err req w
                       end
                 end)
  | RunTask_warn t err req w =>
      task ← heap s !! t;
      Some (Printf (line_bad_headers task err) s, Some (send task req w))
  | AppendLog taskID statusText responseBody w =>
      Some (appendLog taskID statusText responseBody w s, None)
  | Print line =>
      Some (Printf line s, None)
  end.

(** *** What happens while [r.Run] serves

    A create, delete or run-now request arrives and its handler runs up
    to its first access to the store; the engine fires an entry and
    starts its job; a goroutine in flight makes its next access.  The
    listing handler and the home page change nothing and are not
    among the actions. *)
Inductive Action :=
  | CreateTask (bind : result Task) (create : result Z)
  | DeleteTask (id : Z)
  | RunNow (id : Z) (w : World)
  | Fire (entryID : Z) (w : World)
  | Step (i : nat).

(** Lines 92-111 of the create handler: up to [db.Create(&req)].  The
    second component is the address of [req], which the handler goes
    on to register. *)
Definition POST_api_tasks_create (bind : result Task) (create : result Z) (s : State)
  : State * option nat :=
  match bind with
  | Err err => (s, None)
  | Ok req =>
      if String.eqb (Name req) "" || String.eqb (CronExpr req) ""
         || String.eqb (URL req) ""
      then (s, None)
      else
        let req := if Timeout req <=? 0 then with_Timeout 10 req else req in
        match create with
        | Err err => (s, None)
        | Ok id =>
            let req := with_ID id req in
            let s := set_db (db_insert_task req) s in
            let '(p, s) := new_Task req s in
            (s, Some p)
        end
  end.

(** The goroutines in flight are kept in a list, in no particular
    order; [Step i] lets the [i]-th make its next access (and does
    nothing when there is no such goroutine). *)
Definition exec (a : Action) (cfg : State * list Thread)
  : option (State * list Thread) :=
  let '(s, pool) := cfg in
  match a with
  | CreateTask bind create =>
      match POST_api_tasks_create bind create s with
      | (s, Some p) => Some (s, pool ++ [RegisterTask p])
      | (s, None) => Some (s, pool)
      end
  | DeleteTask id =>
      match db_First id (db s) with
      | Some task => Some (s, pool ++ [Delete_unregister task])
      | None => Some (s, pool)
      end
  | RunNow id w =>
      match (POST_api_tasks_run id s).2 with
      | Some taskID => Some (s, pool ++ [RunTask taskID w])
      | None => Some (s, pool)
      end
  | Fire entryID w =>
      match List.find (fun e => bool_decide (entry_ID e = entryID)) (entries (c s)) with
      | Some e => t ← heap s !! entry_Job e; Some (s, pool ++ [RunTask (ID t) w])
      | None => Some (s, pool)
      end
  | Step i =>
      match pool !! i with
      | Some th =>
          '(s, next) ← step th s;
          Some (s, match next with
                   | Some th => <[i := th]> pool
                   | None => delete i pool
                   end)
      | None => Some (s, pool)
      end
  end.

Fixpoint serve_from (acts : list Action) (cfg : State * list Thread)
  : option (State * list Thread) :=
  match acts with
  | [] => Some cfg
  | a :: rest => cfg ← exec a cfg; serve_from rest cfg
  end.

(** [r.Run] entered in state [s], no goroutine in flight yet. *)
Definition serve (acts : list Action) (s : State) : option (State * list Thread) :=
  serve_from acts (s, []).

(** An action and the accesses of the goroutine it started, with
    nothing in between.  No goroutine makes more than four. *)
Definition undisturbed (a : Action) : list Action :=
  a :: replicate 4 (Step 0).

(** [gorm.Open] failing makes [main] panic. *)
Definition main (open : result DB) (acts : list Action)
  : option (State * list Thread) :=
  match open with
  | Err _ => None
  | Ok d => s ← startup d; serve acts s
  end.

End Program.

(** * Vocabulary of the properties *)

(** ** What the registry predicates say *)

(** The timers of the engine that will run [runTask id]: the entries
    whose closure captured a [Task] with identifier [id]. *)
Definition timers_of (id : Z) (s : State) : list Entry :=
  filter (fun e => ID <$> heap s !! entry_Job e = Some id) (entries (c s)).

(** Every identifier with a handle has a definition. *)
Definition handles_defined (s : State) : Prop :=
  dom (cronIDs s) ⊆ dom (tasks s).

(** [runTask id] in state [s] under world [w] writes one record: it
    ends in one call [appendLog taskID statusText payload], made in a
    state [s1] that differs from [s] on standard output only, so that
    the record table ends up with this one record more (with none more
    if the store refuses the insert, which [appendLog] prints). *)
Definition writes_record {libs : Libraries} (id : Z) (w : World) (s : State)
    (taskID : Z) (statusText payload : string) : Prop :=
  exists s1,
    runTask id w s = Some (appendLog taskID statusText payload w s1) /\
    db s1 = db s /\ tasks s1 = tasks s /\ cronIDs s1 = cronIDs s /\
    c s1 = c s /\ heap s1 = heap s /\
    db_tasks (db (appendLog taskID statusText payload w s1)) = db_tasks (db s) /\
    db_logs (db (appendLog taskID statusText payload w s1))
    = db_logs (db s) ++
        match db_Create_Log w with
        | Ok k => [mkLog k taskID (time_Now w) statusText payload]
        | Err _ => []
        end.

(** The line [registerTask] prints for a definition. *)
Definition register_line {libs : Libraries} (t : Task) : string :=
  match cron_Parse_err (CronExpr t) with
  | Some err => line_register_failed t err
  | None => line_registered t
  end.

(** What the store promises when it accepts a new task row: a primary
    key no row of the task table has. *)
Definition action_ok (s : State) (a : Action) : Prop :=
  match a with
  | CreateTask _ (Ok id) => id ∉ ID <$> db_tasks (db s)
  | _ => True
  end.

(** [main], started over the store [d] that [gorm.Open] found, is in
    state [s] with the goroutines [pool] in flight: any interleaving of
    requests, timer fires and goroutine steps leads there.  The order
    of the list means nothing. *)
Inductive serving {libs : Libraries} (d : DB) : State -> list Thread -> Prop :=
  | serving_startup s :
      startup d = Some s -> serving d s []
  | serving_exec s pool a s' pool' :
      serving d s pool -> action_ok s a -> exec a (s, pool) = Some (s', pool') ->
      serving d s' pool'
  | serving_perm s pool pool' :
      serving d s pool -> pool ≡ₚ pool' -> serving d s pool'.

(** The states [main] goes through once it serves. *)
Definition reachable {libs : Libraries} (d : DB) (s : State) : Prop :=
  exists pool, serving d s pool.

(** A request that changes the registry. *)
Definition registry_request (a : Action) : Prop :=
  match a with
  | CreateTask _ _ | DeleteTask _ => True
  | _ => False
  end.

(** The runs in which create and delete requests are served one at a
    time: while the handler of one runs, from its first line to its
    last, nothing else does.  Run-now requests, timer fires and the
    goroutines they start interleave as they please. *)
Inductive orderly {libs : Libraries} (d : DB) : State -> list Thread -> Prop :=
  | orderly_startup s :
      startup d = Some s -> orderly d s []
  | orderly_request s pool a s' :
      orderly d s pool -> registry_request a -> action_ok s a ->
      serve (undisturbed a) s = Some (s', []) ->
      orderly d s' pool
  | orderly_exec s pool a s' pool' :
      orderly d s pool -> ~ registry_request a -> exec a (s, pool) = Some (s', pool') ->
      orderly d s' pool'.

(** The registry, the engine, the heap and the task table agree. *)
Record registry_ok (s : State) : Prop := {
  ok_tasks : forall id p, tasks s !! id = Some p ->
    exists t, heap s !! p = Some t /\ ID t = id;
  ok_entry : forall e, e ∈ entries (c s) ->
    exists t, heap s !! entry_Job e = Some t /\ cronIDs s !! ID t = Some (entry_ID e);
  ok_handle : forall id h, cronIDs s !! id = Some h ->
    exists e t, e ∈ entries (c s) /\ entry_ID e = h /\
      heap s !! entry_Job e = Some t /\ ID t = id;
  ok_nodup : NoDup (entry_ID <$> entries (c s));
  ok_bound : forall e, e ∈ entries (c s) -> entry_ID e <= nextID (c s);
  ok_handles : handles_defined s;
  ok_rows : forall id, is_Some (tasks s !! id) -> id ∈ ID <$> db_tasks (db s);
  ok_keys : NoDup (ID <$> db_tasks (db s))
}.

(** What a definition says to the registry and to the dispatcher: every
    field of a [Task] but [Logs] and [NextRun], which neither reads. *)
Definition definition_of (t : Task)
  : Z * string * string * string * string * string * string * Z :=
  (ID t, Name t, CronExpr t, URL t, Method t, Headers t, Body t, Timeout t).

(** The registry says what the store says: a definition is a row of the
    task table, and it has a handle exactly when its cron expression
    parses. *)
Record registry_faithful {libs : Libraries} (s : State) : Prop := {
  ok_stored : forall id p t, tasks s !! id = Some p -> heap s !! p = Some t ->
    t ∈ db_tasks (db s);
  ok_scheduled : forall id p t, tasks s !! id = Some p -> heap s !! p = Some t ->
    (is_Some (cronIDs s !! id) <-> cron_Parse_err (CronExpr t) = None)
}.

(** What holds of the registry whatever the interleaving: pointers
    point to tasks, a definition is filed under its own identifier, a
    timer runs a task whose cron expression parsed, and a handle of
    the handle map names a timer that is in the engine and runs the
    identifier that holds the handle. *)
Record registry_safe {libs : Libraries} (s : State) : Prop := {
  safe_tasks : forall id p, tasks s !! id = Some p ->
    exists t, heap s !! p = Some t /\ ID t = id;
  safe_entry : forall e, e ∈ entries (c s) ->
    exists t, heap s !! entry_Job e = Some t /\ cron_Parse_err (CronExpr t) = None;
  safe_handle : forall id h, cronIDs s !! id = Some h ->
    exists e t, e ∈ entries (c s) /\ entry_ID e = h /\
      heap s !! entry_Job e = Some t /\ ID t = id;
  safe_nodup : NoDup (entry_ID <$> entries (c s));
  safe_bound : forall e, e ∈ entries (c s) -> entry_ID e <= nextID (c s);
  safe_keys : NoDup (ID <$> db_tasks (db s))
}.

(** What a goroutine in flight can rely on: its pointer points to a
    task, and the entry [c.AddFunc] gave it is in the engine, runs its
    task, and is in nobody's hands yet. *)
Definition thread_ok (s : State) (th : Thread) : Prop :=
  match th with
  | RegisterTask t | Register_AddFunc t | RunTask_found t _ | RunTask_warn t _ _ _ =>
      is_Some (heap s !! t)
  | Register_cronIDs t entryID =>
      exists task, heap s !! t = Some task /\
        mkEntry entryID (CronExpr task) t ∈ entries (c s) /\
        forall id, cronIDs s !! id <> Some entryID
  | _ => True
  end.

(** The [Task] variable a registration in flight is about. *)
Definition cell_of (th : Thread) : option nat :=
  match th with
  | RegisterTask t | Register_AddFunc t | Register_cronIDs t _ => Some t
  | _ => None
  end.

Definition pool_ok (s : State) (pool : list Thread) : Prop :=
  Forall (thread_ok s) pool /\ NoDup (omap cell_of pool).

(** A goroutine that only dispatches: it is on its way through
    [runTask]. *)
Definition dispatching (th : Thread) : Prop :=
  match th with
  | RunTask _ _ | RunTask_found _ _ | RunTask_warn _ _ _ _ | AppendLog _ _ _ _ | Print _ => True
  | _ => False
  end.

(** What a goroutine on its way through [runTask] relies on. *)
Definition dispatch_ok (s : State) (th : Thread) : Prop :=
  dispatching th /\ thread_ok s th.

(** The pool once a goroutine has made an access: it is replaced by
    what is left of it. *)
Definition after (next : option Thread) (rest : list Thread) : list Thread :=
  match next with Some th => th :: rest | None => rest end.

(** An identifier that has a definition, or is about to get one. *)
Definition known (id : Z) (s : State) (pool : list Thread) : Prop :=
  is_Some (tasks s !! id) \/
  exists p t, RegisterTask p ∈ pool /\ heap s !! p = Some t /\ ID t = id.

(** The store keeps its promise along a run. *)
#[global] Instance action_ok_dec (s : State) (a : Action) : Decision (action_ok s a).
Proof. destruct a as [bind [id|err]| | | |]; simpl; apply _. Defined.

Fixpoint accepted {libs : Libraries} (acts : list Action) (cfg : State * list Thread)
  : bool :=
  match acts with
  | [] => true
  | a :: rest =>
      bool_decide (action_ok cfg.1 a)
      && match exec a cfg with
         | Some cfg' => accepted rest cfg'
         | None => true
         end
  end.

(** * Concrete inputs *)

(** ** Stand-ins for the libraries *)

(** The number of space-separated fields of a cron expression. *)
Fixpoint fields (spec : string) (inside : bool) : nat :=
  match spec with
  | EmptyString => 0
  | String ch rest =>
      if Ascii.eqb ch (Ascii.ascii_of_nat 32) then fields rest false
      else if inside then fields rest true else S (fields rest true)
  end.

Definition upper (ch : Ascii.ascii) : Ascii.ascii :=
  let n := Ascii.nat_of_ascii ch in
  if (97 <=? n)%nat && (n <=? 122)%nat then Ascii.ascii_of_nat (n - 32) else ch.

Definition lower (ch : Ascii.ascii) : Ascii.ascii :=
  let n := Ascii.nat_of_ascii ch in
  if (65 <=? n)%nat && (n <=? 90)%nat then Ascii.ascii_of_nat (n + 32) else ch.

(** [Content-Type] from [content-type]: a capital at the start and after
    every dash, small letters elsewhere. *)
Fixpoint canonical (key : string) (start : bool) : string :=
  match key with
  | EmptyString => EmptyString
  | String ch rest =>
      String (if start then upper ch else lower ch) (canonical rest (Ascii.eqb ch (Ascii.ascii_of_nat 45)))
  end.

(** The header text [{"content-type":"text/plain","X-Token":"abc"}]. *)
Definition QUOTE : string := String (Ascii.ascii_of_nat 34) EmptyString.

Definition sample_headers : string :=
  "{" +:+ QUOTE +:+ "content-type" +:+ QUOTE +:+ ":" +:+ QUOTE +:+ "text/plain" +:+ QUOTE
  +:+ "," +:+ QUOTE +:+ "X-Token" +:+ QUOTE +:+ ":" +:+ QUOTE +:+ "abc" +:+ QUOTE +:+ "}".

(** A parser that wants six fields, a URL parser that rejects [":"], a
    decoder that knows two header texts, and the canonical form of
    header names. *)
Definition sample_libs : Libraries := {|
  cron_Parse_err spec :=
    if Nat.eqb (fields spec false) 6 then None
    else Some "expected exactly 6 fields"%string;
  http_NewRequest_err method url :=
    if String.eqb url ":" then Some "missing protocol scheme"%string else None;
  json_Unmarshal text :=
    if String.eqb text "{}" then Ok []
    else if String.eqb text sample_headers
         then Ok [("content-type", "text/plain"); ("X-Token", "abc")]%string
         else Err "invalid character";
  CanonicalMIMEHeaderKey key := canonical key true
|}.

(** ** Sample tasks, store and worlds *)

Definition task_ping : Task :=
  mkTask 1 "ping" "*/5 * * * * *" "http://example.test/ok" "GET" "" "" 10 [] 0.

Definition task_broken : Task :=
  mkTask 2 "broken" "not-a-cron" "http://example.test/hook" "POST"
         sample_headers "{}" 10 [] 0.


Definition request_nameless : Task :=
  mkTask 0 "" "*/5 * * * * *" "http://example.test/ok" "GET" "" "" 0 [] 0.

Definition request_slow : Task :=
  mkTask 0 "slow" "*/5 * * * * *" "http://example.test/slow" "GET" "" "" 18446744074 [] 0.

(** A row stored without a timeout. *)
Definition task_legacy : Task :=
  mkTask 4 "legacy" "0 0 * * * *" "http://example.test/legacy" "GET" "" "" 0 [] 0.

Definition sample_db : DB := mkDB [task_ping; task_broken] [].

(** The endpoint answers 200 with a body; the store accepts the record
    under key 7. *)
Definition world_ok : World :=
  mkWorld (fun _ _ => Ok (mkResponse 200 (Ok "{ok:true}"))) 1700000000 (Ok 7).

(** The state in which [main] starts to serve over [sample_db]. *)
Definition sample_started : State :=
  default (init sample_db) (startup (libs := sample_libs) sample_db).


Definition request_third : Task :=
  mkTask 0 "third" "0 0 * * * *" "http://example.test/third" "GET" "" "" 0 [] 0.

(** [sample_started] after a create (the store gives key 3) and the
    delete of task 1. *)
Definition sample_created : State :=
  default sample_started
    (fst <$> serve (libs := sample_libs)
               (undisturbed (CreateTask (Ok request_third) (Ok 3))) sample_started).

Definition sample_served : State :=
  default sample_created
    (fst <$> serve (libs := sample_libs) (undisturbed (DeleteTask 1)) sample_created).

(** The third task created and deleted again, one request after the
    other. *)
Definition sample_in_turn : State :=
  default sample_created
    (fst <$> serve (libs := sample_libs) (undisturbed (DeleteTask 3)) sample_created).

(** A delete of the task being created, served between the two
    critical sections of [registerTask]: the create handler has stored
    the row under key 3, written the definitions map and called
    [c.AddFunc]; the delete handler then runs from its first line to
    its last; the create handler goes on to write the handle map and to
    print. *)
Definition raced_delete : list Action :=
  [CreateTask (Ok request_third) (Ok 3); Step 0; Step 0;
   DeleteTask 3; Step 1; Step 1;
   Step 0; Step 0].

Definition sample_raced : State :=
  default sample_started (fst <$> serve (libs := sample_libs) raced_delete sample_started).

(** The same, and then the task is created again under the key 3 that
    the delete left free. *)
Definition request_third_again : Task :=
  mkTask 3 "third" "0 30 * * * *" "http://example.test/third" "GET" "" "" 0 [] 0.

Definition sample_raced_twice : State :=
  default sample_started
    (fst <$> serve (libs := sample_libs)
               (raced_delete ++ undisturbed (CreateTask (Ok request_third_again) (Ok 3)))
               sample_started).

(** The bootstrap load of [sample_db] at the moment it registers its
    second row. *)
Definition sample_loading : State :=
  (new_Task task_broken
     (default (init sample_db)
        (register_each (libs := sample_libs) [task_ping] (init sample_db)))).2.

(** * Properties *)

(** ** The registry, operation by operation *)

Section Registry.
Context {libs : Libraries}.

(** *** registerTask, case by case *)

Lemma registerTask_bad_cron (p : nat) (t : Task) (err : string) (s : State) :
  heap s !! p = Some t ->
  cron_Parse_err (CronExpr t) = Some err ->
  registerTask p s
  = Some (Printf (line_register_failed t err) (set_tasks <[ID t := p]> s)).
Proof.
  intros Hp Herr. unfold registerTask, AddFunc. rewrite Hp. simpl.
  rewrite Herr. reflexivity.
Qed.

Lemma registerTask_good_cron (p : nat) (t : Task) (s : State) :
  heap s !! p = Some t ->
  cron_Parse_err (CronExpr t) = None ->
  registerTask p s
  = Some (mkState (db s) (<[ID t := p]> (tasks s))
                  (<[ID t := nextID (c s) + 1]> (cronIDs s))
                  (mkCron (entries (c s) ++ [mkEntry (nextID (c s) + 1) (CronExpr t) p])
                          (nextID (c s) + 1) (running (c s)))
                  (heap s) (stdout s ++ [line_registered t])).
Proof.
  intros Hp Hok. unfold registerTask, AddFunc. rewrite Hp. simpl.
  rewrite Hok. reflexivity.
Qed.

Lemma registerTask_returns (p : nat) (t : Task) (s : State) :
  heap s !! p = Some t -> is_Some (registerTask p s).
Proof.
  intros Hp. destruct (cron_Parse_err (CronExpr t)) as [err|] eqn:E.
  - rewrite (registerTask_bad_cron p t err s Hp E). eauto.
  - rewrite (registerTask_good_cron p t s Hp E). eauto.
Qed.

Lemma registerTask_inv (p : nat) (s s' : State) :
  registerTask p s = Some s' ->
  exists t, heap s !! p = Some t /\
    ((exists err, cron_Parse_err (CronExpr t) = Some err /\
        s' = Printf (line_register_failed t err) (set_tasks <[ID t := p]> s)) \/
     (cron_Parse_err (CronExpr t) = None /\
        s' = mkState (db s) (<[ID t := p]> (tasks s))
                  (<[ID t := nextID (c s) + 1]> (cronIDs s))
                  (mkCron (entries (c s) ++ [mkEntry (nextID (c s) + 1) (CronExpr t) p])
                          (nextID (c s) + 1) (running (c s)))
                  (heap s) (stdout s ++ [line_registered t]))).
Proof.
  intros Hr. destruct (heap s !! p) as [t|] eqn:Hp.
  - exists t. split; [reflexivity|].
    destruct (cron_Parse_err (CronExpr t)) as [err|] eqn:E.
    + left. exists err. split; [reflexivity|].
      rewrite (registerTask_bad_cron p t err s Hp E) in Hr. congruence.
    + right. split; [reflexivity|].
      rewrite (registerTask_good_cron p t s Hp E) in Hr. congruence.
  - unfold registerTask in Hr. rewrite Hp in Hr. discriminate.
Qed.

(** *** The handle map stays inside the definitions map *)

Lemma handles_defined_init (d : DB) : handles_defined (init d).
Proof. unfold handles_defined, init. simpl. set_solver. Qed.

Lemma handles_defined_registerTask (p : nat) (s s' : State) :
  handles_defined s -> registerTask p s = Some s' -> handles_defined s'.
Proof.
  unfold handles_defined. intros Hs Hr.
  destruct (registerTask_inv p s s' Hr) as (t & _ & [(err & _ & ->)|(_ & ->)]); simpl.
  - rewrite dom_insert_L. etrans; [exact Hs|]. apply union_subseteq_r.
  - rewrite !dom_insert_L. apply union_mono_l. exact Hs.
Qed.

Lemma handles_defined_unregisterTask (id : Z) (s : State) :
  handles_defined s -> handles_defined (unregisterTask id s).
Proof.
  unfold handles_defined, unregisterTask. intros Hs.
  destruct (cronIDs s !! id) as [h|] eqn:E; simpl.
  - rewrite !dom_delete_L. apply difference_mono_r. exact Hs.
  - rewrite dom_delete_L. apply not_elem_of_dom in E.
    intros k Hk. apply elem_of_difference. split; [apply Hs, Hk|].
    rewrite elem_of_singleton. intros ->. exact (E Hk).
Qed.

Lemma handles_defined_register_each (l : list Task) (s s' : State) :
  handles_defined s -> register_each l s = Some s' -> handles_defined s'.
Proof.
  revert s. induction l as [|t l IH]; intros s Hs Hr; simpl in Hr.
  - injection Hr as <-. exact Hs.
  - destruct (registerTask _ _) as [s1|] eqn:E; simpl in Hr; [|discriminate].
    apply (IH s1); [|exact Hr].
    eapply handles_defined_registerTask; [|exact E]. exact Hs.
Qed.

Lemma handles_defined_loadTasksFromDB (s s' : State) :
  handles_defined s -> loadTasksFromDB s = Some s' -> handles_defined s'.
Proof.
  unfold loadTasksFromDB. intros Hs Hr.
  eapply handles_defined_register_each; [|exact Hr]. exact Hs.
Qed.

End Registry.

(** ** The dispatcher *)

Section Dispatcher.
Context {libs : Libraries}.

(** *** appendLog and the store *)

Lemma appendLog_accepted (taskID k : Z) (st payload : string) (w : World) (s : State) :
  db_Create_Log w = Ok k ->
  appendLog taskID st payload w s
  = set_db (db_insert_log (mkLog k taskID (time_Now w) st payload)) s.
Proof. intros Hk. unfold appendLog. rewrite Hk. reflexivity. Qed.

Lemma appendLog_rejected (taskID : Z) (err st payload : string) (w : World) (s : State) :
  db_Create_Log w = Err err ->
  appendLog taskID st payload w s = Printf (line_log_failed taskID err) s.
Proof. intros Hk. unfold appendLog. rewrite Hk. reflexivity. Qed.

(** One call of [appendLog] adds at most its own record to the record
    table, and exactly that record when the store accepts the insert;
    it touches neither the task table nor the registry. *)
Lemma appendLog_store (taskID : Z) (st payload : string) (w : World) (s : State) :
  db_tasks (db (appendLog taskID st payload w s)) = db_tasks (db s) /\
  db_logs (db (appendLog taskID st payload w s))
  = db_logs (db s) ++
      match db_Create_Log w with
      | Ok k => [mkLog k taskID (time_Now w) st payload]
      | Err _ => []
      end.
Proof.
  unfold appendLog. destruct (db_Create_Log w) as [k|err]; simpl.
  - split; reflexivity.
  - split; [reflexivity|]. symmetry. apply app_nil_r.
Qed.

Lemma appendLog_registry (taskID : Z) (st payload : string) (w : World) (s : State) :
  tasks (appendLog taskID st payload w s) = tasks s /\
  cronIDs (appendLog taskID st payload w s) = cronIDs s /\
  c (appendLog taskID st payload w s) = c s /\
  heap (appendLog taskID st payload w s) = heap s.
Proof. unfold appendLog. destruct (db_Create_Log w); simpl; auto. Qed.

(** *** setHeaders *)

(** The request [setHeaders] returns does not depend on the state, and
    the state it returns differs from its argument on standard output
    only. *)
Lemma setHeaders_request (t : Task) (req : Request) (s s' : State) :
  (setHeaders t req s).1 = (setHeaders t req s').1.
Proof.
  unfold setHeaders. destruct (String.eqb (Headers t) ""); [reflexivity|].
  destruct (json_Unmarshal (Headers t)); reflexivity.
Qed.

Lemma setHeaders_frame (t : Task) (req : Request) (s : State) :
  db (setHeaders t req s).2 = db s /\ tasks (setHeaders t req s).2 = tasks s /\
  cronIDs (setHeaders t req s).2 = cronIDs s /\ c (setHeaders t req s).2 = c s /\
  heap (setHeaders t req s).2 = heap s.
Proof.
  unfold setHeaders. destruct (String.eqb (Headers t) ""); [auto|].
  destruct (json_Unmarshal (Headers t)); simpl; auto.
Qed.

(** *** runTask, path by path *)

Lemma runTask_missing (id : Z) (w : World) (s : State) :
  tasks s !! id = None ->
  runTask id w s = Some (Printf (line_task_missing id) s).
Proof. intros Hid. unfold runTask. rewrite Hid. reflexivity. Qed.

Lemma runTask_found (id : Z) (p : nat) (t : Task) (w : World) (s : State) :
  tasks s !! id = Some p -> heap s !! p = Some t ->
  writes_record id w s (ID t)
    match newRequest t with
    | Err err => "创建请求失败: " +:+ err
    | Ok req =>
        match client_Do w (newClient t) (setHeaders t req s).1 with
        | Err err => "请求失败: " +:+ err
        | Ok resp =>
            match resp_ReadAll resp with
            | Err err => status_summary (StatusCode resp) +:+ ", 读取响应体失败: " +:+ err
            | Ok _ => status_summary (StatusCode resp)
            end
        end
    end
    match newRequest t with
    | Err _ => ""
    | Ok req =>
        match client_Do w (newClient t) (setHeaders t req s).1 with
        | Err _ => ""
        | Ok resp => match resp_ReadAll resp with Err _ => "" | Ok body => body end
        end
    end.
Proof.
  intros Hid Hp. unfold writes_record, runTask. rewrite Hid, Hp.
  cbn [mbind option_bind].
  set (s0 := Printf _ s).
  assert (Hstore : forall i st pl s1, db s1 = db s ->
            db_tasks (db (appendLog i st pl w s1)) = db_tasks (db s) /\
            db_logs (db (appendLog i st pl w s1))
            = db_logs (db s) ++
                match db_Create_Log w with
                | Ok k => [mkLog k i (time_Now w) st pl]
                | Err _ => []
                end).
  { intros i st pl s1 E. destruct (appendLog_store i st pl w s1) as (G1 & G2).
    rewrite G1, G2, E. split; reflexivity. }
  destruct (newRequest t) as [req|err].
  - rewrite (setHeaders_request t req s s0).
    destruct (setHeaders_frame t req s0) as (F1 & F2 & F3 & F4 & F5).
    destruct (setHeaders t req s0) as [req' s1]. cbn [fst snd] in *.
    exists s1. split.
    + destruct (client_Do w (newClient t) req') as [resp|err]; [|reflexivity].
      destruct (resp_ReadAll resp); reflexivity.
    + rewrite F2, F3, F4, F5. subst s0. simpl.
      split; [exact F1|]. do 4 (split; [reflexivity|]). apply Hstore. exact F1.
  - exists s0. split; [reflexivity|]. subst s0. simpl. do 5 (split; [reflexivity|]).
    apply Hstore. reflexivity.
Qed.

Lemma runTask_returns (id : Z) (w : World) (s : State) :
  (forall p, tasks s !! id = Some p -> is_Some (heap s !! p)) ->
  is_Some (runTask id w s).
Proof.
  intros Hh. destruct (tasks s !! id) as [p|] eqn:Hid.
  - destruct (Hh p eq_refl) as [t Hp].
    destruct (runTask_found id p t w s Hid Hp) as (s1 & -> & _). eauto.
  - rewrite (runTask_missing id w s Hid). eauto.
Qed.

(** [runTask] writes to the record table and to standard output, and to
    nothing else. *)
Lemma runTask_frame (id : Z) (w : World) (s s' : State) :
  runTask id w s = Some s' ->
  db_tasks (db s') = db_tasks (db s) /\ tasks s' = tasks s /\
  cronIDs s' = cronIDs s /\ c s' = c s /\ heap s' = heap s.
Proof.
  intros Hr. destruct (tasks s !! id) as [p|] eqn:Hid.
  - destruct (heap s !! p) as [t|] eqn:Hp.
    + destruct (runTask_found id p t w s Hid Hp) as (s1 & E & F1 & F2 & F3 & F4 & F5 & _).
      rewrite E in Hr. injection Hr as <-.
      match goal with
      | |- context [appendLog ?i ?st ?pl w s1] =>
          destruct (appendLog_registry i st pl w s1) as (G2 & G3 & G4 & G5);
          destruct (appendLog_store i st pl w s1) as (G1 & _)
      end.
      rewrite G1, G2, G3, G4, G5, F1, F2, F3, F4, F5. auto.
    + unfold runTask in Hr. rewrite Hid, Hp in Hr. discriminate.
  - rewrite (runTask_missing id w s Hid) in Hr. injection Hr as <-. simpl. auto.
Qed.

End Dispatcher.

Section Dispatcher_claims.
Context {libs : Libraries}.

(** C2.  Every run of [runTask] on an identifier of the definitions map
    writes exactly one record, on the success path and on each failure
    path: it ends in one call of [appendLog], having written nothing
    before it, and the record table grows by that one record (by
    nothing if the store refuses the insert, which [appendLog] only
    reports).  On an identifier that is not in the map, [runTask]
    prints that the task is missing and leaves the store as it was. *)
Theorem runTask_one_record (id : Z) (w : World) (s : State) :
  (forall p t, tasks s !! id = Some p -> heap s !! p = Some t ->
     exists statusText payload, writes_record id w s (ID t) statusText payload) /\
  (tasks s !! id = None ->
     exists s', runTask id w s = Some s' /\ db s' = db s /\
       stdout s' = stdout s ++ [line_task_missing id]).
Proof.
  split.
  - intros p t Hid Hp. eexists _, _. exact (runTask_found id p t w s Hid Hp).
  - intros Hid. eexists. split; [apply runTask_missing, Hid|].
    split; reflexivity.
Qed.

(** C6.  The record [runTask] writes: on a failure to construct the
    request, on a transport failure and on a failure to read the body,
    the status summary is the failure's description and the payload is
    empty; on success the summary is made from the numeric status code,
    from which the code can be read back, and the payload is the whole
    body. *)
Theorem execution_record_shape (id : Z) (p : nat) (t : Task) (w : World) (s : State) :
  tasks s !! id = Some p -> heap s !! p = Some t ->
  (forall err, newRequest t = Err err ->
     writes_record id w s (ID t) ("创建请求失败: " +:+ err) "") /\
  (forall req err, newRequest t = Ok req ->
     client_Do w (newClient t) (setHeaders t req s).1 = Err err ->
     writes_record id w s (ID t) ("请求失败: " +:+ err) "") /\
  (forall req resp err, newRequest t = Ok req ->
     client_Do w (newClient t) (setHeaders t req s).1 = Ok resp ->
     resp_ReadAll resp = Err err ->
     writes_record id w s (ID t)
       (status_summary (StatusCode resp) +:+ ", 读取响应体失败: " +:+ err) "") /\
  (forall req resp body, newRequest t = Ok req ->
     client_Do w (newClient t) (setHeaders t req s).1 = Ok resp ->
     resp_ReadAll resp = Ok body ->
     writes_record id w s (ID t) (status_summary (StatusCode resp)) body) /\
  (forall code code', status_summary code = status_summary code' -> code = code').
Proof.
  intros Hid Hp. pose proof (runTask_found id p t w s Hid Hp) as Hw.
  repeat split.
  - intros err E. rewrite E in Hw. exact Hw.
  - intros req err E1 E2. rewrite E1, E2 in Hw. exact Hw.
  - intros req resp err E1 E2 E3. rewrite E1, E2, E3 in Hw. exact Hw.
  - intros req resp body E1 E2 E3. rewrite E1, E2, E3 in Hw. exact Hw.
  - unfold status_summary. intros code code' E.
    apply (inj pretty). exact (String.app_inj _ _ _ E).
Qed.

End Dispatcher_claims.

(** ** Request construction *)

Section Request_construction.
Context {libs : Libraries}.

Local Abbreviation set_all req headers :=
  (foldl (fun r (kv : string * string) => Header_Set kv.1 kv.2 r) req headers).

Lemma set_all_snoc (req : Request) (headers : list (string * string)) (kv : string * string) :
  set_all req (headers ++ [kv]) = Header_Set kv.1 kv.2 (set_all req headers).
Proof. rewrite foldl_app. reflexivity. Qed.

Lemma set_all_fields (req : Request) (headers : list (string * string)) :
  req_Method (set_all req headers) = req_Method req /\
  req_URL (set_all req headers) = req_URL req /\
  req_Body (set_all req headers) = req_Body req.
Proof.
  induction headers as [|kv headers IH] using rev_ind; [auto|].
  rewrite set_all_snoc. simpl. exact IH.
Qed.

(** A header name no configured key canonicalises to keeps its value. *)
Lemma set_all_other (req : Request) (headers : list (string * string)) (name : string) :
  (forall k v, (k, v) ∈ headers -> CanonicalMIMEHeaderKey k <> name) ->
  req_Header (set_all req headers) !! name = req_Header req !! name.
Proof.
  induction headers as [|[k v] headers IH] using rev_ind; intros Hno; [reflexivity|].
  rewrite set_all_snoc. simpl. rewrite lookup_insert_ne.
  - apply IH. intros k' v' Hin. apply (Hno k' v').
    apply elem_of_app. left. exact Hin.
  - apply (Hno k v). apply elem_of_app. right. apply list_elem_of_singleton. reflexivity.
Qed.

(** A configured header ends up holding a configured value: its own, or
    that of a later key with the same canonical form. *)
Lemma set_all_configured (req : Request) (headers : list (string * string)) (k v : string) :
  (k, v) ∈ headers ->
  exists k' v', (k', v') ∈ headers /\
    CanonicalMIMEHeaderKey k' = CanonicalMIMEHeaderKey k /\
    req_Header (set_all req headers) !! CanonicalMIMEHeaderKey k = Some [v'].
Proof.
  induction headers as [|[k0 v0] headers IH] using rev_ind; intros Hin.
  - apply elem_of_nil in Hin. destruct Hin.
  - rewrite set_all_snoc. simpl.
    destruct (decide (CanonicalMIMEHeaderKey k0 = CanonicalMIMEHeaderKey k)) as [E|N].
    + exists k0, v0. split; [|split; [exact E|]].
      * apply elem_of_app. right. apply list_elem_of_singleton. reflexivity.
      * rewrite E. apply lookup_insert_eq.
    + apply elem_of_app in Hin. destruct Hin as [Hin|Hin].
      * destruct (IH Hin) as (k' & v' & Hin' & E' & L).
        exists k', v'. split; [|split; [exact E'|]].
        -- apply elem_of_app. left. exact Hin'.
        -- rewrite lookup_insert_ne by exact N. exact L.
      * apply list_elem_of_singleton in Hin. injection Hin as -> ->. destruct N. reflexivity.
Qed.

(** When no two configured keys share a canonical form, each configured
    header holds exactly its configured value. *)
Lemma set_all_exact (req : Request) (headers : list (string * string)) (k v : string) :
  NoDup ((fun kv => CanonicalMIMEHeaderKey kv.1) <$> headers) ->
  (k, v) ∈ headers ->
  req_Header (set_all req headers) !! CanonicalMIMEHeaderKey k = Some [v].
Proof.
  induction headers as [|[k0 v0] headers IH] using rev_ind; intros Hnd Hin.
  - apply elem_of_nil in Hin. destruct Hin.
  - rewrite set_all_snoc. simpl.
    rewrite fmap_app in Hnd. apply NoDup_app in Hnd. destruct Hnd as (Hnd & Hfresh & _).
    apply elem_of_app in Hin. destruct Hin as [Hin|Hin].
    + rewrite lookup_insert_ne; [apply IH; assumption|].
      intros E. apply (Hfresh (CanonicalMIMEHeaderKey k)).
      * apply list_elem_of_fmap. exists (k, v). split; [reflexivity|exact Hin].
      * simpl. rewrite <- E. apply list_elem_of_singleton. reflexivity.
    + apply list_elem_of_singleton in Hin. injection Hin as -> ->. apply lookup_insert_eq.
Qed.

(** C5.  The request of a dispatch: [GET] with no body whenever the
    definition's method is anything but [POST]; for [POST], the stored
    body and the default [Content-Type: application/json]; when the
    header set is configured and decodes, every configured header is set
    over whatever the request held under its name, the default included,
    and the other headers are kept; when it does not decode, a warning
    is printed and the request goes on as it was. *)
Theorem request_construction (t : Task) :
  (forall req, newRequest t = Ok req -> Method t <> "POST" ->
     req = mkRequest "GET" (URL t) None ∅) /\
  (forall req, newRequest t = Ok req -> Method t = "POST" ->
     req = mkRequest "POST" (URL t) (Some (Body t))
             (<[CanonicalMIMEHeaderKey "Content-Type" := ["application/json"]]> ∅)) /\
  (forall req s headers, Headers t <> "" -> json_Unmarshal (Headers t) = Ok headers ->
     (setHeaders t req s).2 = s /\
     req_Method (setHeaders t req s).1 = req_Method req /\
     req_URL (setHeaders t req s).1 = req_URL req /\
     req_Body (setHeaders t req s).1 = req_Body req /\
     (forall k v, (k, v) ∈ headers ->
        exists k' v', (k', v') ∈ headers /\
          CanonicalMIMEHeaderKey k' = CanonicalMIMEHeaderKey k /\
          req_Header (setHeaders t req s).1 !! CanonicalMIMEHeaderKey k = Some [v']) /\
     (NoDup ((fun kv => CanonicalMIMEHeaderKey kv.1) <$> headers) ->
      forall k v, (k, v) ∈ headers ->
        req_Header (setHeaders t req s).1 !! CanonicalMIMEHeaderKey k = Some [v]) /\
     (forall name, (forall k v, (k, v) ∈ headers -> CanonicalMIMEHeaderKey k <> name) ->
        req_Header (setHeaders t req s).1 !! name = req_Header req !! name)) /\
  (forall req s err, Headers t <> "" -> json_Unmarshal (Headers t) = Err err ->
     setHeaders t req s = (req, Printf (line_bad_headers t err) s)) /\
  (forall req s, Headers t = "" -> setHeaders t req s = (req, s)).
Proof.
  split; [|split; [|split; [|split]]].
  - intros req Hreq Hm. unfold newRequest in Hreq.
    apply String.eqb_neq in Hm. rewrite Hm in Hreq.
    unfold http_NewRequest in Hreq.
    destruct (http_NewRequest_err "GET" (URL t)); [discriminate|].
    injection Hreq as <-. reflexivity.
  - intros req Hreq Hm. unfold newRequest in Hreq.
    apply String.eqb_eq in Hm. rewrite Hm in Hreq.
    unfold http_NewRequest in Hreq.
    destruct (http_NewRequest_err "POST" (URL t)); [discriminate|].
    injection Hreq as <-. reflexivity.
  - intros req s headers Hne Hdec. unfold setHeaders.
    apply String.eqb_neq in Hne. rewrite Hne, Hdec. cbn [fst snd].
    destruct (set_all_fields req headers) as (F1 & F2 & F3).
    split; [reflexivity|]. split; [exact F1|]. split; [exact F2|]. split; [exact F3|].
    split; [|split].
    + intros k v Hin. exact (set_all_configured req headers k v Hin).
    + intros Hnd k v Hin. apply set_all_exact; assumption.
    + intros name Hno. apply set_all_other. exact Hno.
  - intros req s err Hne Hdec. unfold setHeaders.
    apply String.eqb_neq in Hne. rewrite Hne, Hdec. reflexivity.
  - intros req s He. unfold setHeaders. apply String.eqb_eq in He. rewrite He. reflexivity.
Qed.

End Request_construction.

(** ** Goroutines left undisturbed

    The accesses of a goroutine, made one after the other with nothing
    in between, add up to the function it runs. *)

Section Undisturbed.
Context {libs : Libraries}.

Local Abbreviation alone th s := (serve_from (replicate 4 (Step 0)) (s, [th])).
Local Abbreviation ended := (fun s : State => (s, @nil Thread)).

Lemma serve_from_app (acts acts' : list Action) (cfg : State * list Thread) :
  serve_from (acts ++ acts') cfg = serve_from acts cfg ≫= serve_from acts'.
Proof.
  revert cfg. induction acts as [|a acts IH]; intros cfg; simpl; [reflexivity|].
  destruct (exec a cfg) as [cfg1|]; simpl; [apply IH|reflexivity].
Qed.

(** With no goroutine in flight a [Step] does nothing. *)
Lemma serve_from_idle (n : nat) (i : nat) (s : State) :
  serve_from (replicate n (Step i)) (s, []) = Some (s, []).
Proof. induction n as [|n IH]; simpl; [reflexivity|exact IH]. Qed.

(** One access of the only goroutine in flight. *)
Lemma serve_from_Step (rest : list Action) (th : Thread) (s : State) :
  serve_from (Step 0 :: rest) (s, [th])
  = step th s ≫= fun '(s', next) =>
      serve_from rest (s', match next with Some th' => [th'] | None => [] end).
Proof.
  cbn [serve_from exec lookup list_lookup].
  destruct (step th s) as [[s' [th'|]]|]; reflexivity.
Qed.

Lemma send_undisturbed (rest : list Action) (t : Task) (req : Request) (w : World)
    (s : State) :
  serve_from (Step 0 :: rest) (s, [send t req w])
  = serve_from rest
      (match client_Do w (newClient t) req with
       | Err err => appendLog (ID t) ("请求失败: " +:+ err) "" w s
       | Ok resp =>
           match resp_ReadAll resp with
           | Err err =>
               appendLog (ID t)
                 (status_summary (StatusCode resp) +:+ ", 读取响应体失败: " +:+ err) "" w s
           | Ok bodyBytes =>
               appendLog (ID t) (status_summary (StatusCode resp)) bodyBytes w s
           end
       end, []).
Proof.
  rewrite serve_from_Step. unfold send.
  destruct (client_Do w (newClient t) req) as [resp|err];
    [destruct (resp_ReadAll resp)|]; reflexivity.
Qed.

(** [runTask] is the goroutine [RunTask] left undisturbed. *)
Lemma RunTask_undisturbed (id : Z) (w : World) (s : State) :
  alone (RunTask id w) s = ended <$> runTask id w s.
Proof.
  unfold runTask. cbn [replicate]. rewrite serve_from_Step. cbn [step].
  destruct (tasks s !! id) as [p|]; cbn [mbind option_bind];
    rewrite serve_from_Step; cbn [step]; [|reflexivity].
  destruct (heap s !! p) as [t|] eqn:Hp; cbn [mbind option_bind]; [|reflexivity].
  destruct (newRequest t) as [req|err]; [|rewrite serve_from_Step; reflexivity].
  unfold setHeaders. destruct (String.eqb (Headers t) "").
  { rewrite send_undisturbed. destruct (client_Do _ _ _) as [resp|?];
      [destruct (resp_ReadAll resp)|]; reflexivity. }
  destruct (json_Unmarshal (Headers t)) as [headers|e].
  { rewrite send_undisturbed. destruct (client_Do _ _ _) as [resp|?];
      [destruct (resp_ReadAll resp)|]; reflexivity. }
  rewrite serve_from_Step. cbn [step].
  change (heap (Printf (line_task_started t) s)) with (heap s). rewrite Hp.
  cbn [mbind option_bind]. rewrite send_undisturbed.
  destruct (client_Do _ _ _) as [resp|?]; [destruct (resp_ReadAll resp)|]; reflexivity.
Qed.

(** [registerTask] is the goroutine [RegisterTask] left undisturbed. *)
Lemma RegisterTask_undisturbed (p : nat) (s : State) :
  alone (RegisterTask p) s = ended <$> registerTask p s.
Proof.
  unfold registerTask. cbn [replicate]. rewrite serve_from_Step. cbn [step].
  destruct (heap s !! p) as [t|] eqn:Hp; cbn [mbind option_bind]; [|reflexivity].
  rewrite serve_from_Step. cbn [step].
  change (heap (set_tasks <[ID t:=p]> s)) with (heap s). rewrite Hp.
  cbn [mbind option_bind]. unfold AddFunc.
  change (c (set_tasks <[ID t:=p]> s)) with (c s).
  destruct (cron_Parse_err (CronExpr t)) as [err|]; cbn [mbind option_bind].
  - rewrite serve_from_Step. reflexivity.
  - rewrite serve_from_Step. cbn [step].
    change (heap (set_c _ _)) with (heap s). rewrite Hp.
    cbn [mbind option_bind]. rewrite serve_from_Step. reflexivity.
Qed.

(** The handlers, served with nothing in between, are the handler
    functions. *)
Lemma CreateTask_undisturbed (bind : result Task) (create : result Z) (s : State) :
  serve (undisturbed (CreateTask bind create)) s
  = (fun rs : Reply * State => (rs.2, [])) <$> POST_api_tasks bind create s.
Proof.
  unfold serve, undisturbed, POST_api_tasks. cbn [serve_from exec].
  unfold POST_api_tasks_create.
  destruct bind as [req|err]; [|apply serve_from_idle].
  destruct (_ || _); [apply serve_from_idle|].
  destruct create as [id|err]; [|apply serve_from_idle].
  cbn [new_Task app mbind option_bind].
  set (req' := with_ID id _). set (s1 := mkState _ _ _ _ _ _).
  pose proof (RegisterTask_undisturbed (length (heap s)) s1) as E.
  change (length (heap (set_db (db_insert_task req') s))) with (length (heap s)).
  rewrite E. destruct (registerTask _ s1); reflexivity.
Qed.

Lemma DeleteTask_undisturbed (id : Z) (s : State) :
  serve (undisturbed (DeleteTask id)) s = Some ((DELETE_api_tasks id s).2, []).
Proof.
  unfold serve, undisturbed, DELETE_api_tasks. cbn [serve_from exec].
  destruct (db_First id (db s)) as [row|]; [|apply serve_from_idle].
  cbn [app mbind option_bind replicate]. rewrite serve_from_Step. cbn [step mbind option_bind].
  rewrite serve_from_Step. reflexivity.
Qed.

Lemma RunNow_undisturbed (id : Z) (w : World) (s : State) :
  serve (undisturbed (RunNow id w)) s
  = match (POST_api_tasks_run id s).2 with
    | Some taskID => ended <$> runTask taskID w s
    | None => Some (s, [])
    end.
Proof.
  unfold serve, undisturbed. cbn [serve_from exec].
  destruct (POST_api_tasks_run id s).2 as [taskID|]; [|apply serve_from_idle].
  cbn [app mbind option_bind]. apply RunTask_undisturbed.
Qed.


End Undisturbed.

(** ** Registration failures, unregistration, and rejected requests *)

Section Registry_claims.
Context {libs : Libraries}.

Lemma db_First_ID (id : Z) (d : DB) (row : Task) :
  db_First id d = Some row -> ID row = id /\ row ∈ db_tasks d.
Proof.
  unfold db_First. intros Hf. apply find_some in Hf. destruct Hf as [Hin Hid].
  apply bool_decide_eq_true in Hid. split; [exact Hid|].
  apply list_elem_of_In. exact Hin.
Qed.

(** C3.  Registering a definition whose cron expression does not parse
    prints a warning and goes on: the definition is in the definitions
    map, the handle map and the engine are as they were (no handle, no
    timer added), and run-now on the identifier still dispatches:
    the handler starts [runTask] on it in a goroutine, whatever else
    is in flight, and [runTask] finds the definition, sends the
    request and writes the record of the exchange. *)
Theorem bad_cron_defined_unscheduled (p : nat) (t : Task) (err : string) (s : State) :
  heap s !! p = Some t ->
  cron_Parse_err (CronExpr t) = Some err ->
  exists s', registerTask p s = Some s' /\
    stdout s' = stdout s ++ [line_register_failed t err] /\
    tasks s' !! ID t = Some p /\
    cronIDs s' = cronIDs s /\ c s' = c s /\ db s' = db s /\ heap s' = heap s /\
    (forall row, db_First (ID t) (db s') = Some row ->
       POST_api_tasks_run (ID t) s'
       = (mkReply 200 (JMessage "任务已在后台立即执行"), Some (ID t)) /\
       forall w,
         (forall pool, exec (RunNow (ID t) w) (s', pool)
                       = Some (s', pool ++ [RunTask (ID t) w])) /\
         serve (undisturbed (RunNow (ID t) w)) s'
         = (fun s2 : State => (s2, [])) <$> runTask (ID t) w s') /\
    (forall w, exists statusText payload,
       writes_record (ID t) w s' (ID t) statusText payload) /\
    (forall w req resp body, newRequest t = Ok req ->
       client_Do w (newClient t) (setHeaders t req s').1 = Ok resp ->
       resp_ReadAll resp = Ok body ->
       writes_record (ID t) w s' (ID t) (status_summary (StatusCode resp)) body).
Proof.
  intros Hp Herr. eexists. split; [apply (registerTask_bad_cron p t err s Hp Herr)|].
  set (s' := Printf _ _).
  assert (Hid : tasks s' !! ID t = Some p) by apply lookup_insert_eq.
  assert (Hp' : heap s' !! p = Some t) by exact Hp.
  split; [reflexivity|]. split; [exact Hid|].
  split; [reflexivity|]. split; [reflexivity|]. split; [reflexivity|]. split; [reflexivity|].
  split; [|split].
  - intros row Hrow.
    assert (Hrun : POST_api_tasks_run (ID t) s'
                   = (mkReply 200 (JMessage "任务已在后台立即执行"), Some (ID t))).
    { unfold POST_api_tasks_run. rewrite Hrow.
      destruct (db_First_ID _ _ _ Hrow) as [-> _]. reflexivity. }
    split; [exact Hrun|]. intros w. split.
    + intros pool. cbn [exec]. rewrite Hrun. reflexivity.
    + rewrite RunNow_undisturbed, Hrun. reflexivity.
  - intros w. eexists _, _. exact (runTask_found (ID t) p t w s' Hid Hp').
  - intros w req resp body E1 E2 E3.
    pose proof (runTask_found (ID t) p t w s' Hid Hp') as Hw.
    rewrite E1, E2, E3 in Hw. exact Hw.
Qed.

Lemma find_Remove (h : Z) (cr : Cron) :
  List.find (fun e => bool_decide (entry_ID e = h)) (entries (Remove h cr)) = None.
Proof.
  destruct (List.find _ _) as [e|] eqn:Hf; [|reflexivity].
  apply find_some in Hf. destruct Hf as [Hin Hid].
  apply bool_decide_eq_true in Hid. apply list_elem_of_In in Hin.
  unfold Remove in Hin. simpl in Hin. apply list_elem_of_filter in Hin.
  destruct Hin as [Hne _]. destruct (Hne Hid).
Qed.

(** C4.  Unregistering an identifier takes it out of both maps and, if
    it had a handle, removes that handle's entry from the engine, which
    then has nothing to fire for it; a later dispatch on the identifier
    records nothing.  On an identifier that is in neither map the
    operation changes nothing, so a second unregistration is a no-op;
    identifiers other than the one unregistered keep their entries.
    The DELETE handler does not reach the registry for an identifier
    the store does not know: it answers not-found and the state is as it
    was. *)
Theorem unregister_releases_and_is_idempotent (id : Z) (s : State) :
  tasks (unregisterTask id s) !! id = None /\
  cronIDs (unregisterTask id s) !! id = None /\
  (forall h, cronIDs s !! id = Some h ->
     c (unregisterTask id s) = Remove h (c s) /\
     (forall e, e ∈ entries (c (unregisterTask id s)) -> entry_ID e <> h) /\
     (forall w, fire h w (unregisterTask id s) = Some (unregisterTask id s))) /\
  (forall w, exists s', runTask id w (unregisterTask id s) = Some s' /\
     db s' = db (unregisterTask id s) /\
     stdout s' = stdout (unregisterTask id s) ++ [line_task_missing id]) /\
  (tasks s !! id = None -> cronIDs s !! id = None -> unregisterTask id s = s) /\
  unregisterTask id (unregisterTask id s) = unregisterTask id s /\
  (forall id', id' <> id ->
     tasks (unregisterTask id s) !! id' = tasks s !! id' /\
     cronIDs (unregisterTask id s) !! id' = cronIDs s !! id') /\
  (db_First id (db s) = None ->
     DELETE_api_tasks id s = (mkReply 404 (JError "任务不存在"), s)).
Proof.
  assert (Hnoop : forall s0, tasks s0 !! id = None -> cronIDs s0 !! id = None ->
                             unregisterTask id s0 = s0).
  { intros s0 Ht Hc. unfold unregisterTask. rewrite Hc. unfold set_tasks.
    rewrite (delete_id _ _ Ht). destruct s0; reflexivity. }
  assert (Ht : tasks (unregisterTask id s) !! id = None).
  { unfold unregisterTask. destruct (cronIDs s !! id); simpl; apply lookup_delete_eq. }
  assert (Hc : cronIDs (unregisterTask id s) !! id = None).
  { unfold unregisterTask. destruct (cronIDs s !! id) eqn:E; simpl;
      [apply lookup_delete_eq|exact E]. }
  split; [exact Ht|]. split; [exact Hc|]. split; [|split; [|split; [|split; [|split]]]].
  - intros h Hh.
    assert (Hcr : c (unregisterTask id s) = Remove h (c s)).
    { unfold unregisterTask. rewrite Hh. reflexivity. }
    split; [exact Hcr|]. split.
    + intros e He. rewrite Hcr in He. unfold Remove in He. simpl in He.
      apply list_elem_of_filter in He. exact (proj1 He).
    + intros w. unfold fire. rewrite Hcr, find_Remove. reflexivity.
  - intros w. eexists. split; [apply runTask_missing, Ht|]. split; reflexivity.
  - exact (Hnoop s).
  - exact (Hnoop _ Ht Hc).
  - intros id' Hne. unfold unregisterTask.
    destruct (cronIDs s !! id); simpl; rewrite ?lookup_delete_ne by congruence; auto.
  - intros Hrow. unfold DELETE_api_tasks. rewrite Hrow. reflexivity.
Qed.

(** C9.  A create request in which the name, the cron expression or
    the URL is missing is answered with an error (status 400), and the
    state is exactly what it was: nothing persisted, nothing added to
    either map, nothing registered with the engine. *)
Theorem create_missing_field (req : Task) (create : result Z) (s : State) :
  Name req = "" \/ CronExpr req = "" \/ URL req = "" ->
  POST_api_tasks (Ok req) create s
  = Some (mkReply 400 (JError "任务名称、Cron表达式和URL是必填项"), s).
Proof.
  intros Hmiss. unfold POST_api_tasks.
  assert (E : String.eqb (Name req) "" || String.eqb (CronExpr req) ""
              || String.eqb (URL req) "" = true).
  { destruct Hmiss as [E|[E|E]]; apply String.eqb_eq in E; rewrite E;
      rewrite ?orb_true_r; reflexivity. }
  rewrite E. reflexivity.
Qed.

End Registry_claims.

(** ** The registry over whole runs of the program *)

Section List_facts.
Context {A B : Type} (f : A -> B).

Lemma NoDup_fmap_filter (P : A -> Prop) `{forall x, Decision (P x)} (l : list A) :
  NoDup (f <$> l) -> NoDup (f <$> filter P l).
Proof.
  induction l as [|x l IH]; intros Hnd; [constructor|].
  rewrite fmap_cons in Hnd. apply NoDup_cons in Hnd. destruct Hnd as [Hx Hnd].
  rewrite filter_cons. destruct (decide (P x)); [|exact (IH Hnd)].
  rewrite fmap_cons. apply NoDup_cons. split; [|exact (IH Hnd)].
  intros Hin. apply Hx. apply list_elem_of_fmap in Hin. destruct Hin as (y & E & Hy).
  apply list_elem_of_filter in Hy. apply list_elem_of_fmap. exists y. tauto.
Qed.

Lemma NoDup_fmap_eq (l : list A) (x y : A) :
  NoDup (f <$> l) -> x ∈ l -> y ∈ l -> f x = f y -> x = y.
Proof.
  induction l as [|z l IH]; intros Hnd Hx Hy E.
  - apply elem_of_nil in Hx. destruct Hx.
  - rewrite fmap_cons in Hnd. apply NoDup_cons in Hnd. destruct Hnd as [Hz Hnd].
    apply elem_of_cons in Hx. apply elem_of_cons in Hy.
    destruct Hx as [->|Hx], Hy as [->|Hy].
    + reflexivity.
    + destruct Hz. rewrite E. apply list_elem_of_fmap_2. exact Hy.
    + destruct Hz. rewrite <- E. apply list_elem_of_fmap_2. exact Hx.
    + exact (IH Hnd Hx Hy E).
Qed.

Lemma NoDup_fmap_same_short (l : list A) (b : B) :
  NoDup (f <$> l) -> (forall x, x ∈ l -> f x = b) -> (length l <= 1)%nat.
Proof.
  intros Hnd Hall. destruct l as [|x [|y l]]; simpl; [lia|lia|].
  exfalso. rewrite !fmap_cons in Hnd. apply NoDup_cons in Hnd. destruct Hnd as [Hx _].
  apply Hx. rewrite (Hall x), <- (Hall y).
  - apply elem_of_cons. left. reflexivity.
  - apply elem_of_cons. right. apply elem_of_cons. left. reflexivity.
  - apply elem_of_cons. left. reflexivity.
Qed.

End List_facts.

Section Invariant.
Context {libs : Libraries}.

Lemma registry_ok_init (d : DB) :
  NoDup (ID <$> db_tasks d) -> registry_ok (init d).
Proof.
  intros Hk. constructor; simpl; try (intros ? ? E; rewrite lookup_empty in E; discriminate).
  - intros e He. apply elem_of_nil in He. destruct He.
  - constructor.
  - intros e He. apply elem_of_nil in He. destruct He.
  - apply handles_defined_init.
  - intros id [p E]. rewrite lookup_empty in E. discriminate.
  - exact Hk.
Qed.

(** A state that differs on standard output, on the record table, or on
    whether the engine runs, is as good. *)
Lemma registry_ok_frame (s s' : State) :
  db_tasks (db s') = db_tasks (db s) -> tasks s' = tasks s ->
  cronIDs s' = cronIDs s -> entries (c s') = entries (c s) ->
  nextID (c s') = nextID (c s) -> heap s' = heap s ->
  registry_ok s -> registry_ok s'.
Proof.
  intros E1 E2 E3 E4 E5 E6 [H1 H2 H3 H4 H5 H6 H7 H8].
  constructor; unfold handles_defined in *; rewrite ?E1, ?E2, ?E3, ?E4, ?E5, ?E6; assumption.
Qed.

Lemma registry_ok_new_Task (t : Task) (s : State) :
  registry_ok s -> registry_ok (new_Task t s).2.
Proof.
  intros [H1 H2 H3 H4 H5 H6 H7 H8]. constructor; simpl; try assumption.
  - intros id p Hp. destruct (H1 id p Hp) as (t0 & Ht0 & E).
    exists t0. split; [apply lookup_app_l_Some, Ht0|exact E].
  - intros e He. destruct (H2 e He) as (t0 & Ht0 & E).
    exists t0. split; [apply lookup_app_l_Some, Ht0|exact E].
  - intros id h Hh. destruct (H3 id h Hh) as (e & t0 & He & E1 & Ht0 & E2).
    exists e, t0. split; [exact He|]. split; [exact E1|].
    split; [apply lookup_app_l_Some, Ht0|exact E2].
Qed.

Lemma new_Task_lookup (t : Task) (s : State) :
  heap (new_Task t s).2 !! (new_Task t s).1 = Some t.
Proof. simpl. apply list_lookup_middle. reflexivity. Qed.

Lemma no_handle_without_definition (s : State) (id : Z) :
  handles_defined s -> tasks s !! id = None -> cronIDs s !! id = None.
Proof.
  intros Hs Hid. destruct (cronIDs s !! id) as [h|] eqn:E; [|reflexivity].
  assert (Hin : id ∈ dom (cronIDs s)) by (apply elem_of_dom; eauto).
  apply Hs, elem_of_dom in Hin. rewrite Hid in Hin. destruct Hin; discriminate.
Qed.

(** [registerTask] on an identifier that has no definition yet. *)
Lemma registry_ok_registerTask (p : nat) (t : Task) (s s' : State) :
  registry_ok s -> heap s !! p = Some t -> tasks s !! ID t = None ->
  ID t ∈ ID <$> db_tasks (db s) ->
  registerTask p s = Some s' -> registry_ok s'.
Proof.
  intros Hok Hp Hfresh Hrow Hr.
  pose proof (no_handle_without_definition s (ID t) (ok_handles s Hok) Hfresh) as Hnoh.
  pose proof (handles_defined_registerTask p s s' (ok_handles s Hok) Hr) as Hsub.
  destruct (registerTask_inv p s s' Hr) as (t' & Hp' & Hcase).
  rewrite Hp in Hp'. injection Hp' as <-.
  assert (Htasks : forall id q, <[ID t := p]> (tasks s) !! id = Some q ->
                     exists t0, heap s !! q = Some t0 /\ ID t0 = id).
  { intros id q Hq. destruct (decide (ID t = id)) as [<-|N].
    - rewrite lookup_insert_eq in Hq. injection Hq as <-. eauto.
    - rewrite lookup_insert_ne in Hq by exact N. exact (ok_tasks s Hok id q Hq). }
  assert (Hrows : forall id, is_Some (<[ID t := p]> (tasks s) !! id) ->
                    id ∈ ID <$> db_tasks (db s)).
  { intros id Hsome. destruct (decide (ID t = id)) as [<-|N]; [exact Hrow|].
    rewrite lookup_insert_ne in Hsome by exact N. exact (ok_rows s Hok id Hsome). }
  destruct Hok as [H1 H2 H3 H4 H5 H6 H7 H8].
  destruct Hcase as [(err & _ & ->)|(_ & ->)]; constructor; simpl; try assumption.
  - intros e He. apply elem_of_app in He. destruct He as [He|He].
    + destruct (H2 e He) as (t0 & Ht0 & E). exists t0. split; [exact Ht0|].
      rewrite lookup_insert_ne; [exact E|]. intros N. rewrite <- N, Hnoh in E. discriminate.
    + apply list_elem_of_singleton in He. subst e. simpl.
      exists t. split; [exact Hp|apply lookup_insert_eq].
  - intros id h Hh. destruct (decide (ID t = id)) as [<-|N].
    + rewrite lookup_insert_eq in Hh. injection Hh as <-.
      eexists (mkEntry _ _ _), t. split.
      * apply elem_of_app. right. apply list_elem_of_singleton. reflexivity.
      * simpl. auto.
    + rewrite lookup_insert_ne in Hh by exact N.
      destruct (H3 id h Hh) as (e & t0 & He & Rest).
      exists e, t0. split; [apply elem_of_app; left; exact He|exact Rest].
  - rewrite fmap_app. apply NoDup_app. split; [exact H4|]. split; [|apply NoDup_singleton].
    intros x Hx Hx'. simpl in Hx'. apply list_elem_of_singleton in Hx'.
    apply list_elem_of_fmap in Hx. destruct Hx as (e & -> & He).
    pose proof (H5 e He). lia.
  - intros e He. apply elem_of_app in He. destruct He as [He|He].
    + pose proof (H5 e He). lia.
    + apply list_elem_of_singleton in He. subst e. simpl. lia.
Qed.

Lemma registry_ok_unregisterTask (id : Z) (s : State) :
  registry_ok s -> registry_ok (unregisterTask id s).
Proof.
  intros Hok.
  pose proof (handles_defined_unregisterTask id s (ok_handles s Hok)) as Hsub.
  destruct Hok as [H1 H2 H3 H4 H5 H6 H7 H8].
  assert (Htasks : forall id' p, delete id (tasks s) !! id' = Some p ->
                     exists t, heap s !! p = Some t /\ ID t = id').
  { intros id' p Hp. apply lookup_delete_Some in Hp. exact (H1 id' p (proj2 Hp)). }
  assert (Hrows : forall id', is_Some (delete id (tasks s) !! id') ->
                    id' ∈ ID <$> db_tasks (db s)).
  { intros id' [p Hp]. apply lookup_delete_Some in Hp. apply H7. exists p. exact (proj2 Hp). }
  unfold unregisterTask in *. destruct (cronIDs s !! id) as [h|] eqn:Hh;
    constructor; simpl; try assumption.
  - intros e He. apply list_elem_of_filter in He. destruct He as [Hne He].
    destruct (H2 e He) as (t0 & Ht0 & E). exists t0. split; [exact Ht0|].
    rewrite lookup_delete_ne; [exact E|].
    intros N. rewrite <- N, Hh in E. injection E as E. exact (Hne (eq_sym E)).
  - intros id' h' Hh'. apply lookup_delete_Some in Hh'. destruct Hh' as [Hne Hh'].
    destruct (H3 id' h' Hh') as (e & t0 & He & E1 & Ht0 & E2).
    exists e, t0. split; [|auto].
    apply list_elem_of_filter. split; [|exact He].
    intros Eh. destruct (H3 id h Hh) as (e2 & t2 & He2 & E3 & Ht2 & E4).
    assert (e = e2).
    { apply (NoDup_fmap_eq entry_ID (entries (c s))); try assumption. congruence. }
    subst e2. rewrite Ht0 in Ht2. injection Ht2 as <-. congruence.
  - apply NoDup_fmap_filter. exact H4.
  - intros e He. apply list_elem_of_filter in He. apply H5. exact (proj2 He).
Qed.

Lemma registry_ok_db_Delete (row : Task) (s : State) :
  registry_ok s -> tasks s !! ID row = None ->
  registry_ok (set_db (db_Delete row) s).
Proof.
  intros [H1 H2 H3 H4 H5 H6 H7 H8] Hgone. constructor; simpl; try assumption.
  - intros id Hsome. pose proof (H7 id Hsome) as Hin.
    apply list_elem_of_fmap in Hin. destruct Hin as (r & -> & Hr).
    apply list_elem_of_fmap. exists r. split; [reflexivity|].
    apply list_elem_of_filter. split; [|exact Hr].
    intros E. rewrite E, Hgone in Hsome. destruct Hsome; discriminate.
  - apply NoDup_fmap_filter. exact H8.
Qed.

Lemma registry_ok_db_insert_task (t : Task) (s : State) :
  registry_ok s -> ID t ∉ ID <$> db_tasks (db s) ->
  registry_ok (set_db (db_insert_task t) s).
Proof.
  intros [H1 H2 H3 H4 H5 H6 H7 H8] Hfresh. constructor; simpl; try assumption.
  - intros id Hsome. rewrite fmap_app. apply elem_of_app. left. exact (H7 id Hsome).
  - rewrite fmap_app. apply NoDup_app. split; [exact H8|]. split; [|apply NoDup_singleton].
    intros x Hx Hx'. simpl in Hx'. apply list_elem_of_singleton in Hx'. subst x.
    exact (Hfresh Hx).
Qed.

End Invariant.

(** ** The bootstrap load *)

Section Bootstrap.
Context {libs : Libraries}.

(** One iteration of the loop of [loadTasksFromDB]. *)
Lemma register_copy (t : Task) (s : State) :
  exists s2, registerTask (new_Task t s).1 (new_Task t s).2 = Some s2 /\
    heap s2 = heap s ++ [t] /\ db s2 = db s /\ running (c s2) = running (c s) /\
    tasks s2 = <[ID t := length (heap s)]> (tasks s) /\
    stdout s2 = stdout s ++ [register_line t] /\
    (cron_Parse_err (CronExpr t) = None ->
       cronIDs s2 = <[ID t := nextID (c s) + 1]> (cronIDs s)) /\
    (forall err, cron_Parse_err (CronExpr t) = Some err -> cronIDs s2 = cronIDs s).
Proof.
  pose proof (new_Task_lookup t s) as Hp. unfold register_line.
  destruct (cron_Parse_err (CronExpr t)) as [err|] eqn:E.
  - rewrite (registerTask_bad_cron _ t err _ Hp E). eexists. split; [reflexivity|].
    simpl. repeat split; try reflexivity. intros E'. discriminate.
  - rewrite (registerTask_good_cron _ t _ Hp E). eexists. split; [reflexivity|].
    simpl. repeat split; try reflexivity. intros err E'. discriminate.
Qed.

Lemma register_each_ok (l : list Task) (s : State) :
  registry_ok s -> NoDup (ID <$> l) ->
  (forall t, t ∈ l -> tasks s !! ID t = None /\ ID t ∈ ID <$> db_tasks (db s)) ->
  exists s', register_each l s = Some s' /\ registry_ok s' /\
    heap s' = heap s ++ l /\ db s' = db s /\ running (c s') = running (c s) /\
    stdout s' = stdout s ++ (register_line <$> l) /\
    (forall id, (forall t, t ∈ l -> ID t <> id) ->
       tasks s' !! id = tasks s !! id /\ cronIDs s' !! id = cronIDs s !! id) /\
    (forall i t, l !! i = Some t ->
       tasks s' !! ID t = Some (length (heap s) + i)%nat /\
       (cron_Parse_err (CronExpr t) = None -> is_Some (cronIDs s' !! ID t)) /\
       (forall err, cron_Parse_err (CronExpr t) = Some err -> cronIDs s' !! ID t = None)).
Proof.
  revert s. induction l as [|t l IH]; intros s Hok Hnd Hfresh.
  - exists s. simpl. rewrite !app_nil_r. split; [reflexivity|]. split; [exact Hok|].
    do 4 (split; [reflexivity|]). split; [intros; split; reflexivity|].
    intros i t Hi. rewrite lookup_nil in Hi. discriminate.
  - rewrite fmap_cons in Hnd. apply NoDup_cons in Hnd. destruct Hnd as [Ht Hnd].
    destruct (Hfresh t) as [Hnone Hrow]; [apply elem_of_cons; left; reflexivity|].
    destruct (register_copy t s) as (s2 & Hr & Hheap & Hdb & Hrun & Htasks & Hout & Hgood & Hbad).
    assert (Hok2 : registry_ok s2).
    { eapply (registry_ok_registerTask _ t _ s2); [| | | |exact Hr].
      - apply registry_ok_new_Task, Hok.
      - apply new_Task_lookup.
      - exact Hnone.
      - exact Hrow. }
    assert (Hnoh : cronIDs s !! ID t = None)
      by exact (no_handle_without_definition s (ID t) (ok_handles s Hok) Hnone).
    destruct (IH s2 Hok2 Hnd) as (s' & Hrest & Hok' & Hheap' & Hdb' & Hrun' & Hout' & Hother & Hrows).
    { intros t' Ht'. rewrite Htasks, Hdb. split.
      - rewrite lookup_insert_ne; [apply Hfresh; apply elem_of_cons; right; exact Ht'|].
        intros E. apply Ht. rewrite E. apply list_elem_of_fmap_2, Ht'.
      - apply Hfresh. apply elem_of_cons. right. exact Ht'. }
    exists s'. split.
    { simpl register_each. simpl in Hr. rewrite Hr. exact Hrest. }
    split; [exact Hok'|].
    split; [rewrite Hheap', Hheap, <- app_assoc; reflexivity|].
    split; [congruence|]. split; [congruence|].
    split; [rewrite Hout', Hout, fmap_cons, <- app_assoc; reflexivity|].
    assert (Hhead : forall id, (forall t', t' ∈ l -> ID t' <> id) ->
              tasks s' !! id = tasks s2 !! id /\ cronIDs s' !! id = cronIDs s2 !! id)
      by exact Hother.
    split.
    + intros id Hno. destruct (Hhead id) as [E1 E2].
      { intros t' Ht'. apply Hno. apply elem_of_cons. right. exact Ht'. }
      assert (ID t <> id) by (apply Hno; apply elem_of_cons; left; reflexivity).
      rewrite E1, E2, Htasks. rewrite lookup_insert_ne by assumption. split; [reflexivity|].
      destruct (cron_Parse_err (CronExpr t)) as [err|] eqn:E.
      * rewrite (Hbad err eq_refl). reflexivity.
      * rewrite (Hgood eq_refl). rewrite lookup_insert_ne by assumption. reflexivity.
    + intros [|i] t' Hi; simpl in Hi.
      * injection Hi as <-. destruct (Hhead (ID t)) as [E1 E2].
        { intros t' Ht' E. apply Ht. rewrite <- E. apply list_elem_of_fmap_2, Ht'. }
        rewrite E1, E2, Htasks, lookup_insert_eq, Nat.add_0_r.
        split; [reflexivity|]. split.
        -- intros E. rewrite (Hgood E), lookup_insert_eq. eauto.
        -- intros err E. rewrite (Hbad err E). exact Hnoh.
      * destruct (Hrows i t' Hi) as (R1 & R2 & R3).
        split; [|split; assumption].
        rewrite R1, Hheap, length_app. simpl. f_equal. lia.
Qed.

(** Everything [main] does before it serves succeeds, and sets up the
    registry from the task table. *)
Lemma startup_ok (d : DB) :
  NoDup (ID <$> db_tasks d) ->
  exists s, startup d = Some s /\ registry_ok s /\
    heap s = db_tasks d /\ db s = d /\ running (c s) = true /\
    stdout s
    = [line_loaded (length (db_tasks d))] ++ (register_line <$> db_tasks d)
      ++ [line_serving] /\
    (forall id, (forall t, t ∈ db_tasks d -> ID t <> id) ->
       tasks s !! id = None /\ cronIDs s !! id = None) /\
    (forall i t, db_tasks d !! i = Some t ->
       tasks s !! ID t = Some i /\
       (cron_Parse_err (CronExpr t) = None -> is_Some (cronIDs s !! ID t)) /\
       (forall err, cron_Parse_err (CronExpr t) = Some err -> cronIDs s !! ID t = None)).
Proof.
  intros Hk. unfold startup, loadTasksFromDB, db_Find.
  set (s0 := Printf _ (init d)).
  destruct (register_each_ok (db_tasks d) s0) as
    (s' & Hr & Hok & Hheap & Hdb & Hrun & Hout & Hother & Hrows).
  - apply (registry_ok_frame (init d)); try reflexivity. apply registry_ok_init, Hk.
  - exact Hk.
  - intros t Ht. split; [apply lookup_empty|]. apply list_elem_of_fmap_2, Ht.
  - change (db (init d)) with d. rewrite Hr. cbn [mbind option_bind].
    eexists. split; [reflexivity|]. split.
    { apply (registry_ok_frame s'); try reflexivity. exact Hok. }
    simpl. split; [exact Hheap|]. split; [exact Hdb|]. split; [reflexivity|].
    split; [rewrite Hout; reflexivity|].
    split.
    + intros id Hno. destruct (Hother id Hno) as [E1 E2]. rewrite E1, E2.
      split; apply lookup_empty.
    + exact Hrows.
Qed.

End Bootstrap.

(** ** Whole runs *)

Section Runs.
Context {libs : Libraries}.

Lemma find_entry (l : list Entry) (e : Entry) :
  NoDup (entry_ID <$> l) -> e ∈ l ->
  List.find (fun e' => bool_decide (entry_ID e' = entry_ID e)) l = Some e.
Proof.
  intros Hnd He. destruct (List.find _ l) as [e'|] eqn:Hf.
  - apply find_some in Hf. destruct Hf as [Hin Hid].
    apply bool_decide_eq_true in Hid. apply list_elem_of_In in Hin.
    f_equal. exact (NoDup_fmap_eq entry_ID l e' e Hnd Hin He Hid).
  - apply list_elem_of_In in He. pose proof (find_none _ _ Hf e He) as N.
    apply bool_decide_eq_false in N. destruct N. reflexivity.
Qed.

(** Firing an entry of a well-formed registry runs [runTask] on the
    identifier of the definition its closure captured. *)
Lemma fire_entry (e : Entry) (t : Task) (w : World) (s : State) :
  NoDup (entry_ID <$> entries (c s)) -> e ∈ entries (c s) ->
  heap s !! entry_Job e = Some t ->
  fire (entry_ID e) w s = runTask (ID t) w s.
Proof.
  intros Hnd He Ht. unfold fire. rewrite (find_entry _ e Hnd He), Ht. reflexivity.
Qed.

Lemma registry_ok_runTask (id : Z) (w : World) (s : State) :
  registry_ok s -> exists s', runTask id w s = Some s' /\ registry_ok s'.
Proof.
  intros Hok. destruct (runTask_returns id w s) as [s' Hr].
  - intros p Hp. destruct (ok_tasks s Hok id p Hp) as (t & Ht & _). eauto.
  - exists s'. split; [exact Hr|].
    destruct (runTask_frame id w s s' Hr) as (F1 & F2 & F3 & F4 & F5).
    apply (registry_ok_frame s); try assumption; rewrite F4; reflexivity.
Qed.

Lemma NoDup_fmap_through {A B C : Type} (f : A -> B) (g : A -> C) (l : list A) :
  NoDup (f <$> l) ->
  (forall x y, x ∈ l -> y ∈ l -> g x = g y -> f x = f y) ->
  NoDup (g <$> l).
Proof.
  induction l as [|x l IH]; intros Hnd Hfg; [constructor|].
  rewrite fmap_cons in *. apply NoDup_cons in Hnd. destruct Hnd as [Hx Hnd].
  apply NoDup_cons. split.
  - intros Hin. apply Hx. apply list_elem_of_fmap in Hin. destruct Hin as (y & E & Hy).
    apply list_elem_of_fmap. exists y. split; [|exact Hy].
    apply Hfg; [apply elem_of_cons; left; reflexivity|apply elem_of_cons; right; exact Hy|exact E].
  - apply IH; [exact Hnd|]. intros y z Hy Hz. apply Hfg; apply elem_of_cons; right; assumption.
Qed.

(** In a well-formed registry the timers of an identifier are the one
    entry its handle names, if it has a handle, and none otherwise. *)
Lemma registry_ok_timers (s : State) (id : Z) :
  registry_ok s ->
  length (timers_of id s) = match cronIDs s !! id with Some _ => 1%nat | None => 0%nat end.
Proof.
  intros Hok.
  assert (Hall : forall e, e ∈ timers_of id s -> cronIDs s !! id = Some (entry_ID e)).
  { intros e He. apply list_elem_of_filter in He. destruct He as [Hid He].
    destruct (ok_entry s Hok e He) as (t & Ht & Hh). rewrite Ht in Hid.
    injection Hid as <-. exact Hh. }
  destruct (cronIDs s !! id) as [h|] eqn:Hh.
  - assert (Hle : (length (timers_of id s) <= 1)%nat).
    { apply (NoDup_fmap_same_short entry_ID _ h).
      - apply NoDup_fmap_filter, (ok_nodup s Hok).
      - intros e He. pose proof (Hall e He). congruence. }
    destruct (ok_handle s Hok id h Hh) as (e & t & He & _ & Ht & Hid).
    assert (Hin : e ∈ timers_of id s).
    { apply list_elem_of_filter. split; [|exact He]. rewrite Ht. simpl. congruence. }
    destruct (timers_of id s); [apply elem_of_nil in Hin; destruct Hin|simpl in *; lia].
  - destruct (timers_of id s) as [|e l] eqn:E; [reflexivity|].
    assert (Hin : e ∈ e :: l) by (apply elem_of_cons; left; reflexivity).
    pose proof (Hall e Hin). discriminate.
Qed.

End Runs.

(** ** Any interleaving *)

Section Interleaving.
Context {libs : Libraries}.

Local Abbreviation cells pool := (omap cell_of pool).

Lemma registry_safe_frame (s s' : State) :
  db_tasks (db s') = db_tasks (db s) -> tasks s' = tasks s ->
  cronIDs s' = cronIDs s -> c s' = c s -> heap s' = heap s ->
  registry_safe s -> registry_safe s'.
Proof.
  intros E1 E2 E3 E4 E5 [H1 H2 H3 H4 H5 H6].
  constructor; rewrite ?E1, ?E2, ?E3, ?E4, ?E5; assumption.
Qed.

Lemma thread_ok_mono (s s' : State) (th : Thread) :
  (forall p t, heap s !! p = Some t -> heap s' !! p = Some t) ->
  (forall t h, th = Register_cronIDs t h -> (forall id, cronIDs s !! id <> Some h) ->
     (forall e, e ∈ entries (c s) -> entry_ID e = h -> e ∈ entries (c s')) /\
     (forall id, cronIDs s' !! id <> Some h)) ->
  thread_ok s th -> thread_ok s' th.
Proof.
  intros Hheap Hreg.
  assert (Hp : forall p, is_Some (heap s !! p) -> is_Some (heap s' !! p)).
  { intros p [t Ht]. exists t. exact (Hheap p t Ht). }
  destruct th as [p|p|p h|row|row|id w|p w|p err req w|id st body w|line]; simpl;
    try exact (Hp p); try exact (fun H => H).
  intros (task & Ht & He & Hfree). destruct (Hreg p h eq_refl Hfree) as [Hent Hfree'].
  exists task. split; [exact (Hheap p task Ht)|]. split; [|exact Hfree'].
  apply Hent; [exact He|reflexivity].
Qed.

Lemma thread_ok_frame (s s' : State) (th : Thread) :
  cronIDs s' = cronIDs s -> c s' = c s -> heap s' = heap s ->
  thread_ok s th -> thread_ok s' th.
Proof.
  intros E1 E2 E3. apply thread_ok_mono.
  - intros p t. rewrite E3. exact (fun H => H).
  - intros t h _ Hfree. rewrite E1, E2. split; [intros e He _; exact He|exact Hfree].
Qed.

Lemma cell_valid (s : State) (th : Thread) (p : nat) :
  thread_ok s th -> cell_of th = Some p -> (p < length (heap s))%nat.
Proof.
  destruct th; simpl; try discriminate; intros Hok [= <-].
  - apply lookup_lt_is_Some_1, Hok.
  - apply lookup_lt_is_Some_1, Hok.
  - destruct Hok as (task & Ht & _). exact (lookup_lt_Some _ _ _ Ht).
Qed.

Lemma send_AppendLog (t : Task) (req : Request) (w : World) :
  exists st body, send t req w = AppendLog (ID t) st body w.
Proof.
  unfold send. destruct (client_Do w (newClient t) req) as [resp|err];
    [destruct (resp_ReadAll resp)|]; eauto.
Qed.

(** The goroutine that steps is somewhere in the pool. *)
Lemma exec_Step_middle (A B : list Thread) (th : Thread) (s : State) :
  exec (Step (length A)) (s, A ++ th :: B)
  = step th s ≫= fun '(s', next) => Some (s', A ++ after next B).
Proof.
  cbn [exec]. rewrite list_lookup_middle by reflexivity.
  destruct (step th s) as [[s' [th'|]]|]; cbn [mbind option_bind]; [| |reflexivity].
  - rewrite insert_app_r_alt by lia. rewrite Nat.sub_diag. reflexivity.
  - rewrite delete_middle. reflexivity.
Qed.


(** No two registrations in flight are about the same variable. *)
Lemma cells_apart (A B : list Thread) (th th2 : Thread) (p : nat) :
  NoDup (cells (A ++ th :: B)) -> th2 ∈ A ++ B ->
  cell_of th = Some p -> cell_of th2 <> Some p.
Proof.
  intros Hnd Hin Hp Hp2. rewrite omap_app in Hnd. cbn [omap list_omap] in Hnd.
  rewrite Hp in Hnd. apply NoDup_app in Hnd. destruct Hnd as (_ & Hsep & Hnd).
  apply NoDup_cons in Hnd. destruct Hnd as [HpB _].
  apply elem_of_app in Hin. destruct Hin as [Hin|Hin].
  - apply (Hsep p); [|apply elem_of_cons; left; reflexivity].
    apply list_elem_of_omap. exists th2. split; assumption.
  - apply HpB. apply list_elem_of_omap. exists th2. split; assumption.
Qed.

Lemma cells_after (A B : list Thread) (th : Thread) (next : option Thread) :
  from_option (fun th' => cell_of th' = cell_of th \/ cell_of th' = None) True next ->
  NoDup (cells (A ++ th :: B)) -> NoDup (cells (A ++ after next B)).
Proof.
  intros Hnext Hnd. rewrite omap_app in *. cbn [omap list_omap] in Hnd.
  assert (Hdrop : NoDup (cells A ++ cells B)).
  { destruct (cell_of th) as [p|]; [|exact Hnd].
    apply NoDup_app in Hnd. destruct Hnd as (H1 & H2 & H3).
    apply NoDup_cons in H3. apply NoDup_app. split; [exact H1|]. split; [|exact (proj2 H3)].
    intros x Hx HxB. apply (H2 x Hx). apply elem_of_cons. right. exact HxB. }
  destruct next as [th'|]; [|exact Hdrop].
  cbn [after omap list_omap]. simpl in Hnext. destruct Hnext as [E|E]; rewrite E.
  - exact Hnd.
  - exact Hdrop.
Qed.

(** The pool after a step: the other goroutines can still rely on what
    they relied on, and so can what is left of the one that stepped. *)
Lemma pool_ok_after (s s' : State) (A B : list Thread) (th : Thread)
    (next : option Thread) :
  pool_ok s (A ++ th :: B) ->
  (forall th2, th2 ∈ A ++ B -> thread_ok s th2 ->
     (forall p, cell_of th = Some p -> cell_of th2 <> Some p) -> thread_ok s' th2) ->
  from_option (thread_ok s') True next ->
  from_option (fun th' => cell_of th' = cell_of th \/ cell_of th' = None) True next ->
  pool_ok s' (A ++ after next B).
Proof.
  intros [Hall Hnd] Hothers Hnext Hcell. split; [|exact (cells_after A B th next Hcell Hnd)].
  apply Forall_app in Hall. destruct Hall as [HA HB].
  apply Forall_cons in HB. destruct HB as [_ HB].
  assert (Hrest : forall th2, th2 ∈ A ++ B -> thread_ok s th2 -> thread_ok s' th2).
  { intros th2 Hin Hok. apply (Hothers th2 Hin Hok).
    intros p Hp. exact (cells_apart A B th th2 p Hnd Hin Hp). }
  apply Forall_app. split.
  - apply Forall_forall. intros th2 Hin. apply Hrest.
    + apply elem_of_app. left. exact Hin.
    + exact (proj1 (Forall_forall _ _) HA th2 Hin).
  - assert (HB' : Forall (thread_ok s') B).
    { apply Forall_forall. intros th2 Hin. apply Hrest.
      - apply elem_of_app. right. exact Hin.
      - exact (proj1 (Forall_forall _ _) HB th2 Hin). }
    destruct next as [th'|]; [|exact HB'].
    apply Forall_cons. split; [exact Hnext|exact HB'].
Qed.

(** A step that leaves the registry as it is. *)
Lemma pool_ok_after_frame (s s' : State) (A B : list Thread) (th : Thread)
    (next : option Thread) :
  cronIDs s' = cronIDs s -> c s' = c s -> heap s' = heap s ->
  pool_ok s (A ++ th :: B) ->
  from_option (thread_ok s') True next ->
  from_option (fun th' => cell_of th' = cell_of th \/ cell_of th' = None) True next ->
  pool_ok s' (A ++ after next B).
Proof.
  intros E1 E2 E3 Hpool. apply (pool_ok_after s s' A B th next Hpool).
  intros th2 _ Hok _. exact (thread_ok_frame s s' th2 E1 E2 E3 Hok).
Qed.

(** Two handles of the handle map are held by two identifiers. *)
Lemma safe_handles_injective (s : State) (id id' h : Z) :
  registry_safe s -> cronIDs s !! id = Some h -> cronIDs s !! id' = Some h -> id = id'.
Proof.
  intros Hs H1 H2.
  destruct (safe_handle s Hs id h H1) as (e1 & t1 & He1 & E1 & Ht1 & <-).
  destruct (safe_handle s Hs id' h H2) as (e2 & t2 & He2 & E2 & Ht2 & <-).
  assert (e1 = e2).
  { apply (NoDup_fmap_eq entry_ID (entries (c s))); try assumption.
    - exact (safe_nodup s Hs).
    - congruence. }
  subst e2. congruence.
Qed.

(** Every access of a goroutine in flight succeeds and keeps what the
    registry and the goroutines rely on. *)
Lemma step_safe (A B : list Thread) (th : Thread) (s : State) :
  registry_safe s -> pool_ok s (A ++ th :: B) ->
  exists s' next, step th s = Some (s', next) /\
    registry_safe s' /\ pool_ok s' (A ++ after next B).
Proof.
  intros Hs Hpool.
  assert (Hth : thread_ok s th).
  { destruct Hpool as [Hall _]. apply Forall_app in Hall. destruct Hall as [_ Hall].
    apply Forall_cons in Hall. exact (proj1 Hall). }
  destruct th as [p|p|p h|row|row|id w|p w|p err req w|id st body w|line]; simpl in Hth;
    cbn [step].
  - (* tasks[t.ID] = t *)
    destruct Hth as [t Ht]. rewrite Ht. cbn [mbind option_bind].
    eexists _, _. split; [reflexivity|]. split.
    + destruct Hs as [H1 H2 H3 H4 H5 H6]. constructor; simpl; try assumption.
      intros id q Hq. destruct (decide (id = ID t)) as [->|Hne].
      * rewrite lookup_insert_eq in Hq. injection Hq as <-. eauto.
      * rewrite lookup_insert_ne in Hq by congruence. exact (H1 id q Hq).
    + apply (pool_ok_after_frame s _ A B _ _ eq_refl eq_refl eq_refl Hpool).
      * simpl. eauto.
      * simpl. left. reflexivity.
  - (* c.AddFunc *)
    destruct Hth as [t Ht]. rewrite Ht. cbn [mbind option_bind]. unfold AddFunc.
    destruct (cron_Parse_err (CronExpr t)) as [err|] eqn:Hparse.
    + eexists _, _. split; [reflexivity|]. split.
      * apply (registry_safe_frame s); try reflexivity. exact Hs.
      * apply (pool_ok_after_frame s _ A B _ _ eq_refl eq_refl eq_refl Hpool).
        -- exact I.
        -- simpl. right. reflexivity.
    + eexists _, _. split; [reflexivity|].
      assert (Hnew : forall e, e ∈ entries (c s) -> entry_ID e <> nextID (c s) + 1).
      { intros e He E. pose proof (safe_bound s Hs e He). lia. }
      split.
      * destruct Hs as [H1 H2 H3 H4 H5 H6]. constructor; simpl; try assumption.
        -- intros e He. apply elem_of_app in He. destruct He as [He|He]; [exact (H2 e He)|].
           apply list_elem_of_singleton in He. subst e. simpl. eauto.
        -- intros id h Hh. destruct (H3 id h Hh) as (e & t0 & He & E).
           exists e, t0. split; [apply elem_of_app; left; exact He|exact E].
        -- rewrite fmap_app. apply NoDup_app. split; [exact H4|]. split; [|apply NoDup_singleton].
           intros x Hx Hx'. apply list_elem_of_singleton in Hx'. subst x.
           apply list_elem_of_fmap in Hx. destruct Hx as (e & E & He).
           exact (Hnew e He (eq_sym E)).
        -- intros e He. apply elem_of_app in He. destruct He as [He|He].
           ++ pose proof (H5 e He). lia.
           ++ apply list_elem_of_singleton in He. subst e. simpl. lia.
      * apply (pool_ok_after s _ A B _ _ Hpool).
        -- intros th2 _ Hok _. apply (thread_ok_mono s _ th2); [auto| |exact Hok].
           intros q h _ Hfree. split; [|exact Hfree].
           intros e He _. simpl. apply elem_of_app. left. exact He.
        -- simpl. exists t. split; [exact Ht|]. split.
           ++ apply elem_of_app. right. apply list_elem_of_singleton. reflexivity.
           ++ intros id Hid. destruct (safe_handle s Hs id _ Hid) as (e & _ & He & E & _).
              exact (Hnew e He E).
        -- simpl. left. reflexivity.
  - (* cronIDs[t.ID] = entryID *)
    destruct Hth as (t & Ht & He & Hfree). rewrite Ht. cbn [mbind option_bind].
    eexists _, _. split; [reflexivity|]. split.
    + destruct Hs as [H1 H2 H3 H4 H5 H6]. constructor; simpl; try assumption.
      intros id h' Hh'. destruct (decide (id = ID t)) as [->|Hne].
      * rewrite lookup_insert_eq in Hh'. injection Hh' as <-.
        exists (mkEntry h (CronExpr t) p), t. auto.
      * rewrite lookup_insert_ne in Hh' by congruence. exact (H3 id h' Hh').
    + apply (pool_ok_after s _ A B _ _ Hpool).
      * intros th2 _ Hok Hapart. apply (thread_ok_mono s _ th2); [auto| |exact Hok].
        intros q h2 -> Hfree2. split; [intros e He' _; exact He'|].
        intros id. simpl. destruct (decide (id = ID t)) as [->|Hne].
        -- rewrite lookup_insert_eq. intros [= ->].
           destruct Hok as (t2 & Ht2 & He2 & _).
           assert (E : mkEntry h2 (CronExpr t) p = mkEntry h2 (CronExpr t2) q).
           { apply (NoDup_fmap_eq entry_ID (entries (c s))); try assumption.
             - exact (safe_nodup s Hs).
             - reflexivity. }
           injection E as _ ->. exact (Hapart q eq_refl eq_refl).
        -- rewrite lookup_insert_ne by congruence. apply Hfree2.
      * exact I.
      * simpl. right. reflexivity.
  - (* the critical section of the delete handler *)
    eexists _, _. split; [reflexivity|]. split.
    + pose proof (safe_handles_injective s) as Hinj.
      destruct Hs as [H1 H2 H3 H4 H5 H6].
      assert (Htasks : forall id' q, delete (ID row) (tasks s) !! id' = Some q ->
                         exists t, heap s !! q = Some t /\ ID t = id').
      { intros id' q Hq. apply lookup_delete_Some in Hq. exact (H1 id' q (proj2 Hq)). }
      unfold unregisterTask. destruct (cronIDs s !! ID row) as [h|] eqn:Hh;
        constructor; simpl; try assumption.
      * intros e He. apply list_elem_of_filter in He. exact (H2 e (proj2 He)).
      * intros id' h' Hh'. apply lookup_delete_Some in Hh'. destruct Hh' as [Hne Hh'].
        destruct (H3 id' h' Hh') as (e & t0 & He & E1 & E2).
        exists e, t0. split; [|auto].
        apply list_elem_of_filter. split; [|exact He].
        rewrite E1. intros ->. apply Hne.
        exact (Hinj (ID row) id' h (Build_registry_safe _ s H1 H2 H3 H4 H5 H6) Hh Hh').
      * apply NoDup_fmap_filter. exact H4.
      * intros e He. apply list_elem_of_filter in He. apply H5. exact (proj2 He).
    + apply (pool_ok_after s _ A B _ _ Hpool).
      * intros th2 _ Hok _. apply (thread_ok_mono s _ th2); [| |exact Hok].
        -- unfold unregisterTask. destruct (cronIDs s !! ID row); simpl; auto.
        -- intros q h2 _ Hfree2. unfold unregisterTask.
           destruct (cronIDs s !! ID row) as [h|] eqn:Hh; simpl.
           ++ split.
              ** intros e He E. apply list_elem_of_filter. split; [|exact He].
                 rewrite E. intros ->. exact (Hfree2 _ Hh).
              ** intros id Hid. apply lookup_delete_Some in Hid. exact (Hfree2 id (proj2 Hid)).
           ++ split; [intros e He _; exact He|exact Hfree2].
      * exact I.
      * simpl. left. reflexivity.
  - (* db.Delete *)
    eexists _, _. split; [reflexivity|]. split.
    + destruct Hs as [H1 H2 H3 H4 H5 H6]. constructor; simpl; try assumption.
      apply NoDup_fmap_filter. exact H6.
    + apply (pool_ok_after_frame s _ A B _ _ eq_refl eq_refl eq_refl Hpool); exact I.
  - (* the lookup of runTask *)
    destruct (tasks s !! id) as [q|] eqn:Hq.
    + eexists _, _. split; [reflexivity|]. split; [exact Hs|].
      apply (pool_ok_after_frame s _ A B _ _ eq_refl eq_refl eq_refl Hpool).
      * simpl. destruct (safe_tasks s Hs id q Hq) as (t & Ht & _). eauto.
      * simpl. left. reflexivity.
    + eexists _, _. split; [reflexivity|]. split; [exact Hs|].
      apply (pool_ok_after_frame s _ A B _ _ eq_refl eq_refl eq_refl Hpool).
      * exact I.
      * simpl. left. reflexivity.
  - (* the start line *)
    destruct Hth as [t Ht]. rewrite Ht. cbn [mbind option_bind].
    eexists _, _. split; [reflexivity|]. split.
    + apply (registry_safe_frame s); try reflexivity. exact Hs.
    + apply (pool_ok_after_frame s _ A B _ _ eq_refl eq_refl eq_refl Hpool).
      * simpl. destruct (newRequest t) as [req|err]; [|exact I].
        destruct (String.eqb (Headers t) "").
        { destruct (send_AppendLog t req w) as (st & body & ->). exact I. }
        destruct (json_Unmarshal (Headers t)) as [headers|err].
        { destruct (send_AppendLog t (foldl (fun r kv => Header_Set kv.1 kv.2 r) req headers) w)
            as (st & body & ->). exact I. }
        simpl. eauto.
      * simpl. destruct (newRequest t) as [req|err]; [|left; reflexivity].
        destruct (String.eqb (Headers t) "").
        { destruct (send_AppendLog t req w) as (st & body & ->). left. reflexivity. }
        destruct (json_Unmarshal (Headers t)) as [headers|err].
        { destruct (send_AppendLog t (foldl (fun r kv => Header_Set kv.1 kv.2 r) req headers) w)
            as (st & body & ->). left. reflexivity. }
        left. reflexivity.
  - (* the header warning *)
    destruct Hth as [t Ht]. rewrite Ht. cbn [mbind option_bind].
    eexists _, _. split; [reflexivity|]. split.
    + apply (registry_safe_frame s); try reflexivity. exact Hs.
    + apply (pool_ok_after_frame s _ A B _ _ eq_refl eq_refl eq_refl Hpool).
      * simpl. destruct (send_AppendLog t req w) as (st & body & ->). exact I.
      * simpl. destruct (send_AppendLog t req w) as (st & body & ->). left. reflexivity.
  - (* appendLog *)
    eexists _, _. split; [reflexivity|].
    destruct (appendLog_registry id st body w s) as (F1 & F2 & F3 & F4).
    destruct (appendLog_store id st body w s) as (F5 & _).
    split.
    + apply (registry_safe_frame s); assumption.
    + apply (pool_ok_after_frame s _ A B _ _ F2 F3 F4 Hpool); exact I.
  - (* a last line *)
    eexists _, _. split; [reflexivity|]. split.
    + apply (registry_safe_frame s); try reflexivity. exact Hs.
    + apply (pool_ok_after_frame s _ A B _ _ eq_refl eq_refl eq_refl Hpool); exact I.
Qed.


Lemma pool_ok_snoc (s : State) (pool : list Thread) (th : Thread) :
  pool_ok s pool -> thread_ok s th -> cell_of th = None -> pool_ok s (pool ++ [th]).
Proof.
  intros [Hall Hnd] Hth Hcell. split.
  - apply Forall_app. split; [exact Hall|]. apply Forall_singleton. exact Hth.
  - rewrite omap_app. cbn [omap list_omap]. rewrite Hcell, app_nil_r. exact Hnd.
Qed.

Lemma db_First_found (id : Z) (d : DB) :
  id ∈ ID <$> db_tasks d -> exists row, db_First id d = Some row /\ ID row = id.
Proof.
  intros Hin. apply list_elem_of_fmap in Hin. destruct Hin as (t & E & Ht).
  unfold db_First. destruct (List.find _ (db_tasks d)) as [row|] eqn:Hf.
  - exists row. split; [reflexivity|]. apply find_some in Hf.
    exact (proj1 (bool_decide_eq_true _) (proj2 Hf)).
  - apply list_elem_of_In in Ht. pose proof (find_none _ _ Hf t Ht) as N.
    apply bool_decide_eq_false in N. destruct N. congruence.
Qed.

(** Every action succeeds, whatever is in flight, and keeps what the
    registry and the goroutines rely on. *)
Lemma exec_safe (a : Action) (s : State) (pool : list Thread) :
  registry_safe s -> pool_ok s pool -> action_ok s a ->
  exists s' pool', exec a (s, pool) = Some (s', pool') /\
    registry_safe s' /\ pool_ok s' pool'.
Proof.
  intros Hs Hpool Ha. destruct a as [bind create|id|id w|h w|i]; cbn [exec].
  - unfold POST_api_tasks_create. destruct bind as [req|err]; [|eauto].
    destruct (_ || _); [eauto|]. destruct create as [id|err]; [|eauto].
    cbn [new_Task]. set (req' := with_ID id _).
    eexists _, _. split; [reflexivity|].
    assert (Hheap : forall p t, heap s !! p = Some t -> (heap s ++ [req']) !! p = Some t).
    { intros p t. apply lookup_app_l_Some. }
    split.
    + destruct Hs as [H1 H2 H3 H4 H5 H6]. constructor; simpl; try assumption.
      * intros id' p Hp. destruct (H1 id' p Hp) as (t & Ht & E). eauto.
      * intros e He. destruct (H2 e He) as (t & Ht & E). eauto.
      * intros id' h Hh. destruct (H3 id' h Hh) as (e & t & He & E1 & Ht & E2).
        exists e, t. auto.
      * rewrite fmap_app. apply NoDup_app. split; [exact H6|].
        split; [|apply NoDup_singleton].
        intros x Hx Hx'. apply list_elem_of_singleton in Hx'. subst x. exact (Ha Hx).
    + destruct Hpool as [Hall Hnd]. split.
      * apply Forall_app. split.
        -- apply Forall_forall. intros th Hin.
           apply (thread_ok_mono s); [exact Hheap| |exact (proj1 (Forall_forall _ _) Hall th Hin)].
           intros q h _ Hfree. split; [intros e He _; exact He|exact Hfree].
        -- apply Forall_singleton. simpl. exists req'. apply list_lookup_middle. reflexivity.
      * rewrite omap_app. cbn [omap list_omap cell_of]. apply NoDup_app. split; [exact Hnd|].
        split; [|apply NoDup_singleton].
        intros p Hp Hp'. apply list_elem_of_singleton in Hp'. subst p.
        apply list_elem_of_omap in Hp. destruct Hp as (th & Hin & Hcell).
        pose proof (cell_valid s th _ (proj1 (Forall_forall _ _) Hall th Hin) Hcell) as Hlt.
        simpl in Hlt. lia.
  - destruct (db_First id (db s)) as [row|]; [|eauto].
    eexists _, _. split; [reflexivity|]. split; [exact Hs|].
    apply pool_ok_snoc; [exact Hpool|exact I|reflexivity].
  - destruct (POST_api_tasks_run id s).2 as [taskID|]; [|eauto].
    eexists _, _. split; [reflexivity|]. split; [exact Hs|].
    apply pool_ok_snoc; [exact Hpool|exact I|reflexivity].
  - destruct (List.find _ _) as [e|] eqn:Hf; [|eauto].
    apply find_some in Hf. destruct Hf as [Hin _]. apply list_elem_of_In in Hin.
    destruct (safe_entry s Hs e Hin) as (t & Ht & _). rewrite Ht. cbn [mbind option_bind].
    eexists _, _. split; [reflexivity|]. split; [exact Hs|].
    apply pool_ok_snoc; [exact Hpool|exact I|reflexivity].
  - destruct (pool !! i) as [th|] eqn:Hi; [|eauto].
    pose proof (take_drop_middle pool i th Hi) as Hsplit.
    pose proof (lookup_lt_Some _ _ _ Hi) as Hlt.
    assert (Hlen : length (take i pool) = i) by (apply length_take_le; lia).
    rewrite <- Hsplit in Hpool.
    destruct (step_safe (take i pool) (drop (S i) pool) th s Hs Hpool)
      as (s' & next & Hstep & Hs' & Hpool').
    pose proof (exec_Step_middle (take i pool) (drop (S i) pool) th s) as E.
    rewrite Hlen, Hsplit, Hstep in E. cbn [exec] in E. rewrite Hi in E.
    rewrite E. cbn [mbind option_bind]. eauto.
Qed.

(** The state in which [main] starts to serve. *)
Lemma startup_safe (d : DB) :
  NoDup (ID <$> db_tasks d) ->
  exists s, startup d = Some s /\ registry_ok s /\ registry_safe s.
Proof.
  intros Hk.
  destruct (startup_ok d Hk) as (s & Hs & Hok & Hheap & _ & _ & _ & _ & Hrows).
  exists s. split; [exact Hs|]. split; [exact Hok|].
  constructor.
  - exact (ok_tasks s Hok).
  - intros e He. destruct (ok_entry s Hok e He) as (t & Ht & Hh).
    exists t. split; [exact Ht|].
    destruct (cron_Parse_err (CronExpr t)) as [err|] eqn:E; [|reflexivity].
    rewrite Hheap in Ht. destruct (Hrows _ t Ht) as (_ & _ & R3).
    rewrite (R3 err E) in Hh. discriminate.
  - exact (ok_handle s Hok).
  - exact (ok_nodup s Hok).
  - exact (ok_bound s Hok).
  - exact (ok_keys s Hok).
Qed.

Lemma pool_ok_Permutation (s : State) (pool pool' : list Thread) :
  pool ≡ₚ pool' -> pool_ok s pool -> pool_ok s pool'.
Proof.
  intros Hp [Hall Hnd]. split.
  - rewrite <- Hp. exact Hall.
  - rewrite <- Hp. exact Hnd.
Qed.

Lemma serving_safe (d : DB) (s : State) (pool : list Thread) :
  NoDup (ID <$> db_tasks d) -> serving d s pool -> registry_safe s /\ pool_ok s pool.
Proof.
  intros Hk Hr. induction Hr as [s Hs|s pool a s' pool' _ IH Ha He|s pool pool' _ IH Hp].
  - destruct (startup_safe d Hk) as (s0 & E & _ & Hsafe).
    assert (s0 = s) by congruence. subst s0.
    split; [exact Hsafe|]. split; [constructor|constructor].
  - destruct IH as [Hs Hpool].
    destruct (exec_safe a s pool Hs Hpool Ha) as (s0 & pool0 & E & Hs0 & Hpool0).
    rewrite E in He. injection He as <- <-. auto.
  - destruct IH as [Hs Hpool]. split; [exact Hs|].
    exact (pool_ok_Permutation s pool pool' Hp Hpool).
Qed.

(** *** Handlers served with nothing in between *)

(** A request is served the same way whatever is in flight. *)
Lemma exec_arrival (a : Action) (s : State) (pool : list Thread) :
  (forall i, a <> Step i) ->
  exec a (s, pool)
  = (fun cfg : State * list Thread => (cfg.1, pool ++ cfg.2)) <$> exec a (s, []).
Proof.
  intros Ha. destruct a as [bind create|id|id w|h w|i]; cbn [exec].
  - destruct (POST_api_tasks_create bind create s) as [s1 [p|]]; simpl;
      rewrite ?app_nil_r; reflexivity.
  - destruct (db_First id (db s)); simpl; rewrite ?app_nil_r; reflexivity.
  - destruct (POST_api_tasks_run id s).2; simpl; rewrite ?app_nil_r; reflexivity.
  - destruct (List.find _ _) as [e|]; [|simpl; rewrite app_nil_r; reflexivity].
    destruct (heap s !! entry_Job e); simpl; reflexivity.
  - destruct (Ha i eq_refl).
Qed.

Lemma action_ok_other (s : State) (a : Action) :
  ~ registry_request a -> action_ok s a.
Proof. destruct a; simpl; tauto. Qed.

(** A goroutine that runs to its end while the others wait. *)
Lemma serving_alone (d : DB) (n : nat) (s s' : State) (th : Thread) (pool : list Thread) :
  serving d s (th :: pool) ->
  serve_from (replicate n (Step 0)) (s, [th]) = Some (s', []) ->
  serving d s' pool.
Proof.
  revert s th. induction n as [|n IH]; intros s th Hr Hrun; [discriminate|].
  cbn [replicate] in Hrun. rewrite serve_from_Step in Hrun.
  destruct (step th s) as [[s1 next]|] eqn:Hstep; [|discriminate].
  cbn [mbind option_bind] in Hrun.
  assert (Hr1 : serving d s1 (after next pool)).
  { apply (serving_exec d s (th :: pool) (Step 0)); [exact Hr|exact I|].
    pose proof (exec_Step_middle [] pool th s) as E. rewrite Hstep in E. exact E. }
  destruct next as [th'|].
  - exact (IH s1 th' Hr1 Hrun).
  - rewrite serve_from_idle in Hrun. injection Hrun as <-. exact Hr1.
Qed.

Lemma serving_undisturbed (d : DB) (a : Action) (s s' : State) (pool : list Thread) :
  serving d s pool -> action_ok s a ->
  serve (undisturbed a) s = Some (s', []) ->
  serving d s' pool.
Proof.
  intros Hr Ha Hrun. unfold serve, undisturbed in Hrun. cbn [serve_from] in Hrun.
  destruct (exec a (s, [])) as [[s1 ths]|] eqn:He; [|discriminate].
  cbn [mbind option_bind] in Hrun.
  assert (Hcases : (exists i, a = Step i) \/
                   ((forall i, a <> Step i) /\ (ths = [] \/ exists th, ths = [th]))).
  { destruct a as [bind create|id|id w|h w|i]; [right|right|right|right|left; eauto];
      (split; [discriminate|]); cbn [exec] in He.
    - destruct (POST_api_tasks_create bind create s) as [s2 [p|]];
        injection He as <- <-; eauto.
    - destruct (db_First id (db s)); injection He as <- <-; eauto.
    - destruct (POST_api_tasks_run id s).2; injection He as <- <-; eauto.
    - destruct (List.find _ _) as [e|]; [|injection He as <- <-; eauto].
      destruct (heap s !! entry_Job e); [|discriminate]. injection He as <- <-. eauto. }
  destruct Hcases as [[i ->]|[Hstep Hths]].
  - cbn [exec] in He. rewrite lookup_nil in He. injection He as <- <-.
    rewrite serve_from_idle in Hrun. injection Hrun as <-. exact Hr.
  - assert (Hr1 : serving d s1 (pool ++ ths)).
    { apply (serving_exec d s pool a); [exact Hr|exact Ha|].
      rewrite (exec_arrival a s pool Hstep), He. reflexivity. }
    destruct Hths as [->|[th ->]].
    + rewrite serve_from_idle in Hrun. injection Hrun as <-.
      rewrite app_nil_r in Hr1. exact Hr1.
    + apply (serving_alone d 4 s1 s' th pool); [|exact Hrun].
      apply (serving_perm d s1 (pool ++ [th])); [exact Hr1|].
      symmetry. apply Permutation_cons_append.
Qed.

Lemma orderly_serving (d : DB) (s : State) (pool : list Thread) :
  orderly d s pool -> serving d s pool.
Proof.
  intros Hr. induction Hr as [s Hs|s pool a s' _ IH _ Ha Hrun|s pool a s' pool' _ IH Ha He].
  - exact (serving_startup d s Hs).
  - exact (serving_undisturbed d a s s' pool IH Ha Hrun).
  - exact (serving_exec d s pool a s' pool' IH (action_ok_other s a Ha) He).
Qed.


(** *** A dispatch that was started while its task had a row

    An identifier that has a definition, or is about to get one, had a
    row in the task table at some moment, and a run-now request served
    at that moment has started [runTask] on it.  Its goroutine may
    have waited since. *)

Lemma unregisterTask_fields (id : Z) (s : State) :
  tasks (unregisterTask id s) = delete id (tasks s) /\
  cronIDs (unregisterTask id s) = delete id (cronIDs s) /\
  heap (unregisterTask id s) = heap s /\ db (unregisterTask id s) = db s /\
  stdout (unregisterTask id s) = stdout s /\
  c (unregisterTask id s)
  = match cronIDs s !! id with Some h => Remove h (c s) | None => c s end.
Proof.
  unfold unregisterTask. destruct (cronIDs s !! id) as [h|] eqn:E; simpl.
  - repeat split; reflexivity.
  - rewrite (delete_id _ _ E). repeat split; reflexivity.
Qed.

Lemma step_known (th : Thread) (s s' : State) (next : option Thread) :
  step th s = Some (s', next) ->
  heap s' = heap s /\ (forall q, next <> Some (RegisterTask q)) /\
  forall id, is_Some (tasks s' !! id) ->
    is_Some (tasks s !! id) \/
    exists p t, th = RegisterTask p /\ heap s !! p = Some t /\ ID t = id.
Proof.
  destruct th as [p|p|p h|row|row|id0 w|p w|p err req w|id0 st body w|line]; cbn [step].
  - destruct (heap s !! p) as [t|] eqn:Ht; [|discriminate]. intros [= <- <-].
    split; [reflexivity|]. split; [discriminate|].
    intros id. simpl. destruct (decide (id = ID t)) as [->|Hne].
    + intros _. right. eauto.
    + rewrite lookup_insert_ne by congruence. auto.
  - destruct (heap s !! p) as [t|] eqn:Ht; [|discriminate]. cbn [mbind option_bind].
    unfold AddFunc. destruct (cron_Parse_err (CronExpr t)); intros [= <- <-];
      (split; [reflexivity|]); (split; [discriminate|]); auto.
  - destruct (heap s !! p) as [t|] eqn:Ht; [|discriminate]. intros [= <- <-].
    split; [reflexivity|]. split; [discriminate|]. auto.
  - intros [= <- <-]. destruct (unregisterTask_fields (ID row) s) as (F1 & _ & F3 & _).
    split; [exact F3|]. split; [discriminate|].
    intros id. rewrite F1. intros [q Hq]. apply lookup_delete_Some in Hq.
    left. exists q. exact (proj2 Hq).
  - intros [= <- <-]. split; [reflexivity|]. split; [discriminate|]. auto.
  - destruct (tasks s !! id0); intros [= <- <-];
      (split; [reflexivity|]); (split; [discriminate|]); auto.
  - destruct (heap s !! p) as [t|] eqn:Ht; [|discriminate]. intros [= <- <-].
    split; [reflexivity|]. split; [|auto].
    intros q. destruct (newRequest t) as [r|e]; [|discriminate].
    destruct (String.eqb (Headers t) "").
    { destruct (send_AppendLog t r w) as (st & body & ->). discriminate. }
    destruct (json_Unmarshal (Headers t)) as [headers|e]; [|discriminate].
    destruct (send_AppendLog t (foldl (fun r kv => Header_Set kv.1 kv.2 r) r headers) w)
      as (st & body & ->). discriminate.
  - destruct (heap s !! p) as [t|] eqn:Ht; [|discriminate]. intros [= <- <-].
    split; [reflexivity|]. split; [|auto].
    intros q. destruct (send_AppendLog t req w) as (st & body & ->). discriminate.
  - intros [= <- <-]. destruct (appendLog_registry id0 st body w s) as (F1 & _ & _ & F4).
    split; [exact F4|]. split; [discriminate|]. intros id. rewrite F1. auto.
  - intros [= <- <-]. split; [reflexivity|]. split; [discriminate|]. auto.
Qed.

(** An identifier that comes to be known has a row. *)
Lemma exec_known (a : Action) (s s' : State) (pool pool' : list Thread) (id : Z) :
  pool_ok s pool -> exec a (s, pool) = Some (s', pool') ->
  known id s' pool' -> known id s pool \/ id ∈ ID <$> db_tasks (db s').
Proof.
  intros [Hall _] He Hk.
  assert (Hsame : forall th, (forall q, th <> RegisterTask q) ->
            s' = s -> pool' = pool ++ [th] -> known id s pool).
  { intros th Hth -> ->. destruct Hk as [Hk|(p & t & Hin & Ht)]; [left; exact Hk|].
    right. exists p, t. split; [|exact Ht].
    apply elem_of_app in Hin. destruct Hin as [Hin|Hin]; [exact Hin|].
    apply list_elem_of_singleton in Hin. destruct (Hth p (eq_sym Hin)). }
  destruct a as [bind create|id0|id0 w|h w|i]; cbn [exec] in He.
  - unfold POST_api_tasks_create in He.
    destruct bind as [req|err]; [|injection He as <- <-; left; exact Hk].
    destruct (_ || _); [injection He as <- <-; left; exact Hk|].
    destruct create as [key|err]; [|injection He as <- <-; left; exact Hk].
    cbn [new_Task] in He. injection He as <- <-.
    destruct Hk as [Hk|(p & t & Hin & Ht & E)]; [left; left; exact Hk|].
    simpl in Ht. apply elem_of_app in Hin. destruct Hin as [Hin|Hin].
    + left. right. exists p, t. split; [exact Hin|]. split; [|exact E].
      pose proof (proj1 (Forall_forall _ _) Hall _ Hin) as [t0 Ht0]. simpl in Ht0.
      rewrite (lookup_app_l_Some _ _ _ _ Ht0) in Ht. congruence.
    + apply list_elem_of_singleton in Hin. injection Hin as ->.
      rewrite list_lookup_middle in Ht by reflexivity. injection Ht as <-.
      right. simpl. rewrite fmap_app. apply elem_of_app. right.
      apply list_elem_of_singleton. exact (eq_sym E).
  - destruct (db_First id0 (db s)) as [row|]; injection He as <- <-.
    + left. apply (Hsame (Delete_unregister row)); [discriminate|reflexivity|reflexivity].
    + left. exact Hk.
  - destruct (POST_api_tasks_run id0 s).2 as [taskID|]; injection He as <- <-.
    + left. apply (Hsame (RunTask taskID w)); [discriminate|reflexivity|reflexivity].
    + left. exact Hk.
  - destruct (List.find _ _) as [e|]; [|injection He as <- <-; left; exact Hk].
    destruct (heap s !! entry_Job e) as [t|]; [|discriminate]. injection He as <- <-.
    left. apply (Hsame (RunTask (ID t) w)); [discriminate|reflexivity|reflexivity].
  - destruct (pool !! i) as [th|] eqn:Hi; [|injection He as <- <-; left; exact Hk].
    destruct (step th s) as [[s1 next]|] eqn:Hstep; [|discriminate].
    cbn [mbind option_bind] in He. injection He as <- <-.
    destruct (step_known th s s1 next Hstep) as (Hheap & Hnext & Htasks).
    pose proof (list_elem_of_lookup_2 _ _ _ Hi) as Hth.
    left. destruct Hk as [Hk|(p & t & Hin & Ht & E)].
    + destruct (Htasks id Hk) as [Hk'|(p & t & -> & Ht & E)]; [left; exact Hk'|].
      right. eauto.
    + right. exists p, t. rewrite Hheap in Ht. split; [|auto].
      destruct next as [th'|].
      * apply list_elem_of_lookup in Hin. destruct Hin as [j Hj].
        destruct (decide (i = j)) as [<-|Hne].
        -- rewrite list_lookup_insert_eq in Hj by exact (lookup_lt_Some _ _ _ Hi).
           injection Hj as ->. destruct (Hnext p eq_refl).
        -- rewrite list_lookup_insert_ne in Hj by exact Hne.
           exact (list_elem_of_lookup_2 _ _ _ Hj).
      * exact (list_elem_of_delete_inv _ _ _ Hin).
Qed.

(** Whatever happens happens all the same with one more goroutine
    waiting. *)
Lemma exec_spectator (a : Action) (s s' : State) (pool pool' : list Thread) (th : Thread) :
  exec a (s, pool) = Some (s', pool') ->
  exists a', (action_ok s a -> action_ok s a') /\
    exec a' (s, th :: pool) = Some (s', th :: pool').
Proof.
  intros He. destruct a as [bind create|id0|id0 w|h w|i].
  - exists (CreateTask bind create). split; [auto|]. cbn [exec] in *.
    destruct (POST_api_tasks_create bind create s) as [s1 [p|]];
      injection He as <- <-; reflexivity.
  - exists (DeleteTask id0). split; [auto|]. cbn [exec] in *.
    destruct (db_First id0 (db s)); injection He as <- <-; reflexivity.
  - exists (RunNow id0 w). split; [auto|]. cbn [exec] in *.
    destruct (POST_api_tasks_run id0 s).2; injection He as <- <-; reflexivity.
  - exists (Fire h w). split; [auto|]. cbn [exec] in *.
    destruct (List.find _ _) as [e|]; [|injection He as <- <-; reflexivity].
    destruct (heap s !! entry_Job e); [|discriminate]. injection He as <- <-. reflexivity.
  - exists (Step (S i)). split; [auto|]. cbn [exec] in *.
    change ((th :: pool) !! S i) with (pool !! i).
    destruct (pool !! i) as [th0|]; [|injection He as <- <-; reflexivity].
    destruct (step th0 s) as [[s1 [th1|]]|]; [| |discriminate];
      injection He as <- <-; reflexivity.
Qed.

Lemma serving_spawn (d : DB) (s : State) (pool : list Thread) (id : Z) (w : World) :
  NoDup (ID <$> db_tasks d) -> serving d s pool -> known id s pool ->
  serving d s (RunTask id w :: pool).
Proof.
  intros Hkeys Hr.
  assert (Hrow : forall s pool, serving d s pool -> id ∈ ID <$> db_tasks (db s) ->
            serving d s (RunTask id w :: pool)).
  { clear s pool Hr. intros s pool Hr Hin.
    destruct (db_First_found id (db s) Hin) as (row & Hf & E).
    apply (serving_perm d s (pool ++ [RunTask id w])); [|symmetry; apply Permutation_cons_append].
    apply (serving_exec d s pool (RunNow id w)); [exact Hr|exact I|].
    cbn [exec]. unfold POST_api_tasks_run. rewrite Hf, E. reflexivity. }
  induction Hr as [s Hs|s pool a s' pool' Hr IH Ha He|s pool pool' Hr IH Hp]; intros Hk.
  - apply Hrow; [exact (serving_startup d s Hs)|].
    destruct (startup_safe d Hkeys) as (s0 & E & Hok & _).
    assert (s0 = s) by congruence. subst s0.
    destruct Hk as [Hk|(p & t & Hin & _)]; [exact (ok_rows s Hok id Hk)|].
    apply elem_of_nil in Hin. destruct Hin.
  - destruct (serving_safe d s pool Hkeys Hr) as [_ Hpool].
    destruct (exec_known a s s' pool pool' id Hpool He Hk) as [Hk'|Hin].
    + destruct (exec_spectator a s s' pool pool' (RunTask id w) He) as (a' & Ha' & He').
      exact (serving_exec d s _ a' s' _ (IH Hk') (Ha' Ha) He').
    + apply Hrow; [|exact Hin]. exact (serving_exec d s pool a s' pool' Hr Ha He).
  - apply (serving_perm d s (RunTask id w :: pool)); [|apply perm_skip; exact Hp].
    apply IH. destruct Hk as [Hk|(p & t & Hin & Ht)]; [left; exact Hk|].
    right. exists p, t. split; [|exact Ht]. rewrite Hp. exact Hin.
Qed.

(** [runTask] on a defined identifier, from its first line to its
    last, is something the serving program does. *)
Lemma serving_runTask (d : DB) (s s' : State) (pool : list Thread) (id : Z) (w : World) :
  NoDup (ID <$> db_tasks d) -> serving d s pool -> is_Some (tasks s !! id) ->
  runTask id w s = Some s' -> serving d s' pool.
Proof.
  intros Hkeys Hr Hid Hrun.
  apply (serving_alone d 4 s s' (RunTask id w) pool).
  - apply serving_spawn; [exact Hkeys|exact Hr|left; exact Hid].
  - rewrite RunTask_undisturbed, Hrun. reflexivity.
Qed.

End Interleaving.

(** ** Create and delete requests served one at a time *)

Section Orderly.
Context {libs : Libraries}.

Lemma registry_faithful_frame (s s' : State) :
  db_tasks (db s') = db_tasks (db s) -> tasks s' = tasks s ->
  cronIDs s' = cronIDs s -> heap s' = heap s ->
  registry_faithful s -> registry_faithful s'.
Proof.
  intros E1 E2 E3 E4 [H1 H2]. constructor; rewrite ?E1, ?E2, ?E3, ?E4; assumption.
Qed.

Lemma registry_faithful_startup (d : DB) (s : State) :
  NoDup (ID <$> db_tasks d) -> startup d = Some s -> registry_faithful s.
Proof.
  intros Hk Hs.
  destruct (startup_ok d Hk) as (s0 & E & Hok & Hheap & Hdb & _ & _ & _ & Hrows).
  rewrite Hs in E. injection E as <-.
  assert (Hrow : forall id p t, tasks s !! id = Some p -> heap s !! p = Some t ->
                   db_tasks d !! p = Some t /\ ID t = id).
  { intros id p t Hid Hp. split; [rewrite <- Hheap; exact Hp|].
    destruct (ok_tasks s Hok id p Hid) as (t0 & Ht0 & E). congruence. }
  constructor.
  - intros id p t Hid Hp. destruct (Hrow id p t Hid Hp) as [Hl _].
    rewrite Hdb. exact (list_elem_of_lookup_2 _ _ _ Hl).
  - intros id p t Hid Hp. destruct (Hrow id p t Hid Hp) as [Hl <-].
    destruct (Hrows p t Hl) as (_ & R2 & R3). split; [|exact R2].
    intros [h Hh]. destruct (cron_Parse_err (CronExpr t)) as [err|]; [|reflexivity].
    rewrite (R3 err eq_refl) in Hh. discriminate.
Qed.

(** The create handler, once the store accepted the row under a key new
    to the task table. *)
Lemma registry_faithful_create (req : Task) (id : Z) (s s' : State) (r : Reply) :
  registry_ok s -> registry_faithful s -> id ∉ ID <$> db_tasks (db s) ->
  POST_api_tasks (Ok req) (Ok id) s = Some (r, s') -> registry_faithful s'.
Proof.
  intros Hok [H1 H2] Hfresh. unfold POST_api_tasks.
  destruct (_ || _); [intros [= _ <-]; constructor; assumption|].
  set (t := with_ID id _). set (s1 := set_db (db_insert_task t) s).
  destruct (register_copy t s1) as (s2 & Hr & Hheap & Hdb & _ & Htasks & _ & Hgood & Hbad).
  simpl in Hr. simpl. rewrite Hr. simpl. intros [= _ <-].
  assert (Hnone : tasks s !! id = None).
  { destruct (tasks s !! id) eqn:E; [|reflexivity].
    destruct Hfresh. apply (ok_rows s Hok). eauto. }
  pose proof (no_handle_without_definition s id (ok_handles s Hok) Hnone) as Hnoh.
  assert (Hold : forall id' p t', id' <> id -> tasks s !! id' = Some p ->
                   heap s2 !! p = Some t' -> heap s !! p = Some t').
  { intros id' p t' _ Hid Hp. destruct (ok_tasks s Hok id' p Hid) as (t0 & Ht0 & _).
    rewrite Hheap in Hp. rewrite (lookup_app_l_Some _ _ _ _ Ht0) in Hp. congruence. }
  assert (Hnew : forall t', heap s2 !! length (heap s) = Some t' -> t' = t).
  { intros t' Hp. rewrite Hheap in Hp. simpl in Hp.
    rewrite list_lookup_middle in Hp by reflexivity. congruence. }
  constructor.
  - intros id' p t' Hid Hp. rewrite Hdb. simpl. apply elem_of_app.
    rewrite Htasks in Hid. simpl in Hid. destruct (decide (id = id')) as [<-|N].
    + rewrite lookup_insert_eq in Hid. injection Hid as <-.
      right. apply list_elem_of_singleton. exact (Hnew t' Hp).
    + rewrite lookup_insert_ne in Hid by exact N. left.
      apply (H1 id' p t' Hid). apply (Hold id' p t'); auto.
  - intros id' p t' Hid Hp. rewrite Htasks in Hid. simpl in Hid.
    destruct (decide (id = id')) as [<-|N].
    + rewrite lookup_insert_eq in Hid. injection Hid as <-.
      rewrite (Hnew t' Hp). destruct (cron_Parse_err (CronExpr t)) as [err|] eqn:E.
      * rewrite (Hbad err eq_refl). simpl. rewrite Hnoh. split; [intros [? ?]|]; discriminate.
      * rewrite (Hgood eq_refl). simpl. change (ID t) with id.
        rewrite lookup_insert_eq. split; eauto.
    + rewrite lookup_insert_ne in Hid by exact N.
      assert (Hc : cronIDs s2 !! id' = cronIDs s !! id').
      { destruct (cron_Parse_err (CronExpr t)) as [err|] eqn:E.
        - rewrite (Hbad err eq_refl). reflexivity.
        - rewrite (Hgood eq_refl). simpl. change (ID t) with id.
          apply lookup_insert_ne. exact N. }
      rewrite Hc. apply (H2 id' p t' Hid). apply (Hold id' p t'); auto.
Qed.

Lemma registry_faithful_delete (id : Z) (s : State) :
  registry_ok s -> registry_faithful s -> registry_faithful (DELETE_api_tasks id s).2.
Proof.
  intros Hok [H1 H2]. unfold DELETE_api_tasks.
  destruct (db_First id (db s)) as [row|] eqn:Hrow; [|constructor; assumption].
  destruct (db_First_ID id (db s) row Hrow) as [Hid _]. cbn [snd]. rewrite Hid.
  destruct (unregisterTask_fields id s) as (F1 & F2 & Hheap & Hdb & _).
  assert (Hmaps : forall id' p, tasks (unregisterTask id s) !! id' = Some p ->
            id' <> id /\ tasks s !! id' = Some p /\
            cronIDs (unregisterTask id s) !! id' = cronIDs s !! id').
  { intros id' p Hp. rewrite F1 in Hp. apply lookup_delete_Some in Hp.
    destruct Hp as [N Hp]. rewrite F2, lookup_delete_ne by exact N. auto. }
  constructor.
  - intros id' p t Hp Ht.
    change (heap (unregisterTask id s) !! p = Some t) in Ht. rewrite Hheap in Ht.
    change (tasks (unregisterTask id s) !! id' = Some p) in Hp.
    destruct (Hmaps id' p Hp) as (N & Hp' & _).
    change (t ∈ filter (fun r => ID r <> ID row) (db_tasks (db (unregisterTask id s)))).
    rewrite Hdb. apply list_elem_of_filter. split; [|exact (H1 id' p t Hp' Ht)].
    destruct (ok_tasks s Hok id' p Hp') as (t0 & Ht0 & E). congruence.
  - intros id' p t Hp Ht.
    change (heap (unregisterTask id s) !! p = Some t) in Ht. rewrite Hheap in Ht.
    change (tasks (unregisterTask id s) !! id' = Some p) in Hp.
    destruct (Hmaps id' p Hp) as (N & Hp' & Hc).
    change (is_Some (cronIDs (unregisterTask id s) !! id')
            <-> cron_Parse_err (CronExpr t) = None).
    rewrite Hc. exact (H2 id' p t Hp' Ht).
Qed.

(** The create handler, served with nothing in between, never panics
    and keeps the registry well-formed. *)
Lemma POST_api_tasks_ok (bind : result Task) (create : result Z) (s : State) :
  registry_ok s -> registry_faithful s -> action_ok s (CreateTask bind create) ->
  exists r s', POST_api_tasks bind create s = Some (r, s') /\
    registry_ok s' /\ registry_faithful s' /\
    (forall p t, heap s !! p = Some t -> heap s' !! p = Some t).
Proof.
  intros Hok Hf Ha.
  destruct bind as [req|err]; [|exists (mkReply 400 (JError err)), s; auto].
  destruct create as [id|err].
  - assert (Hret : exists r s', POST_api_tasks (Ok req) (Ok id) s = Some (r, s') /\
                     registry_ok s' /\
                     (forall p t, heap s !! p = Some t -> heap s' !! p = Some t)).
    { unfold POST_api_tasks. destruct (_ || _); [eauto|].
      set (req' := with_ID id _). set (s1 := set_db (db_insert_task req') s).
      assert (Hok1 : registry_ok s1).
      { apply registry_ok_db_insert_task; [exact Hok|exact Ha]. }
      destruct (register_copy req' s1) as (s3 & Hr & Hheap & _).
      simpl in Hr. simpl. rewrite Hr. simpl. eexists _, s3. split; [reflexivity|]. split.
      - apply (registry_ok_registerTask _ req' _ s3 (registry_ok_new_Task req' s1 Hok1)
                 (new_Task_lookup req' s1)); [| |exact Hr].
        + simpl. destruct (tasks s !! id) eqn:E; [|reflexivity].
          destruct Ha. apply (ok_rows s Hok). eauto.
        + simpl. rewrite fmap_app. apply elem_of_app. right.
          apply list_elem_of_singleton. reflexivity.
      - intros p t Ht. rewrite Hheap. apply lookup_app_l_Some. exact Ht. }
    destruct Hret as (r & s' & E & Hok' & Hheap). exists r, s'.
    split; [exact E|]. split; [exact Hok'|]. split; [|exact Hheap].
    exact (registry_faithful_create req id s s' r Hok Hf Ha E).
  - unfold POST_api_tasks. destruct (_ || _); eexists _, s; auto.
Qed.

Lemma DELETE_api_tasks_ok (id : Z) (s : State) :
  registry_ok s -> registry_ok (DELETE_api_tasks id s).2 /\
  heap (DELETE_api_tasks id s).2 = heap s.
Proof.
  intros Hok. unfold DELETE_api_tasks.
  destruct (db_First id (db s)) as [row|]; [|auto]. cbn [snd]. split.
  - apply registry_ok_db_Delete; [apply registry_ok_unregisterTask, Hok|].
    unfold unregisterTask. destruct (cronIDs s !! ID row); apply lookup_delete_eq.
  - exact (proj1 (proj2 (proj2 (unregisterTask_fields (ID row) s)))).
Qed.

(** A registry request served with nothing in between. *)
Lemma request_ok (a : Action) (s : State) :
  registry_ok s -> registry_faithful s -> registry_request a -> action_ok s a ->
  exists s', serve (undisturbed a) s = Some (s', []) /\
    registry_ok s' /\ registry_faithful s' /\
    (forall p t, heap s !! p = Some t -> heap s' !! p = Some t).
Proof.
  intros Hok Hf Hreq Ha. destruct a as [bind create|id|id w|h w|i]; try destruct Hreq.
  - destruct (POST_api_tasks_ok bind create s Hok Hf Ha) as (r & s' & E & H1 & H2 & H3).
    exists s'. rewrite CreateTask_undisturbed, E. auto.
  - exists (DELETE_api_tasks id s).2. rewrite DeleteTask_undisturbed.
    destruct (DELETE_api_tasks_ok id s Hok) as [H1 H2].
    split; [reflexivity|]. split; [exact H1|].
    split; [exact (registry_faithful_delete id s Hok Hf)|].
    intros p t. rewrite H2. exact (fun H => H).
Qed.

Lemma dispatch_ok_mono (s s' : State) (th : Thread) :
  (forall p t, heap s !! p = Some t -> heap s' !! p = Some t) ->
  dispatch_ok s th -> dispatch_ok s' th.
Proof.
  intros Hheap [Hd Hok]. split; [exact Hd|].
  apply (thread_ok_mono s s' th Hheap); [|exact Hok].
  intros t h ->. destruct Hd.
Qed.

(** A step of such a goroutine leaves the registry and the task table
    as they are. *)
Lemma dispatch_step (th : Thread) (s : State) :
  registry_ok s -> dispatch_ok s th ->
  exists s' next, step th s = Some (s', next) /\
    db_tasks (db s') = db_tasks (db s) /\ tasks s' = tasks s /\
    cronIDs s' = cronIDs s /\ c s' = c s /\ heap s' = heap s /\
    from_option (dispatch_ok s') True next.
Proof.
  intros Hok [Hd Hth].
  assert (Hsend : forall s' t req w, dispatch_ok s' (send t req w)).
  { intros s' t req w. destruct (send_AppendLog t req w) as (st & body & ->).
    split; exact I. }
  destruct th as [p|p|p h|row|row|id w|p w|p err req w|id st body w|line];
    try destruct Hd; simpl in Hth; cbn [step].
  - destruct (tasks s !! id) as [q|] eqn:Hq.
    + eexists _, _. split; [reflexivity|]. do 5 (split; [reflexivity|]).
      split; [exact I|]. simpl.
      destruct (ok_tasks s Hok id q Hq) as (t & Ht & _). eauto.
    + eexists _, _. split; [reflexivity|]. do 5 (split; [reflexivity|]).
      split; exact I.
  - destruct Hth as [t Ht]. rewrite Ht. cbn [mbind option_bind].
    eexists _, _. split; [reflexivity|]. do 5 (split; [reflexivity|]).
    cbn [from_option].
    destruct (newRequest t) as [req|err]; [|split; exact I].
    destruct (String.eqb (Headers t) ""); [apply Hsend|].
    destruct (json_Unmarshal (Headers t)) as [headers|err]; [apply Hsend|].
    split; [exact I|]. simpl. eauto.
  - destruct Hth as [t Ht]. rewrite Ht. cbn [mbind option_bind].
    eexists _, _. split; [reflexivity|]. do 5 (split; [reflexivity|]).
    apply Hsend.
  - eexists _, _. split; [reflexivity|].
    destruct (appendLog_registry id st body w s) as (F1 & F2 & F3 & F4).
    destruct (appendLog_store id st body w s) as (F5 & _).
    do 5 (split; [assumption|]). exact I.
  - eexists _, _. split; [reflexivity|]. do 5 (split; [reflexivity|]). exact I.
Qed.

Lemma dispatch_ok_frame (s s' : State) (th : Thread) :
  cronIDs s' = cronIDs s -> c s' = c s -> heap s' = heap s ->
  dispatch_ok s th -> dispatch_ok s' th.
Proof.
  intros E1 E2 E3 [Hd Hok]. split; [exact Hd|].
  exact (thread_ok_frame s s' th E1 E2 E3 Hok).
Qed.

(** A run-now request, a timer fire or a step of a dispatching
    goroutine: the registry and the task table stay as they are. *)
Lemma dispatch_exec (a : Action) (s : State) (pool : list Thread) :
  registry_ok s -> Forall (dispatch_ok s) pool -> ~ registry_request a ->
  exists s' pool', exec a (s, pool) = Some (s', pool') /\
    db_tasks (db s') = db_tasks (db s) /\ tasks s' = tasks s /\
    cronIDs s' = cronIDs s /\ c s' = c s /\ heap s' = heap s /\
    Forall (dispatch_ok s') pool'.
Proof.
  intros Hok Hpool Ha.
  assert (Hsnoc : forall th, dispatch_ok s th -> Forall (dispatch_ok s) (pool ++ [th])).
  { intros th Hth. apply Forall_app. split; [exact Hpool|]. apply Forall_singleton, Hth. }
  destruct a as [bind create|id|id w|h w|i]; try (destruct Ha; exact I); cbn [exec].
  - destruct (POST_api_tasks_run id s).2 as [taskID|].
    + eexists _, _. split; [reflexivity|]. do 5 (split; [reflexivity|]).
      apply Hsnoc. split; exact I.
    + eexists _, _. split; [reflexivity|]. do 5 (split; [reflexivity|]). exact Hpool.
  - destruct (List.find _ _) as [e|] eqn:Hf.
    + apply find_some in Hf. destruct Hf as [Hin _]. apply list_elem_of_In in Hin.
      destruct (ok_entry s Hok e Hin) as (t & Ht & _). rewrite Ht. cbn [mbind option_bind].
      eexists _, _. split; [reflexivity|]. do 5 (split; [reflexivity|]).
      apply Hsnoc. split; exact I.
    + eexists _, _. split; [reflexivity|]. do 5 (split; [reflexivity|]). exact Hpool.
  - destruct (pool !! i) as [th|] eqn:Hi.
    + pose proof (proj1 (Forall_lookup _ _) Hpool i th Hi) as Hth.
      destruct (dispatch_step th s Hok Hth) as (s' & next & Hstep & F1 & F2 & F3 & F4 & F5 & Hn).
      rewrite Hstep. cbn [mbind option_bind].
      eexists _, _. split; [reflexivity|]. do 5 (split; [assumption|]).
      assert (Hpool' : Forall (dispatch_ok s') pool).
      { apply Forall_forall. intros th2 Hin.
        apply (dispatch_ok_frame s s' th2 F3 F4 F5).
        exact (proj1 (Forall_forall _ _) Hpool th2 Hin). }
      destruct next as [th'|].
      * apply Forall_insert; [exact Hpool'|exact Hn].
      * apply Forall_delete. exact Hpool'.
    + eexists _, _. split; [reflexivity|]. do 5 (split; [reflexivity|]). exact Hpool.
Qed.

(** In an orderly run the registry is well-formed and says what the
    store says, whatever is being dispatched. *)
Lemma orderly_ok (d : DB) (s : State) (pool : list Thread) :
  NoDup (ID <$> db_tasks d) -> orderly d s pool ->
  registry_ok s /\ registry_faithful s /\ Forall (dispatch_ok s) pool.
Proof.
  intros Hk Hr.
  induction Hr as [s Hs|s pool a s' _ IH Hreq Ha Hrun|s pool a s' pool' _ IH Ha He].
  - destruct (startup_safe d Hk) as (s0 & E & Hok & _).
    assert (s0 = s) by congruence. subst s0.
    split; [exact Hok|]. split; [exact (registry_faithful_startup d s Hk Hs)|constructor].
  - destruct IH as (Hok & Hf & Hpool).
    destruct (request_ok a s Hok Hf Hreq Ha) as (s0 & E & Hok' & Hf' & Hheap).
    rewrite E in Hrun. injection Hrun as <-.
    split; [exact Hok'|]. split; [exact Hf'|].
    apply Forall_forall. intros th Hin.
    exact (dispatch_ok_mono s s0 th Hheap (proj1 (Forall_forall _ _) Hpool th Hin)).
  - destruct IH as (Hok & Hf & Hpool).
    destruct (dispatch_exec a s pool Hok Hpool Ha)
      as (s0 & pool0 & E & F1 & F2 & F3 & F4 & F5 & Hpool').
    rewrite E in He. injection He as <- <-.
    split; [|split; [|exact Hpool']].
    + apply (registry_ok_frame s); try assumption; rewrite F4; reflexivity.
    + exact (registry_faithful_frame s s0 F1 F2 F3 F5 Hf).
Qed.

End Orderly.

(** ** The registry over whole runs *)

Section Run_claims.
Context {libs : Libraries}.

(** A run of [serve] whose creates the store accepted under new keys is
    a run of the serving program. *)
Lemma serving_serve_from (d : DB) (acts : list Action) (s s' : State)
    (pool pool' : list Thread) :
  serving d s pool -> accepted acts (s, pool) = true ->
  serve_from acts (s, pool) = Some (s', pool') -> serving d s' pool'.
Proof.
  revert s pool. induction acts as [|a acts IH]; intros s pool Hr Hacc Hrun.
  - injection Hrun as <- <-. exact Hr.
  - cbn [accepted serve_from] in Hacc, Hrun. apply andb_prop in Hacc.
    destruct Hacc as [Ha Hacc]. apply bool_decide_eq_true in Ha.
    destruct (exec a (s, pool)) as [[s1 pool1]|] eqn:E; [|discriminate].
    cbn [mbind option_bind] in Hrun.
    exact (IH s1 pool1 (serving_exec d s pool a s1 pool1 Hr Ha E) Hacc Hrun).
Qed.




(** C8.  [main] runs the bootstrap load to its end before it serves:
    the state in which the first request is served already holds every
    row of the task table, each copied into a cell of its own (cell [i]
    for row [i]).  The definitions map points every identifier to the
    cell of its row, and every timer captured the cell of one row with a
    valid cron expression, no two timers the same cell, so firing a
    timer runs [runTask] on the identifier of that very row.  All the
    registration lines are printed before the banner. *)
Theorem bootstrap_registers_own_copies (d : DB) (acts : list Action) :
  NoDup (ID <$> db_tasks d) ->
  exists s, startup d = Some s /\ main (Ok d) acts = serve acts s /\
    heap s = db_tasks d /\
    stdout s
    = [line_loaded (length (db_tasks d))] ++ (register_line <$> db_tasks d)
      ++ [line_serving] /\
    (forall i t, db_tasks d !! i = Some t ->
       tasks s !! ID t = Some i /\ heap s !! i = Some t) /\
    (forall e, e ∈ entries (c s) ->
       exists t, db_tasks d !! entry_Job e = Some t /\
         cron_Parse_err (CronExpr t) = None /\
         tasks s !! ID t = Some (entry_Job e) /\
         cronIDs s !! ID t = Some (entry_ID e) /\
         forall w, fire (entry_ID e) w s = runTask (ID t) w s) /\
    (forall i t, db_tasks d !! i = Some t -> cron_Parse_err (CronExpr t) = None ->
       exists e, e ∈ entries (c s) /\ entry_Job e = i) /\
    NoDup (entry_Job <$> entries (c s)).
Proof.
  intros Hk.
  destruct (startup_ok d Hk) as (s & Hs & Hok & Hheap & Hdb & Hrun & Hout & Hother & Hrows).
  assert (Hrow_eq : forall i j t t', db_tasks d !! i = Some t -> db_tasks d !! j = Some t' ->
                      ID t = ID t' -> i = j).
  { intros i j t t' Hi Hj E. apply (NoDup_lookup (ID <$> db_tasks d) i j (ID t) Hk).
    - rewrite list_lookup_fmap, Hi. reflexivity.
    - rewrite list_lookup_fmap, Hj, E. reflexivity. }
  exists s. split; [exact Hs|]. split.
  { unfold main. rewrite Hs. reflexivity. }
  split; [exact Hheap|]. split; [exact Hout|]. split; [|split; [|split]].
  - intros i t Hi. split; [exact (proj1 (Hrows i t Hi))|]. rewrite Hheap. exact Hi.
  - intros e He. destruct (ok_entry s Hok e He) as (t & Ht & Hh).
    exists t. rewrite <- Hheap. split; [exact Ht|].
    rewrite Hheap in Ht. destruct (Hrows _ t Ht) as (R1 & _ & R3).
    split; [|split; [exact R1|split; [exact Hh|]]].
    + destruct (cron_Parse_err (CronExpr t)) as [err|] eqn:E; [|reflexivity].
      rewrite (R3 err eq_refl) in Hh. discriminate.
    + intros w. apply fire_entry; [exact (ok_nodup s Hok)|exact He|].
      rewrite Hheap. exact Ht.
  - intros i t Hi Hgood. destruct (Hrows i t Hi) as (_ & R2 & _).
    destruct (R2 Hgood) as [h Hh].
    destruct (ok_handle s Hok (ID t) h Hh) as (e & t0 & He & _ & Ht0 & E).
    exists e. split; [exact He|]. rewrite Hheap in Ht0.
    exact (Hrow_eq _ _ t0 t Ht0 Hi E).
  - apply (NoDup_fmap_through entry_ID entry_Job); [exact (ok_nodup s Hok)|].
    intros e1 e2 H1 H2 E.
    destruct (ok_entry s Hok e1 H1) as (t1 & Ht1 & Hh1).
    destruct (ok_entry s Hok e2 H2) as (t2 & Ht2 & Hh2).
    rewrite E, Ht2 in Ht1. injection Ht1 as <-. congruence.
Qed.

End Run_claims.

(** ** Timeouts *)

Section Timeouts.
Context {libs : Libraries}.

(** The create handler stores and registers a definition whose timeout
    is the requested one if that is positive, and 10 otherwise. *)
Lemma create_sets_positive_timeout (req : Task) (id : Z) (s : State) :
  Name req <> "" -> CronExpr req <> "" -> URL req <> "" ->
  exists s' t,
    POST_api_tasks (Ok req) (Ok id) s = Some (mkReply 200 (JTask t), s') /\
    heap s' !! length (heap s) = Some t /\
    tasks s' !! id = Some (length (heap s)) /\ t ∈ db_tasks (db s') /\
    ID t = id /\ 0 < Timeout t /\
    Timeout t = if Timeout req <=? 0 then 10 else Timeout req.
Proof.
  intros H1 H2 H3. unfold POST_api_tasks.
  apply String.eqb_neq in H1, H2, H3. rewrite H1, H2, H3. cbn [orb].
  set (req' := with_ID id _). set (s1 := set_db (db_insert_task req') s).
  destruct (register_copy req' s1) as (s2 & Hr & Hheap & Hdb & _ & Htasks & _).
  simpl in Hr. simpl. rewrite Hr. simpl. exists s2, req'.
  split; [reflexivity|].
  split; [rewrite Hheap; apply list_lookup_middle; reflexivity|].
  split; [rewrite Htasks; apply lookup_insert_eq|].
  split; [rewrite Hdb; simpl; apply elem_of_app; right; apply list_elem_of_singleton; reflexivity|].
  split; [reflexivity|]. subst req'.
  destruct (Timeout req <=? 0) eqn:E; simpl; [split; [lia|reflexivity]|].
  apply Z.leb_gt in E. split; [exact E|reflexivity].
Qed.

(** Up to 9223372036 seconds the client's timeout is the definition's
    timeout, in nanoseconds. *)
Lemma newClient_in_range (t : Task) :
  0 < Timeout t <= 9223372036 ->
  client_Timeout (newClient t) = Timeout t * Second /\ 0 < client_Timeout (newClient t).
Proof.
  intros Hr. unfold newClient, wrap64, Second. simpl client_Timeout.
  assert (E : (Timeout t * 1000000000 + 2 ^ 63) mod 2 ^ 64
              = Timeout t * 1000000000 + 2 ^ 63).
  { apply Z.mod_small. lia. }
  rewrite E. lia.
Qed.

End Timeouts.


(** ** The theorems on the samples *)

Lemma sample_db_keys : NoDup (ID <$> db_tasks sample_db).
Proof. apply (bool_decide_unpack _). vm_compute. exact I. Defined.

Lemma sample_started_orderly : orderly (libs := sample_libs) sample_db sample_started [].
Proof. apply orderly_startup. vm_compute. reflexivity. Defined.

Lemma sample_created_orderly : orderly (libs := sample_libs) sample_db sample_created [].
Proof.
  apply (orderly_request sample_db sample_started [] (CreateTask (Ok request_third) (Ok 3))).
  - exact sample_started_orderly.
  - exact I.
  - cbn [action_ok]. apply (bool_decide_unpack _). vm_compute. exact I.
  - vm_compute. reflexivity.
Defined.

Lemma sample_in_turn_orderly : orderly (libs := sample_libs) sample_db sample_in_turn [].
Proof.
  apply (orderly_request sample_db sample_created [] (DeleteTask 3)).
  - exact sample_created_orderly.
  - exact I.
  - exact I.
  - vm_compute. reflexivity.
Defined.

Lemma sample_served_orderly : orderly (libs := sample_libs) sample_db sample_served [].
Proof.
  apply (orderly_request sample_db sample_created [] (DeleteTask 1)).
  - exact sample_created_orderly.
  - exact I.
  - exact I.
  - vm_compute. reflexivity.
Defined.



Lemma runTask_one_record_witness :
  tasks sample_started !! 1 = Some 0%nat /\
  heap sample_started !! 0%nat = Some task_ping /\
  exists statusText payload,
    writes_record (libs := sample_libs) 1 world_ok sample_started 1 statusText payload.
Proof.
  assert (H1 : tasks sample_started !! 1 = Some 0%nat) by (vm_compute; reflexivity).
  assert (H2 : heap sample_started !! 0%nat = Some task_ping) by (vm_compute; reflexivity).
  split; [exact H1|]. split; [exact H2|].
  exact (proj1 (runTask_one_record (libs := sample_libs) 1 world_ok sample_started)
           0%nat task_ping H1 H2).
Defined.

Lemma bad_cron_defined_unscheduled_witness :
  heap sample_loading !! 1%nat = Some task_broken /\
  cron_Parse_err (Libraries := sample_libs) (CronExpr task_broken)
  = Some "expected exactly 6 fields"%string /\
  exists s', registerTask (libs := sample_libs) 1 sample_loading = Some s' /\
    stdout s' = stdout sample_loading
                ++ [line_register_failed task_broken "expected exactly 6 fields"] /\
    tasks s' !! 2 = Some 1%nat /\ cronIDs s' = cronIDs sample_loading.
Proof.
  assert (H1 : heap sample_loading !! 1%nat = Some task_broken) by (vm_compute; reflexivity).
  assert (H2 : cron_Parse_err (Libraries := sample_libs) (CronExpr task_broken)
               = Some "expected exactly 6 fields"%string) by (vm_compute; reflexivity).
  split; [exact H1|]. split; [exact H2|].
  destruct (bad_cron_defined_unscheduled (libs := sample_libs) 1 task_broken _ sample_loading H1 H2)
    as (s' & E1 & E2 & E3 & E4 & _).
  exists s'. auto.
Defined.

Lemma unregister_releases_and_is_idempotent_witness :
  cronIDs sample_started !! 1 = Some 1 /\
  c (unregisterTask 1 sample_started) = Remove 1 (c sample_started) /\
  (forall e, e ∈ entries (c (unregisterTask 1 sample_started)) -> entry_ID e <> 1) /\
  (forall w, fire (libs := sample_libs) 1 w (unregisterTask 1 sample_started)
             = Some (unregisterTask 1 sample_started)).
Proof.
  assert (H1 : cronIDs sample_started !! 1 = Some 1) by (vm_compute; reflexivity).
  split; [exact H1|].
  exact (proj1 (proj2 (proj2
           (unregister_releases_and_is_idempotent (libs := sample_libs) 1 sample_started)))
           1 H1).
Defined.

Lemma request_construction_witness :
  newRequest (libs := sample_libs) task_broken
  = Ok (mkRequest "POST" "http://example.test/hook" (Some "{}"%string)
          (<["Content-Type"%string := ["application/json"%string]]> ∅)) /\
  Method task_broken = "POST"%string /\
  mkRequest "POST" "http://example.test/hook" (Some "{}"%string)
    (<["Content-Type"%string := ["application/json"%string]]> ∅)
  = mkRequest "POST" (URL task_broken) (Some (Body task_broken))
      (<[CanonicalMIMEHeaderKey (Libraries := sample_libs) "Content-Type"
         := ["application/json"%string]]> ∅).
Proof.
  assert (H1 : newRequest (libs := sample_libs) task_broken
               = Ok (mkRequest "POST" "http://example.test/hook" (Some "{}"%string)
                       (<["Content-Type"%string := ["application/json"%string]]> ∅)))
    by reflexivity.
  split; [exact H1|]. split; [reflexivity|].
  exact (proj1 (proj2 (request_construction (libs := sample_libs) task_broken)) _ H1 eq_refl).
Defined.

Lemma execution_record_shape_witness :
  tasks sample_started !! 1 = Some 0%nat /\
  heap sample_started !! 0%nat = Some task_ping /\
  writes_record (libs := sample_libs) 1 world_ok sample_started 1
    (status_summary 200) "{ok:true}".
Proof.
  assert (H1 : tasks sample_started !! 1 = Some 0%nat) by (vm_compute; reflexivity).
  assert (H2 : heap sample_started !! 0%nat = Some task_ping) by (vm_compute; reflexivity).
  split; [exact H1|]. split; [exact H2|].
  exact (proj1 (proj2 (proj2 (proj2
           (execution_record_shape (libs := sample_libs) 1 0%nat task_ping world_ok
              sample_started H1 H2))))
           (mkRequest "GET" "http://example.test/ok" None ∅)
           (mkResponse 200 (Ok "{ok:true}")) "{ok:true}"%string eq_refl eq_refl eq_refl).
Defined.

Lemma bootstrap_registers_own_copies_witness :
  NoDup (ID <$> db_tasks sample_db) /\
  exists s, startup (libs := sample_libs) sample_db = Some s /\
    main (libs := sample_libs) (Ok sample_db) [DeleteTask 1]
    = serve (libs := sample_libs) [DeleteTask 1] s /\
    heap s = [task_ping; task_broken] /\
    NoDup (entry_Job <$> entries (c s)).
Proof.
  split; [exact sample_db_keys|].
  destruct (bootstrap_registers_own_copies (libs := sample_libs) sample_db [DeleteTask 1]
              sample_db_keys) as (s & E1 & E2 & E3 & _ & _ & _ & _ & E4).
  exists s. auto.
Defined.

Lemma create_missing_field_witness :
  (Name request_nameless = ""%string \/ CronExpr request_nameless = ""%string
   \/ URL request_nameless = ""%string) /\
  POST_api_tasks (libs := sample_libs) (Ok request_nameless) (Ok 5) sample_started
  = Some (mkReply 400 (JError "任务名称、Cron表达式和URL是必填项"), sample_started).
Proof.
  assert (H1 : Name request_nameless = ""%string \/ CronExpr request_nameless = ""%string
               \/ URL request_nameless = ""%string) by (left; reflexivity).
  split; [exact H1|].
  exact (create_missing_field (libs := sample_libs) request_nameless (Ok 5) sample_started H1).
Defined.

(** C10.  The handle map does not stay within the definitions map.
    [registerTask] writes the two maps in two critical sections, and a
    delete of the task being created that is served in between finds
    no handle to release: once both requests are over, identifier 3 has
    a handle and no definition, its row is gone, and its timer is still
    in the engine, where every fire only prints that the task is
    missing.  Created again under the same key, the task has two
    timers.  Served one after the other, the same two requests leave
    the handle map within the definitions map and the engine as it
    was. *)
Theorem raced_delete_leaves_handle_without_definition :
  accepted (libs := sample_libs) raced_delete (sample_started, []) = true /\
  serve (libs := sample_libs) raced_delete sample_started = Some (sample_raced, []) /\
  reachable (libs := sample_libs) sample_db sample_raced /\
  tasks sample_raced !! 3 = None /\ cronIDs sample_raced !! 3 = Some 2 /\
  ~ handles_defined sample_raced /\
  db_First 3 (db sample_raced) = None /\
  entry_ID <$> timers_of 3 sample_raced = [2] /\
  (forall w, fire (libs := sample_libs) 2 w sample_raced
             = Some (Printf (line_task_missing 3) sample_raced)) /\
  entry_ID <$> timers_of 3 sample_raced_twice = [2; 3] /\
  serve (libs := sample_libs)
    (undisturbed (CreateTask (Ok request_third) (Ok 3)) ++ undisturbed (DeleteTask 3))
    sample_started = Some (sample_in_turn, []) /\
  handles_defined sample_in_turn /\ cronIDs sample_in_turn !! 3 = None /\
  entries (c sample_in_turn) = entries (c sample_started).
Proof.
  assert (Hacc : accepted (libs := sample_libs) raced_delete (sample_started, []) = true)
    by (vm_compute; reflexivity).
  assert (Hrun : serve (libs := sample_libs) raced_delete sample_started
                 = Some (sample_raced, [])) by (vm_compute; reflexivity).
  assert (Hno : tasks sample_raced !! 3 = None) by (vm_compute; reflexivity).
  assert (Hh : cronIDs sample_raced !! 3 = Some 2) by (vm_compute; reflexivity).
  split; [exact Hacc|]. split; [exact Hrun|]. split.
  { exists []. apply (serving_serve_from sample_db raced_delete sample_started _ [] []);
      [|exact Hacc|exact Hrun].
    apply serving_startup. vm_compute. reflexivity. }
  split; [exact Hno|]. split; [exact Hh|]. split.
  { intros Hsub. assert (Hin : 3 ∈ dom (tasks sample_raced)).
    { apply Hsub. apply elem_of_dom. rewrite Hh. eauto. }
    apply elem_of_dom in Hin. rewrite Hno in Hin. destruct Hin as [? ?]. discriminate. }
  split; [vm_compute; reflexivity|]. split; [vm_compute; reflexivity|].
  split; [intros w; vm_compute; reflexivity|]. split; [vm_compute; reflexivity|].
  split; [vm_compute; reflexivity|]. split.
  - apply ok_handles.
    exact (proj1 (orderly_ok (libs := sample_libs) sample_db sample_in_turn []
                    sample_db_keys sample_in_turn_orderly)).
  - split; vm_compute; reflexivity.
Qed.

(** The bootstrap load registers a row as it is stored: a row whose
    timeout is 0 is dispatched by a client whose [Timeout] is 0. *)
Lemma bootstrap_keeps_stored_timeout :
  (fun s : State =>
     (fun t => client_Timeout (newClient t)) <$> (tasks s !! 4 ≫= fun p => heap s !! p))
    <$> startup (libs := sample_libs) (mkDB [task_legacy] [])
  = Some (Some 0).
Proof. vm_compute. reflexivity. Qed.

(** C7.  A timeout that is positive but above 9223372036 seconds does
    not become the client's deadline.  The create handler keeps
    18446744074 as it is, and [runTask] turns it into a
    [time.Duration] by a 64-bit multiplication that wraps around, to
    290448384 nanoseconds; 9223372037 seconds become a negative
    duration, which [http.Client] takes for no deadline. *)
Theorem timeout_overflows_duration :
  client_Timeout (newClient (with_Timeout 9223372037 request_slow)) = -9223372036709551616 /\
  int64_range (Timeout request_slow) /\
  (fun rs : Reply * State =>
     (fun t => (Timeout t, client_Timeout (newClient t)))
       <$> (tasks rs.2 !! 1 ≫= fun p => heap rs.2 !! p))
    <$> POST_api_tasks (libs := sample_libs) (Ok request_slow) (Ok 1) (init (mkDB [] []))
  = Some (Some (18446744074, 290448384)).
Proof.
  split; [vm_compute; reflexivity|]. split.
  - unfold int64_range, request_slow. simpl. lia.
  - vm_compute. reflexivity.
Qed.

(** * Further properties of the program *)

(** ** List facts used below *)

Section More_list_facts.
Context {A : Type}.

(** Two filters agree on a list when their predicates agree on its
    elements. *)
Lemma filter_agree (P Q : A -> Prop) `{forall x, Decision (P x)} `{forall x, Decision (Q x)}
    (l : list A) :
  (forall x, x ∈ l -> (P x <-> Q x)) -> filter P l = filter Q l.
Proof.
  induction l as [|x l IH]; intros Hpq; [reflexivity|].
  assert (Hx : P x <-> Q x) by (apply Hpq, elem_of_cons; left; reflexivity).
  assert (Hl : filter P l = filter Q l).
  { apply IH. intros y Hy. apply Hpq, elem_of_cons. right. exact Hy. }
  rewrite !filter_cons, Hl.
  destruct (decide (P x)) as [Hp|Hp], (decide (Q x)) as [Hq|Hq]; tauto.
Qed.

Lemma filter_all (P : A -> Prop) `{forall x, Decision (P x)} (l : list A) :
  (forall x, x ∈ l -> P x) -> filter P l = l.
Proof.
  induction l as [|x l IH]; intros Hp; [reflexivity|].
  rewrite filter_cons_True by (apply Hp, elem_of_cons; left; reflexivity).
  f_equal. apply IH. intros y Hy. apply Hp, elem_of_cons. right. exact Hy.
Qed.

Lemma find_none_iff (f : A -> bool) (l : list A) :
  (forall x, x ∈ l -> f x = false) -> List.find f l = None.
Proof.
  intros Hf. destruct (List.find f l) as [x|] eqn:E; [|reflexivity].
  apply find_some in E. destruct E as [Hin Hx].
  apply list_elem_of_In in Hin. rewrite (Hf x Hin) in Hx. discriminate.
Qed.

End More_list_facts.

(** The row of a key in a task table with unique keys. *)
Lemma db_First_unique (t : Task) (d : DB) :
  NoDup (ID <$> db_tasks d) -> t ∈ db_tasks d -> db_First (ID t) d = Some t.
Proof.
  intros Hk Ht. unfold db_First.
  destruct (List.find _ (db_tasks d)) as [r|] eqn:E.
  - apply find_some in E. destruct E as [Hin Hid].
    apply bool_decide_eq_true in Hid. apply list_elem_of_In in Hin.
    f_equal. exact (NoDup_fmap_eq ID (db_tasks d) r t Hk Hin Ht Hid).
  - apply list_elem_of_In in Ht. pose proof (find_none _ _ E t Ht) as N.
    apply bool_decide_eq_false in N. destruct N. reflexivity.
Qed.

(** ** What a dispatch can and cannot change *)

Section Dispatch_effects.
Context {libs : Libraries}.

(** X1.  Whatever the identifier, the world and the outcome, a run of
    [runTask] leaves both registry maps, the engine, the task objects
    and the task table as they are; it keeps every record of the record
    table and adds at most one; it keeps every line of standard output
    and prints at least one and at most three more. *)
Theorem runTask_effects (id : Z) (w : World) (s s' : State) :
  runTask id w s = Some s' ->
  tasks s' = tasks s /\ cronIDs s' = cronIDs s /\ c s' = c s /\ heap s' = heap s /\
  db_tasks (db s') = db_tasks (db s) /\
  (exists records, db_logs (db s') = db_logs (db s) ++ records /\ (length records <= 1)%nat) /\
  (exists lines, stdout s' = stdout s ++ lines /\ (1 <= length lines <= 3)%nat).
Proof.
  unfold runTask. destruct (tasks s !! id) as [p|]; simpl.
  - destruct (heap s !! p) as [t|]; simpl; [|discriminate].
    unfold setHeaders, appendLog.
    destruct (newRequest t) as [req|e1];
      [destruct (String.eqb (Headers t) "");
         [|destruct (json_Unmarshal (Headers t)) as [hs|e2]];
       (destruct (client_Do w _ _) as [resp|e3]; [destruct (resp_ReadAll resp) as [b|e4]|])|];
      destruct (db_Create_Log w) as [k|e5]; intros [= <-]; simpl;
      repeat (split; [reflexivity|]);
      (split;
        [first [ exists []; split; [symmetry; apply app_nil_r|simpl; lia]
               | eexists [_]; split; [reflexivity|simpl; lia] ]
        |rewrite <- ?app_assoc; eexists; split; [reflexivity|simpl; lia]]).
  - intros [= <-]. simpl. repeat (split; [reflexivity|]). split.
    + exists []. split; [symmetry; apply app_nil_r|simpl; lia].
    + eexists. split; [reflexivity|simpl; lia].
Qed.

End Dispatch_effects.

(** ** The create and delete handlers *)

Section Handler_effects.
Context {libs : Libraries}.

(** X2.  The create handler always answers, with status 200, 400 or
    500; whenever the answer is not 200 the whole state is what it was;
    and the answer is 200 exactly when the request binds, has a name, a
    cron expression and a URL, and the store accepts the row, whatever
    the cron expression, the method or the header text are. *)
Theorem create_answers_or_changes_nothing (bind : result Task) (create : result Z) (s : State) :
  exists r s', POST_api_tasks bind create s = Some (r, s') /\
    (reply_code r = 200 \/ reply_code r = 400 \/ reply_code r = 500) /\
    (reply_code r <> 200 -> s' = s) /\
    (reply_code r = 200 <->
     exists req id, bind = Ok req /\ create = Ok id /\
       Name req <> "" /\ CronExpr req <> "" /\ URL req <> "").
Proof.
  unfold POST_api_tasks. destruct bind as [req|e].
  - destruct (String.eqb (Name req) "") eqn:E1; simpl.
    { eexists _, _. split; [reflexivity|]. simpl. split; [auto|]. split; [reflexivity|].
      apply String.eqb_eq in E1. split; [discriminate|].
      intros (req' & id & [= <-] & _ & N & _). contradiction. }
    destruct (String.eqb (CronExpr req) "") eqn:E2; simpl.
    { eexists _, _. split; [reflexivity|]. simpl. split; [auto|]. split; [reflexivity|].
      apply String.eqb_eq in E2. split; [discriminate|].
      intros (req' & id & [= <-] & _ & _ & N & _). contradiction. }
    destruct (String.eqb (URL req) "") eqn:E3; simpl.
    { eexists _, _. split; [reflexivity|]. simpl. split; [auto|]. split; [reflexivity|].
      apply String.eqb_eq in E3. split; [discriminate|].
      intros (req' & id & [= <-] & _ & _ & _ & N). contradiction. }
    apply String.eqb_neq in E1, E2, E3. destruct create as [id|e].
    + set (req' := with_ID id _). set (s1 := set_db (db_insert_task req') s).
      destruct (registerTask_returns (new_Task req' s1).1 req' (new_Task req' s1).2
                  (new_Task_lookup req' s1)) as [s3 Hr].
      simpl in Hr. rewrite Hr. simpl. eexists _, _. split; [reflexivity|]. simpl.
      split; [auto|]. split; [intros N; destruct N; reflexivity|].
      split; [|reflexivity]. intros _. exists req, id. auto.
    + eexists _, _. split; [reflexivity|]. simpl. split; [auto|]. split; [reflexivity|].
      split; [discriminate|]. intros (req' & id & _ & N & _). discriminate.
  - eexists _, _. split; [reflexivity|]. simpl. split; [auto|]. split; [reflexivity|].
    split; [discriminate|]. intros (req' & id & N & _). discriminate.
Qed.

(** The create handler when the request has its required fields and the
    store accepts the row. *)
Lemma POST_api_tasks_accepted (req : Task) (id : Z) (s : State) :
  Name req <> "" -> CronExpr req <> "" -> URL req <> "" ->
  exists s' t, POST_api_tasks (Ok req) (Ok id) s = Some (mkReply 200 (JTask t), s') /\
    t = with_ID id (if Timeout req <=? 0 then with_Timeout 10 req else req) /\
    db_tasks (db s') = db_tasks (db s) ++ [t] /\ db_logs (db s') = db_logs (db s) /\
    heap s' = heap s ++ [t] /\ tasks s' = <[id := length (heap s)]> (tasks s) /\
    match cron_Parse_err (CronExpr req) with
    | None =>
        cronIDs s' = <[id := nextID (c s) + 1]> (cronIDs s) /\
        c s' = mkCron (entries (c s) ++ [mkEntry (nextID (c s) + 1) (CronExpr req) (length (heap s))])
                      (nextID (c s) + 1) (running (c s)) /\
        stdout s' = stdout s ++ [line_registered t]
    | Some err =>
        cronIDs s' = cronIDs s /\ c s' = c s /\
        stdout s' = stdout s ++ [line_register_failed t err]
    end.
Proof.
  intros H1 H2 H3. unfold POST_api_tasks.
  apply String.eqb_neq in H1, H2, H3. rewrite H1, H2, H3. cbn [orb].
  set (t := with_ID id _). set (s1 := set_db (db_insert_task t) s).
  assert (Hcron : CronExpr t = CronExpr req).
  { subst t. destruct (Timeout req <=? 0); reflexivity. }
  pose proof (new_Task_lookup t s1) as Hp. rewrite <- Hcron.
  destruct (cron_Parse_err (CronExpr t)) as [err|] eqn:E.
  - pose proof (registerTask_bad_cron _ t err _ Hp E) as Hr.
    simpl in Hr. simpl. rewrite Hr. simpl. eexists _, t. split; [reflexivity|].
    simpl. repeat (split; [reflexivity|]). reflexivity.
  - pose proof (registerTask_good_cron _ t _ Hp E) as Hr.
    simpl in Hr. simpl. rewrite Hr. simpl. eexists _, t. split; [reflexivity|].
    simpl. repeat (split; [reflexivity|]). reflexivity.
Qed.


(** X3.  A create request with its required fields and without
    records of its own, accepted by the store under key [id] and
    served with nothing in between, is answered 200 with the stored
    task: the request with [id] as identifier and its timeout replaced
    by 10 if it was not positive.  That task is appended to the task
    table and put in a cell of its own, to which the definitions map
    points [id]; the record table is untouched.  If the cron
    expression parses, the engine gets one new entry under a new
    handle, stored for [id]; if it does not, the handle map and the
    engine are left alone and the failure is only printed: the answer
    is 200 all the same. *)
Theorem create_effects (req : Task) (id : Z) (s : State) :
  Name req <> "" -> CronExpr req <> "" -> URL req <> "" -> Logs req = [] ->
  exists s' t, POST_api_tasks (Ok req) (Ok id) s = Some (mkReply 200 (JTask t), s') /\
    ID t = id /\ 0 < Timeout t /\ Logs t = [] /\
    Timeout t = (if Timeout req <=? 0 then 10 else Timeout req) /\
    with_Timeout 0 (with_ID 0 t) = with_Timeout 0 (with_ID 0 req) /\
    db_tasks (db s') = db_tasks (db s) ++ [t] /\ db_logs (db s') = db_logs (db s) /\
    heap s' = heap s ++ [t] /\ tasks s' = <[id := length (heap s)]> (tasks s) /\
    match cron_Parse_err (CronExpr req) with
    | None =>
        cronIDs s' = <[id := nextID (c s) + 1]> (cronIDs s) /\
        c s' = mkCron (entries (c s) ++ [mkEntry (nextID (c s) + 1) (CronExpr req) (length (heap s))])
                      (nextID (c s) + 1) (running (c s)) /\
        stdout s' = stdout s ++ [line_registered t]
    | Some err =>
        cronIDs s' = cronIDs s /\ c s' = c s /\
        stdout s' = stdout s ++ [line_register_failed t err]
    end.
Proof.
  intros H1 H2 H3 Hlogs.
  destruct (POST_api_tasks_accepted req id s H1 H2 H3) as (s' & t & E & -> & Rest).
  exists s', (with_ID id (if Timeout req <=? 0 then with_Timeout 10 req else req)).
  split; [exact E|]. split; [reflexivity|].
  destruct (Timeout req <=? 0) eqn:Hto.
  - split; [simpl; lia|]. split; [exact Hlogs|].
    split; [reflexivity|]. split; [reflexivity|exact Rest].
  - apply Z.leb_gt in Hto. split; [exact Hto|]. split; [exact Hlogs|].
    split; [reflexivity|]. split; [reflexivity|exact Rest].
Qed.

(** X4.  Deleting a task the store has a row for, with nothing in
    between, is answered 200 and leaves no row with its identifier and
    no entry for it in either registry map.  Rows and map entries of
    other identifiers are kept.  After it, a second delete and a
    run-now on the identifier are answered 404 and change nothing, and a
    dispatch that still arrives for it writes no record. *)
Theorem delete_then_gone (id : Z) (row : Task) (s : State) :
  db_First id (db s) = Some row ->
  (DELETE_api_tasks id s).1 = mkReply 200 (JMessage "任务已删除") /\
  db_First id (db (DELETE_api_tasks id s).2) = None /\
  tasks (DELETE_api_tasks id s).2 !! id = None /\
  cronIDs (DELETE_api_tasks id s).2 !! id = None /\
  (forall t, ID t <> id ->
     (t ∈ db_tasks (db (DELETE_api_tasks id s).2) <-> t ∈ db_tasks (db s))) /\
  (forall id', id' <> id ->
     tasks (DELETE_api_tasks id s).2 !! id' = tasks s !! id' /\
     cronIDs (DELETE_api_tasks id s).2 !! id' = cronIDs s !! id') /\
  DELETE_api_tasks id (DELETE_api_tasks id s).2
  = (mkReply 404 (JError "任务不存在"), (DELETE_api_tasks id s).2) /\
  POST_api_tasks_run id (DELETE_api_tasks id s).2
  = (mkReply 404 (JError "任务不存在"), None) /\
  (forall w, exists s'', runTask id w (DELETE_api_tasks id s).2 = Some s'' /\
     db s'' = db (DELETE_api_tasks id s).2).
Proof.
  intros Hrow. destruct (db_First_ID id (db s) row Hrow) as [Hid _].
  assert (Heq : DELETE_api_tasks id s
                = (mkReply 200 (JMessage "任务已删除"),
                   set_db (db_Delete row) (unregisterTask id s))).
  { unfold DELETE_api_tasks. rewrite Hrow, Hid. reflexivity. }
  rewrite Heq. cbn [fst snd]. clear Heq.
  set (s' := set_db (db_Delete row) (unregisterTask id s)).
  assert (Hgone : db_First id (db s') = None).
  { unfold db_First. apply find_none_iff. intros r Hr. simpl in Hr.
    apply list_elem_of_filter in Hr. destruct Hr as [Hne _].
    apply bool_decide_eq_false. congruence. }
  assert (Ht : tasks s' !! id = None).
  { simpl. unfold unregisterTask. destruct (cronIDs s !! id); apply lookup_delete_eq. }
  assert (Hc : cronIDs s' !! id = None).
  { simpl. unfold unregisterTask. destruct (cronIDs s !! id) eqn:E; simpl;
      [apply lookup_delete_eq|exact E]. }
  assert (Hrows : db_tasks (db s') = filter (fun r => ID r <> id) (db_tasks (db s))).
  { simpl. rewrite Hid. unfold unregisterTask. destruct (cronIDs s !! id); reflexivity. }
  split; [reflexivity|]. split; [exact Hgone|].
  split; [exact Ht|]. split; [exact Hc|].
  split. { intros t Hne. rewrite Hrows, list_elem_of_filter. tauto. }
  split. { intros id' Hne. subst s'. simpl. unfold unregisterTask.
           destruct (cronIDs s !! id); simpl; rewrite ?lookup_delete_ne by congruence; auto. }
  split. { fold s'. unfold DELETE_api_tasks. rewrite Hgone. reflexivity. }
  split. { fold s'. unfold POST_api_tasks_run. rewrite Hgone. reflexivity. }
  intros w. fold s'. rewrite (runTask_missing id w s' Ht). eexists. split; reflexivity.
Qed.

End Handler_effects.

(** ** The registry and the store over whole runs *)

Section Run_properties.
Context {libs : Libraries}.

(** X5.  Whatever the interleaving, each entry of the definitions map
    points to a task object that carries the identifier it is filed
    under.  When create and delete requests are served one at a time,
    the store has a row for every identifier of the definitions map,
    and the row says what the definition says: the registry holds no
    definition the store does not have, nor one that differs from the
    stored one in a field the registry or the dispatcher reads. *)
Theorem definition_is_stored_row (d : DB) :
  NoDup (ID <$> db_tasks d) ->
  (forall s pool id p, serving d s pool -> tasks s !! id = Some p ->
     exists t, heap s !! p = Some t /\ ID t = id) /\
  (forall s pool id p, orderly d s pool -> tasks s !! id = Some p ->
     exists t row, heap s !! p = Some t /\ db_First id (db s) = Some row /\
       definition_of row = definition_of t).
Proof.
  intros Hk. split.
  - intros s pool id p Hr Hid.
    exact (safe_tasks s (proj1 (serving_safe d s pool Hk Hr)) id p Hid).
  - intros s pool id p Hr Hid. destruct (orderly_ok d s pool Hk Hr) as (Hok & Hf & _).
    destruct (ok_tasks s Hok id p Hid) as (t & Ht & E).
    exists t, t. split; [exact Ht|]. split; [|reflexivity]. subst id.
    apply db_First_unique.
    + exact (ok_keys s Hok).
    + exact (ok_stored s Hf (ID t) p t Hid Ht).
Qed.



Lemma DELETE_unregisters (id : Z) (row : Task) (s : State) :
  db_First id (db s) = Some row ->
  tasks (DELETE_api_tasks id s).2 !! id = None /\
  cronIDs (DELETE_api_tasks id s).2 !! id = None.
Proof.
  intros Hrow. destruct (db_First_ID id (db s) row Hrow) as [Hid _].
  unfold DELETE_api_tasks. rewrite Hrow, Hid. simpl. unfold unregisterTask.
  destruct (cronIDs s !! id) eqn:E; simpl; rewrite ?lookup_delete_eq; auto.
Qed.

(** X8.  Whatever the interleaving, the critical section of a delete
    removes no timer of another identifier: every other identifier has
    the timers it had.  When create and delete requests are served one
    at a time, deleting a task removes its timer: afterwards no timer
    of the engine runs the deleted identifier. *)
Theorem delete_removes_only_its_timer (d : DB) :
  NoDup (ID <$> db_tasks d) ->
  (forall s pool id id', serving d s pool -> id' <> id ->
     timers_of id' (unregisterTask id s) = timers_of id' s) /\
  (forall s pool id, orderly d s pool -> is_Some (db_First id (db s)) ->
     timers_of id (DELETE_api_tasks id s).2 = []).
Proof.
  intros Hk. split.
  - intros s pool id id' Hr Hne. destruct (serving_safe d s pool Hk Hr) as [Hs _].
    unfold timers_of, unregisterTask. destruct (cronIDs s !! id) as [h|] eqn:Hh; [|reflexivity].
    simpl. rewrite list_filter_filter. apply filter_agree. intros e He. split; [tauto|].
    intros Hp. split; [exact Hp|]. intros Eh.
    destruct (safe_handle s Hs id h Hh) as (e2 & t2 & He2 & E2 & Ht2 & Hid2).
    assert (e = e2).
    { apply (NoDup_fmap_eq entry_ID (entries (c s))); try assumption.
      - exact (safe_nodup s Hs).
      - congruence. }
    subst e2. rewrite Ht2 in Hp. simpl in Hp. injection Hp as Hp. congruence.
  - intros s pool id Hr [row Hrow]. destruct (orderly_ok d s pool Hk Hr) as (Hok & _ & _).
    pose proof (registry_ok_timers _ id (proj1 (DELETE_api_tasks_ok id s Hok))) as Hlen.
    destruct (DELETE_unregisters id row s Hrow) as [_ Hc]. rewrite Hc in Hlen.
    destruct (timers_of id _); [reflexivity|discriminate].
Qed.


End Run_properties.

(** ** Create followed by delete *)

Section Round_trip.
Context {libs : Libraries}.

(** X10.  Creating a task and then deleting it restores the registry and
    the task table: when create and delete requests are served one at a
    time, a create accepted under a key new to the task table followed
    by the delete of that key leaves both registry maps, the entries of
    the engine and the task table exactly as they were before the
    create, whether the cron expression parsed or not.  Only the
    engine's handle counter moves on, by one when the expression
    parsed. *)
Theorem create_then_delete (d : DB) (s : State) (pool : list Thread) (req : Task) (id : Z) :
  NoDup (ID <$> db_tasks d) -> orderly d s pool ->
  id ∉ ID <$> db_tasks (db s) ->
  Name req <> "" -> CronExpr req <> "" -> URL req <> "" ->
  exists r s1 s2, POST_api_tasks (Ok req) (Ok id) s = Some (r, s1) /\
    DELETE_api_tasks id s1 = (mkReply 200 (JMessage "任务已删除"), s2) /\
    orderly d s2 pool /\
    tasks s2 = tasks s /\ cronIDs s2 = cronIDs s /\
    entries (c s2) = entries (c s) /\ db_tasks (db s2) = db_tasks (db s) /\
    nextID (c s2)
    = nextID (c s) + (match cron_Parse_err (CronExpr req) with None => 1 | Some _ => 0 end).
Proof.
  intros Hk Hr Hfresh H1 H2 H3. destruct (orderly_ok d s pool Hk Hr) as (Hok & _ & _).
  destruct (POST_api_tasks_accepted req id s H1 H2 H3)
    as (s1 & t & E & Et & Hrows & _ & _ & Htasks & Hcron).
  assert (Hid : ID t = id) by (rewrite Et; reflexivity).
  assert (Hnone : tasks s !! id = None).
  { destruct (tasks s !! id) eqn:N; [|reflexivity].
    destruct Hfresh. apply (ok_rows s Hok). eauto. }
  pose proof (no_handle_without_definition s id (ok_handles s Hok) Hnone) as Hnoh.
  assert (Hrow : db_First id (db s1) = Some t).
  { rewrite <- Hid. apply db_First_unique.
    - rewrite Hrows, fmap_app. apply NoDup_app. split; [exact (ok_keys s Hok)|].
      split; [|apply NoDup_singleton].
      intros x Hx Hx'. simpl in Hx'. apply list_elem_of_singleton in Hx'.
      subst x. rewrite Hid in Hx. exact (Hfresh Hx).
    - rewrite Hrows. apply elem_of_app. right. apply list_elem_of_singleton. reflexivity. }
  assert (Hdel : DELETE_api_tasks id s1
                 = (mkReply 200 (JMessage "任务已删除"),
                    set_db (db_Delete t) (unregisterTask id s1))).
  { unfold DELETE_api_tasks. rewrite Hrow, Hid. reflexivity. }
  exists (mkReply 200 (JTask t)), s1, (set_db (db_Delete t) (unregisterTask id s1)).
  split; [exact E|]. split; [exact Hdel|]. split.
  { apply (orderly_request d s1 pool (DeleteTask id)); [|exact I|exact I|].
    - apply (orderly_request d s pool (CreateTask (Ok req) (Ok id)));
        [exact Hr|exact I|exact Hfresh|].
      rewrite CreateTask_undisturbed, E. reflexivity.
    - rewrite DeleteTask_undisturbed, Hdel. reflexivity. }
  destruct (unregisterTask_fields id s1) as (F1 & F2 & _ & F4 & _ & F6).
  assert (Htab : db_tasks (db (set_db (db_Delete t) (unregisterTask id s1))) = db_tasks (db s)).
  { change (filter (fun r => ID r <> ID t) (db_tasks (db (unregisterTask id s1)))
            = db_tasks (db s)).
    rewrite F4, Hrows, filter_app, Hid.
    rewrite filter_all.
    - rewrite filter_cons_False by (intros N; apply N; exact Hid).
      apply app_nil_r.
    - intros r Hrin E'. apply Hfresh. rewrite <- E'. apply list_elem_of_fmap_2, Hrin. }
  change (tasks (unregisterTask id s1) = tasks s /\
          cronIDs (unregisterTask id s1) = cronIDs s /\
          entries (c (unregisterTask id s1)) = entries (c s) /\
          db_tasks (db (set_db (db_Delete t) (unregisterTask id s1))) = db_tasks (db s) /\
          nextID (c (unregisterTask id s1))
          = nextID (c s) + match cron_Parse_err (CronExpr req) with
                           | Some _ => 0
                           | None => 1
                           end).
  split; [rewrite F1, Htasks; apply delete_insert_id, Hnone|].
  destruct (cron_Parse_err (CronExpr req)) as [err|].
  - destruct Hcron as (Hc1 & Hc2 & _).
    split; [rewrite F2, Hc1; apply delete_id, Hnoh|].
    assert (Hsame : c (unregisterTask id s1) = c s).
    { rewrite F6, Hc1, Hnoh. exact Hc2. }
    split; [rewrite Hsame; reflexivity|]. split; [exact Htab|].
    rewrite Hsame. lia.
  - destruct Hcron as (Hc1 & Hc2 & _).
    split; [rewrite F2, Hc1; apply delete_insert_id, Hnoh|].
    assert (Hrem : c (unregisterTask id s1)
                   = mkCron (entries (c s)) (nextID (c s) + 1) (running (c s))).
    { rewrite F6, Hc1, lookup_insert_eq, Hc2. unfold Remove. simpl.
      rewrite filter_app, filter_all.
      - rewrite filter_cons_False by (intros N; apply N; reflexivity).
        rewrite app_nil_r. reflexivity.
      - intros e0 He0. pose proof (ok_bound s Hok e0 He0). lia. }
    split; [rewrite Hrem; reflexivity|]. split; [exact Htab|].
    rewrite Hrem. reflexivity.
Qed.

End Round_trip.

(** ** The listing handler *)

Section Listing.
Context {libs : Libraries}.

(** X11.  The listing keeps the number, the order and, except for the
    next-run time, every field of the tasks the store returned,
    whenever it returned them.  Whatever the interleaving, a listed
    task whose identifier has a handle gets the engine's next-run time
    for that handle, which names a timer that is in the engine and
    runs that very identifier; a task whose identifier has no handle
    is listed exactly as the store returned it. *)
Theorem listing_shows_next_run_of_scheduled (d : DB) (s : State) (pool : list Thread)
    (found : list Task) (Entry_Next : Cron -> Z -> Z) :
  NoDup (ID <$> db_tasks d) -> serving d s pool ->
  length (GET_api_tasks found Entry_Next s) = length found /\
  forall i t, found !! i = Some t ->
    exists t', GET_api_tasks found Entry_Next s !! i = Some t' /\
      with_NextRun 0 t' = with_NextRun 0 t /\
      match cronIDs s !! ID t with
      | Some h =>
          NextRun t' = Entry_Next (c s) h /\
          exists e, e ∈ timers_of (ID t) s /\ entry_ID e = h
      | None => t' = t
      end.
Proof.
  intros Hk Hr. destruct (serving_safe d s pool Hk Hr) as [Hs _].
  unfold GET_api_tasks. split; [apply length_fmap|].
  intros i t Hi. rewrite list_lookup_fmap, Hi. simpl. eexists. split; [reflexivity|].
  destruct (cronIDs s !! ID t) as [h|] eqn:Hh.
  - split; [reflexivity|]. split; [reflexivity|].
    destruct (safe_handle s Hs (ID t) h Hh) as (e & t0 & He & E & Ht0 & Hid).
    exists e. split; [|exact E].
    apply list_elem_of_filter. split; [|exact He]. rewrite Ht0. simpl. congruence.
  - split; reflexivity.
Qed.

End Listing.

(** ** The deadline of a created task *)

Section Deadline.
Context {libs : Libraries}.

(** X12.  A task created with a timeout that is not positive is
    dispatched under a deadline of ten seconds, and one created with a
    timeout of at most 9223372036 seconds under exactly that many
    seconds: the client [runTask] builds for the registered definition
    has that [Timeout], in nanoseconds, and it is positive. *)
Theorem created_task_deadline (req : Task) (id : Z) (s : State) :
  Name req <> "" -> CronExpr req <> "" -> URL req <> "" ->
  Timeout req <= 9223372036 ->
  exists r s' p t, POST_api_tasks (Ok req) (Ok id) s = Some (r, s') /\
    tasks s' !! id = Some p /\ heap s' !! p = Some t /\
    client_Timeout (newClient t)
    = (if Timeout req <=? 0 then 10 else Timeout req) * Second /\
    0 < client_Timeout (newClient t).
Proof.
  intros H1 H2 H3 Hmax.
  destruct (create_sets_positive_timeout req id s H1 H2 H3)
    as (s' & t & E & Hheap & Htasks & _ & _ & Hpos & Hto).
  exists (mkReply 200 (JTask t)), s', (length (heap s)), t.
  split; [exact E|]. split; [exact Htasks|]. split; [exact Hheap|].
  rewrite <- Hto. apply newClient_in_range. split; [exact Hpos|].
  rewrite Hto. destruct (Timeout req <=? 0); lia.
Qed.

End Deadline.

(** ** The order in which the configured headers are set *)

Section Header_order.
Context {libs : Libraries}.

Lemma Request_eq (a b : Request) :
  req_Method a = req_Method b -> req_URL a = req_URL b ->
  req_Body a = req_Body b -> req_Header a = req_Header b -> a = b.
Proof. destruct a, b. simpl. intros -> -> -> ->. reflexivity. Qed.

(** X13.  Go visits the decoded header map in an order of its own
    choosing.  When no two configured names have the same canonical
    form, that order does not matter: setting the same headers in any
    other order builds the very request [runTask] sends. *)
Theorem headers_order_irrelevant (t : Task) (req : Request) (s : State)
    (headers visited : list (string * string)) :
  Headers t <> "" -> json_Unmarshal (Headers t) = Ok headers ->
  NoDup ((fun kv => CanonicalMIMEHeaderKey kv.1) <$> headers) ->
  visited ≡ₚ headers ->
  foldl (fun r kv => Header_Set kv.1 kv.2 r) req visited = (setHeaders t req s).1.
Proof.
  intros Hne Hdec Hnd Hperm. unfold setHeaders.
  apply String.eqb_neq in Hne. rewrite Hne, Hdec. cbn [fst].
  assert (Hnd' : NoDup ((fun kv => CanonicalMIMEHeaderKey kv.1) <$> visited)).
  { rewrite Hperm. exact Hnd. }
  destruct (set_all_fields req visited) as (A1 & A2 & A3).
  destruct (set_all_fields req headers) as (B1 & B2 & B3).
  apply Request_eq; [congruence|congruence|congruence|].
  apply map_eq. intros name.
  destruct (decide (name ∈ (fun kv => CanonicalMIMEHeaderKey kv.1) <$> headers)) as [Hin|Hout].
  - apply list_elem_of_fmap in Hin. destruct Hin as ([k v] & -> & Hkv). simpl.
    rewrite (set_all_exact req headers k v Hnd Hkv).
    apply (set_all_exact req visited k v Hnd'). rewrite Hperm. exact Hkv.
  - assert (Hno : forall k v, (k, v) ∈ headers -> CanonicalMIMEHeaderKey k <> name).
    { intros k v Hkv E. apply Hout. apply list_elem_of_fmap.
      exists (k, v). split; [symmetry; exact E|exact Hkv]. }
    rewrite (set_all_other req headers name Hno).
    apply set_all_other. intros k v Hkv. apply (Hno k v). rewrite <- Hperm. exact Hkv.
Qed.

End Header_order.

(** ** Deletes of different tasks *)

Section Delete_order.
Context {libs : Libraries}.

Lemma State_eq (a b : State) :
  db a = db b -> tasks a = tasks b -> cronIDs a = cronIDs b -> c a = c b ->
  heap a = heap b -> stdout a = stdout b -> a = b.
Proof. destruct a, b. simpl. intros -> -> -> -> -> ->. reflexivity. Qed.

Lemma find_filter {A : Type} (f : A -> bool) (P : A -> Prop) `{forall x, Decision (P x)}
    (l : list A) :
  (forall x, f x = true -> P x) -> List.find f (filter P l) = List.find f l.
Proof.
  intros Hfp. induction l as [|x l IH]; [reflexivity|].
  rewrite filter_cons. destruct (decide (P x)) as [Hp|Hp]; simpl.
  - rewrite IH. reflexivity.
  - destruct (f x) eqn:E; [destruct (Hp (Hfp x E))|exact IH].
Qed.

Lemma Remove_Remove (h1 h2 : Z) (cr : Cron) :
  Remove h1 (Remove h2 cr) = Remove h2 (Remove h1 cr).
Proof.
  unfold Remove. simpl. f_equal. rewrite !list_filter_filter.
  apply list_filter_iff. intros e. tauto.
Qed.

Lemma db_Delete_db_Delete (r1 r2 : Task) (d : DB) :
  db_Delete r1 (db_Delete r2 d) = db_Delete r2 (db_Delete r1 d).
Proof.
  unfold db_Delete. simpl. f_equal. rewrite !list_filter_filter.
  apply list_filter_iff. intros x. tauto.
Qed.

(** The state after the DELETE handler, field by field. *)
Lemma DELETE_api_tasks_fields (id : Z) (s : State) :
  (DELETE_api_tasks id s).2
  = match db_First id (db s) with
    | Some row =>
        mkState (db_Delete row (db s)) (delete id (tasks s)) (delete id (cronIDs s))
                (match cronIDs s !! id with Some h => Remove h (c s) | None => c s end)
                (heap s) (stdout s)
    | None => s
    end.
Proof.
  unfold DELETE_api_tasks. destruct (db_First id (db s)) as [row|] eqn:Hrow; [|reflexivity].
  destruct (db_First_ID id (db s) row Hrow) as [Hid _]. cbn [snd]. rewrite Hid.
  destruct (unregisterTask_fields id s) as (F1 & F2 & F3 & F4 & F5 & F6).
  apply State_eq; unfold set_db; cbn [db tasks cronIDs c heap stdout];
    rewrite ?F1, ?F2, ?F3, ?F4, ?F5, ?F6; reflexivity.
Qed.

Lemma db_First_after_delete (id id' : Z) (row : Task) (d : DB) :
  ID row = id -> id' <> id -> db_First id' (db_Delete row d) = db_First id' d.
Proof.
  intros Hid Hne. unfold db_First, db_Delete. simpl. apply find_filter.
  intros x Hx. apply bool_decide_eq_true in Hx. congruence.
Qed.

(** X14.  Deletes of two different tasks can be served in either order:
    each is answered the same whether or not the other came first, and
    the two orders end in the same state. *)
Theorem deletes_commute (id1 id2 : Z) (s : State) :
  id1 <> id2 ->
  (DELETE_api_tasks id2 (DELETE_api_tasks id1 s).2).2
  = (DELETE_api_tasks id1 (DELETE_api_tasks id2 s).2).2 /\
  (DELETE_api_tasks id1 (DELETE_api_tasks id2 s).2).1 = (DELETE_api_tasks id1 s).1 /\
  (DELETE_api_tasks id2 (DELETE_api_tasks id1 s).2).1 = (DELETE_api_tasks id2 s).1.
Proof.
  intros Hne.
  assert (Hfirst : forall a b, a <> b ->
            db_First a (db (DELETE_api_tasks b s).2) = db_First a (db s)).
  { intros a b Hab. rewrite DELETE_api_tasks_fields.
    destruct (db_First b (db s)) as [row|] eqn:Hrow; [|reflexivity].
    destruct (db_First_ID b (db s) row Hrow) as [Hid _].
    exact (db_First_after_delete b a row (db s) Hid Hab). }
  assert (Hreply : forall a b, a <> b ->
            (DELETE_api_tasks a (DELETE_api_tasks b s).2).1 = (DELETE_api_tasks a s).1).
  { intros a b Hab. unfold DELETE_api_tasks at 1 3. rewrite (Hfirst a b Hab).
    destruct (db_First a (db s)); reflexivity. }
  split; [|split; [exact (Hreply id1 id2 Hne)|apply Hreply; congruence]].
  rewrite (DELETE_api_tasks_fields id2 (DELETE_api_tasks id1 s).2).
  rewrite (DELETE_api_tasks_fields id1 (DELETE_api_tasks id2 s).2).
  rewrite (Hfirst id2 id1) by congruence. rewrite (Hfirst id1 id2 Hne).
  rewrite (DELETE_api_tasks_fields id1 s), (DELETE_api_tasks_fields id2 s).
  destruct (db_First id1 (db s)) as [r1|], (db_First id2 (db s)) as [r2|]; try reflexivity.
  apply State_eq; simpl.
  - apply db_Delete_db_Delete.
  - apply delete_delete.
  - apply delete_delete.
  - rewrite !lookup_delete_ne by congruence.
    destruct (cronIDs s !! id1) as [h1|], (cronIDs s !! id2) as [h2|]; try reflexivity.
    apply Remove_Remove.
  - reflexivity.
  - reflexivity.
Qed.

End Delete_order.

(** ** Records and the task they belong to *)

Section Record_owner.
Context {libs : Libraries}.

(** X15.  In every state the serving program reaches, a dispatch on a
    defined identifier returns and, when the store accepts the insert,
    appends exactly one record that is filed under the dispatched
    identifier itself and stamped with the time of the write; the state
    it ends in is again one the program reaches. *)
Theorem record_filed_under_dispatched_task (d : DB) (s : State) (id : Z) (p : nat)
    (w : World) (k : Z) :
  NoDup (ID <$> db_tasks d) -> reachable d s ->
  tasks s !! id = Some p -> db_Create_Log w = Ok k ->
  exists s' statusText payload, runTask id w s = Some s' /\
    db_logs (db s') = db_logs (db s) ++ [mkLog k id (time_Now w) statusText payload] /\
    reachable d s'.
Proof.
  intros Hk [pool Hr] Hid Hw.
  destruct (safe_tasks s (proj1 (serving_safe d s pool Hk Hr)) id p Hid) as (t & Ht & E).
  destruct (runTask_found id p t w s Hid Ht) as (s1 & Hrun & _ & _ & _ & _ & _ & _ & Hlogs).
  rewrite Hw, E in Hlogs. eexists _, _, _. split; [exact Hrun|]. split.
  - rewrite E. exact Hlogs.
  - exists pool. exact (serving_runTask d s _ pool id w Hk Hr (mk_is_Some _ _ Hid) Hrun).
Qed.

End Record_owner.


(** ** Handlers and goroutines scheduled with nothing in between *)

Section Undisturbed_service.
Context {libs : Libraries}.


End Undisturbed_service.

(** ** The further properties on the samples *)


Lemma runTask_effects_witness :
  runTask (libs := sample_libs) 2 world_ok sample_started
  = Some (appendLog 2 (status_summary 200) "{ok:true}" world_ok
            (Printf (line_task_started task_broken) sample_started)) /\
  (exists records,
     db_logs (db (appendLog 2 (status_summary 200) "{ok:true}" world_ok
                    (Printf (line_task_started task_broken) sample_started)))
     = db_logs (db sample_started) ++ records /\ (length records <= 1)%nat).
Proof.
  assert (H1 : runTask (libs := sample_libs) 2 world_ok sample_started
               = Some (appendLog 2 (status_summary 200) "{ok:true}" world_ok
                         (Printf (line_task_started task_broken) sample_started)))
    by (vm_compute; reflexivity).
  split; [exact H1|].
  exact (proj1 (proj2 (proj2 (proj2 (proj2 (proj2
           (runTask_effects (libs := sample_libs) 2 world_ok sample_started _ H1))))))).
Defined.

Lemma create_effects_witness :
  Name request_third <> ""%string /\ CronExpr request_third <> ""%string /\
  URL request_third <> ""%string /\ Logs request_third = [] /\
  exists s' t,
    POST_api_tasks (libs := sample_libs) (Ok request_third) (Ok 3) sample_started
    = Some (mkReply 200 (JTask t), s') /\ ID t = 3 /\ 0 < Timeout t /\ Logs t = [].
Proof.
  assert (H1 : Name request_third <> ""%string) by discriminate.
  assert (H2 : CronExpr request_third <> ""%string) by discriminate.
  assert (H3 : URL request_third <> ""%string) by discriminate.
  assert (H4 : Logs request_third = []) by reflexivity.
  split; [exact H1|]. split; [exact H2|]. split; [exact H3|]. split; [exact H4|].
  destruct (create_effects (libs := sample_libs) request_third 3 sample_started H1 H2 H3 H4)
    as (s' & t & E1 & E2 & E3 & E4 & _).
  exists s', t. auto.
Defined.

Lemma delete_then_gone_witness :
  db_First 1 (db sample_started) = Some task_ping /\
  db_First 1 (db (DELETE_api_tasks 1 sample_started).2) = None /\
  tasks (DELETE_api_tasks 1 sample_started).2 !! 1 = None.
Proof.
  assert (H1 : db_First 1 (db sample_started) = Some task_ping) by (vm_compute; reflexivity).
  split; [exact H1|].
  destruct (delete_then_gone (libs := sample_libs) 1 task_ping sample_started H1)
    as (_ & E1 & E2 & _).
  auto.
Defined.

Lemma definition_is_stored_row_witness :
  NoDup (ID <$> db_tasks sample_db) /\
  orderly (libs := sample_libs) sample_db sample_served [] /\
  serving (libs := sample_libs) sample_db sample_served [] /\
  tasks sample_served !! 3 = Some 2%nat /\
  (exists t, heap sample_served !! 2%nat = Some t /\ ID t = 3) /\
  (exists t row, heap sample_served !! 2%nat = Some t /\
     db_First 3 (db sample_served) = Some row /\ definition_of row = definition_of t).
Proof.
  assert (H1 : tasks sample_served !! 3 = Some 2%nat) by (vm_compute; reflexivity).
  pose proof (orderly_serving (libs := sample_libs) _ _ _ sample_served_orderly) as Hs.
  split; [exact sample_db_keys|]. split; [exact sample_served_orderly|].
  split; [exact Hs|]. split; [exact H1|].
  destruct (definition_is_stored_row (libs := sample_libs) sample_db sample_db_keys)
    as [A B].
  split.
  - exact (A sample_served [] 3 2%nat Hs H1).
  - exact (B sample_served [] 3 2%nat sample_served_orderly H1).
Defined.



Lemma delete_removes_only_its_timer_witness :
  NoDup (ID <$> db_tasks sample_db) /\
  orderly (libs := sample_libs) sample_db sample_created [] /\
  serving (libs := sample_libs) sample_db sample_created [] /\
  3 <> 1 /\ is_Some (db_First 1 (db sample_created)) /\
  timers_of 3 (unregisterTask 1 sample_created) = timers_of 3 sample_created /\
  timers_of 1 (DELETE_api_tasks 1 sample_created).2 = [].
Proof.
  assert (H1 : 3 <> 1) by discriminate.
  assert (H2 : is_Some (db_First 1 (db sample_created))).
  { exists task_ping. vm_compute. reflexivity. }
  pose proof (orderly_serving (libs := sample_libs) _ _ _ sample_created_orderly) as Hs.
  split; [exact sample_db_keys|]. split; [exact sample_created_orderly|].
  split; [exact Hs|]. split; [exact H1|]. split; [exact H2|].
  destruct (delete_removes_only_its_timer (libs := sample_libs) sample_db sample_db_keys)
    as [A B].
  split.
  - exact (A sample_created [] 1 3 Hs H1).
  - exact (B sample_created [] 1 sample_created_orderly H2).
Defined.


Lemma create_then_delete_witness :
  NoDup (ID <$> db_tasks sample_db) /\
  orderly (libs := sample_libs) sample_db sample_started [] /\
  (3 ∉ ID <$> db_tasks (db sample_started)) /\
  Name request_third <> ""%string /\ CronExpr request_third <> ""%string /\
  URL request_third <> ""%string /\
  exists r s1 s2,
    POST_api_tasks (libs := sample_libs) (Ok request_third) (Ok 3) sample_started
    = Some (r, s1) /\
    DELETE_api_tasks 3 s1 = (mkReply 200 (JMessage "任务已删除"), s2) /\
    tasks s2 = tasks sample_started /\ cronIDs s2 = cronIDs sample_started /\
    entries (c s2) = entries (c sample_started).
Proof.
  assert (H0 : 3 ∉ ID <$> db_tasks (db sample_started)).
  { apply (bool_decide_unpack _). vm_compute. exact I. }
  assert (H1 : Name request_third <> ""%string) by discriminate.
  assert (H2 : CronExpr request_third <> ""%string) by discriminate.
  assert (H3 : URL request_third <> ""%string) by discriminate.
  split; [exact sample_db_keys|]. split; [exact sample_started_orderly|].
  split; [exact H0|]. split; [exact H1|]. split; [exact H2|]. split; [exact H3|].
  destruct (create_then_delete (libs := sample_libs) sample_db sample_started []
              request_third 3 sample_db_keys sample_started_orderly H0 H1 H2 H3)
    as (r & s1 & s2 & E1 & E2 & _ & E3 & E4 & E5 & _).
  exists r, s1, s2. auto.
Defined.

Lemma listing_shows_next_run_of_scheduled_witness :
  NoDup (ID <$> db_tasks sample_db) /\
  serving (libs := sample_libs) sample_db sample_started [] /\
  [task_broken; task_ping] !! 1%nat = Some task_ping /\
  length (GET_api_tasks [task_broken; task_ping] (fun _ _ => 1700000005) sample_started)
  = 2%nat /\
  exists t', GET_api_tasks [task_broken; task_ping] (fun _ _ => 1700000005) sample_started
             !! 1%nat = Some t' /\
    with_NextRun 0 t' = with_NextRun 0 task_ping.
Proof.
  pose proof (orderly_serving (libs := sample_libs) _ _ _ sample_started_orderly) as Hs.
  assert (H1 : [task_broken; task_ping] !! 1%nat = Some task_ping) by reflexivity.
  split; [exact sample_db_keys|]. split; [exact Hs|]. split; [exact H1|].
  destruct (listing_shows_next_run_of_scheduled (libs := sample_libs) sample_db
              sample_started [] [task_broken; task_ping] (fun _ _ => 1700000005)
              sample_db_keys Hs) as [A B].
  split; [exact A|].
  destruct (B 1%nat task_ping H1) as (t' & E1 & E2 & _).
  exists t'. split; [exact E1|exact E2].
Defined.

Lemma created_task_deadline_witness :
  Name request_third <> ""%string /\ CronExpr request_third <> ""%string /\
  URL request_third <> ""%string /\ Timeout request_third <= 9223372036 /\
  exists r s' p t,
    POST_api_tasks (libs := sample_libs) (Ok request_third) (Ok 3) sample_started
    = Some (r, s') /\
    tasks s' !! 3 = Some p /\ heap s' !! p = Some t /\
    client_Timeout (newClient t) = 10 * Second.
Proof.
  assert (H1 : Name request_third <> ""%string) by discriminate.
  assert (H2 : CronExpr request_third <> ""%string) by discriminate.
  assert (H3 : URL request_third <> ""%string) by discriminate.
  assert (H4 : Timeout request_third <= 9223372036) by (simpl; lia).
  split; [exact H1|]. split; [exact H2|]. split; [exact H3|]. split; [exact H4|].
  destruct (created_task_deadline (libs := sample_libs) request_third 3 sample_started
              H1 H2 H3 H4) as (r & s' & p & t & E1 & E2 & E3 & E4 & _).
  exists r, s', p, t. auto.
Defined.

Lemma headers_order_irrelevant_witness :
  Headers task_broken <> ""%string /\
  json_Unmarshal (Libraries := sample_libs) (Headers task_broken)
  = Ok [("content-type", "text/plain"); ("X-Token", "abc")]%string /\
  NoDup ((fun kv : string * string => CanonicalMIMEHeaderKey (Libraries := sample_libs) kv.1)
           <$> [("content-type", "text/plain"); ("X-Token", "abc")]%string) /\
  [("X-Token", "abc"); ("content-type", "text/plain")]%string
  ≡ₚ [("content-type", "text/plain"); ("X-Token", "abc")]%string /\
  foldl (fun r (kv : string * string) => Header_Set (libs := sample_libs) kv.1 kv.2 r)
        (mkRequest "POST" "http://example.test/hook" (Some "{}"%string) ∅)
        [("X-Token", "abc"); ("content-type", "text/plain")]%string
  = (setHeaders (libs := sample_libs) task_broken
       (mkRequest "POST" "http://example.test/hook" (Some "{}"%string) ∅) sample_started).1.
Proof.
  assert (H1 : Headers task_broken <> ""%string) by (vm_compute; discriminate).
  assert (H2 : json_Unmarshal (Libraries := sample_libs) (Headers task_broken)
               = Ok [("content-type", "text/plain"); ("X-Token", "abc")]%string)
    by (vm_compute; reflexivity).
  assert (H3 : NoDup ((fun kv : string * string =>
                         CanonicalMIMEHeaderKey (Libraries := sample_libs) kv.1)
                        <$> [("content-type", "text/plain"); ("X-Token", "abc")]%string)).
  { apply (bool_decide_unpack _). vm_compute. exact I. }
  assert (H4 : [("X-Token", "abc"); ("content-type", "text/plain")]%string
               ≡ₚ [("content-type", "text/plain"); ("X-Token", "abc")]%string)
    by apply perm_swap.
  split; [exact H1|]. split; [exact H2|]. split; [exact H3|]. split; [exact H4|].
  exact (headers_order_irrelevant (libs := sample_libs) task_broken _ sample_started _ _
           H1 H2 H3 H4).
Defined.

Lemma deletes_commute_witness :
  1 <> 2 /\
  (DELETE_api_tasks 2 (DELETE_api_tasks 1 sample_started).2).2
  = (DELETE_api_tasks 1 (DELETE_api_tasks 2 sample_started).2).2.
Proof.
  assert (H1 : 1 <> 2) by discriminate.
  split; [exact H1|].
  exact (proj1 (deletes_commute 1 2 sample_started H1)).
Defined.

Lemma record_filed_under_dispatched_task_witness :
  NoDup (ID <$> db_tasks sample_db) /\
  reachable (libs := sample_libs) sample_db sample_started /\
  tasks sample_started !! 1 = Some 0%nat /\ db_Create_Log world_ok = Ok 7 /\
  exists s' statusText payload,
    runTask (libs := sample_libs) 1 world_ok sample_started = Some s' /\
    db_logs (db s')
    = db_logs (db sample_started) ++ [mkLog 7 1 (time_Now world_ok) statusText payload] /\
    reachable (libs := sample_libs) sample_db s'.
Proof.
  assert (H1 : tasks sample_started !! 1 = Some 0%nat) by (vm_compute; reflexivity).
  assert (Hr : reachable (libs := sample_libs) sample_db sample_started).
  { exists []. exact (orderly_serving (libs := sample_libs) _ _ _ sample_started_orderly). }
  split; [exact sample_db_keys|]. split; [exact Hr|].
  split; [exact H1|]. split; [reflexivity|].
  exact (record_filed_under_dispatched_task (libs := sample_libs) sample_db sample_started
           1 0%nat world_ok 7 sample_db_keys Hr H1 eq_refl).
Defined.

